(** * Floccus bookmarks to Markdown: the converter and the backup rotation

    A shallow embedding of [src/main.ts] (class [fbmPlugin]):

    - [writeFolderStructure] walks the object tree that the XML parser
      returns for an XBEL document and produces the Markdown text;
    - [backupExistingFile], [deleteOldBackups] and [processXBELFileData]
      act on the vault: the first asks for the previous output to be
      moved into the backup folder under a time-stamped name, the second
      asks for the oldest backups to be trashed, the third sequences one
      whole run;
    - [loadSettings], [saveSettings] and the handler of the keep count
      in the settings tab.

    The parsed document is untyped in the source ([element: any]), so it
    is embedded as a small universe of JavaScript values together with
    the handful of JavaScript operations the source applies to it.  A
    thrown [TypeError] is an explicit result. *)

From Stdlib Require Import String Ascii List Bool Arith ZArith Lia.
From Stdlib Require Import Sorting.Permutation Sorting.Sorted.
Import ListNotations.

Set Warnings "-register-all".

Open Scope string_scope.

(* ================================================================= *)
(** ** JavaScript values *)

Module Js.

(** The values a parsed document is made of: strings, arrays and plain
    objects (own properties in insertion order), plus [undefined], which
    is what reading a missing property gives.  Characters stand for
    UTF-16 code units. *)
Inductive value : Type :=
| VUndefined
| VString (s : string)
| VArray (items : list value)
| VObject (props : list (string * value)).

(** The outcome of an expression that may throw.  Every exception the
    modelled code can raise is a [TypeError]. *)
Inductive result (A : Type) : Type :=
| Ok (a : A)
| TypeError.

Arguments Ok {A} a.
Arguments TypeError {A}.

Definition bind {A B : Type} (r : result A) (f : A -> result B) : result B :=
  match r with
  | Ok a => f a
  | TypeError => TypeError
  end.

Notation "x <- e ;; k" := (bind e (fun x => k))
  (at level 61, e at next level, right associativity).

(** The line feed, ['\n']. *)
Definition LF : string := String (ascii_of_nat 10) "".

(** [s.repeat(n)] *)
Fixpoint repeat_string (s : string) (n : nat) : string :=
  match n with
  | O => ""
  | S n' => s ++ repeat_string s n'
  end.

(** [typeof v === 'object'] *)
Definition typeof_object (v : value) : bool :=
  match v with
  | VArray _ | VObject _ => true
  | VUndefined | VString _ => false
  end.

(** Truthiness, as tested by [v ? a : b]. *)
Definition truthy (v : value) : bool :=
  match v with
  | VUndefined => false
  | VString "" => false
  | VString _ => true
  | VArray _ | VObject _ => true
  end.

(** The own property [k] of an object, if it has one. *)
Fixpoint own (k : string) (ps : list (string * value)) : option value :=
  match ps with
  | [] => None
  | (k', v) :: r => if String.eqb k' k then Some v else own k r
  end.

Definition has_key (k : string) (ps : list (string * value)) : bool :=
  match own k ps with
  | Some _ => true
  | None => false
  end.

(** [own] in continuation style: [found] is applied to the property's
    value, [missing] is the answer when there is no such property.  The
    value handed to [found] is a component of the object, which is what
    lets [writeFolderStructure] recurse into it. *)
Definition with_prop {A : Type} (k : string) (found : value -> A) (missing : A)
  : list (string * value) -> A :=
  fix go (ps : list (string * value)) : A :=
    match ps with
    | [] => missing
    | (k', v) :: r => if String.eqb k' k then found v else go r
    end.

(** [v.k] for a property name [k] that is neither an array index nor a
    member of a built-in prototype; the names the source reads ([title],
    [bookmark], [folder], [$], [href]) are of that kind.  Reading a
    property of [undefined] throws. *)
Definition get (v : value) (k : string) : result value :=
  match v with
  | VUndefined => TypeError
  | VString _ | VArray _ => Ok VUndefined
  | VObject ps =>
      match own k ps with
      | Some x => Ok x
      | None => Ok VUndefined
      end
  end.

(** [v[0]]: the first element of an array, the first code unit of a
    string, the property ["0"] of an object. *)
Definition index0 (v : value) : result value :=
  match v with
  | VUndefined => TypeError
  | VString "" => Ok VUndefined
  | VString (String c _) => Ok (VString (String c ""))
  | VArray [] => Ok VUndefined
  | VArray (x :: _) => Ok x
  | VObject ps =>
      match own "0" ps with
      | Some x => Ok x
      | None => Ok VUndefined
      end
  end.

(** [v.hasOwnProperty(k)] for [v] with [typeof v === 'object'] and [k]
    one of ['folder'], ['bookmark'].  The source calls it as a method of
    the element, so objects are taken to inherit from [Object.prototype];
    an own property of that name hides the method, and since no value of
    a parsed document is callable the call then throws. *)
Definition hasOwnProperty (v : value) (k : string) : result bool :=
  match v with
  | VObject ps =>
      if has_key "hasOwnProperty" ps then TypeError else Ok (has_key k ps)
  | VArray _ => Ok false
  | VUndefined | VString _ => TypeError
  end.

(** [Array.prototype.join] with separator [","]: [undefined] elements
    give the empty string, the others are converted by [str]. *)
Definition join (str : value -> result string) : list value -> result string :=
  fix go (l : list value) : result string :=
    match l with
    | [] => Ok ""
    | x :: r =>
        s <- match x with VUndefined => Ok "" | _ => str x end ;;
        match r with
        | [] => Ok s
        | _ :: _ => t <- go r ;; Ok (s ++ "," ++ t)
        end
    end.

(** String conversion, as performed by a template literal and by [+]
    with a string operand.  A plain object converts through
    [Object.prototype.toString]; when an own property hides that method
    no primitive can be obtained and the conversion throws. *)
Fixpoint toString (v : value) : result string :=
  match v with
  | VUndefined => Ok "undefined"
  | VString s => Ok s
  | VArray items => join toString items
  | VObject ps =>
      if has_key "toString" ps then TypeError else Ok "[object Object]"
  end.

(** [items.forEach(x => { data += f(x) })], starting from [data = ''];
    the first exception ends the loop. *)
Definition forEach (f : value -> result string) : list value -> result string :=
  fix go (l : list value) : result string :=
    match l with
    | [] => Ok ""
    | x :: r => s <- f x ;; t <- go r ;; Ok (s ++ t)
    end.

(** [if (Array.isArray(element.k)) { element.k.forEach(...) }]: [body]
    receives the elements of the array [element.k]; in every other case
    nothing is produced. *)
Definition whenArray (k : string) (body : list value -> result string)
  (element : value) : result string :=
  match element with
  | VObject ps =>
      with_prop k
        (fun v => match v with VArray items => body items | _ => Ok "" end)
        (Ok "") ps
  | _ => Ok ""
  end.

End Js.

Import Js.

(* ================================================================= *)
(** ** The converter *)

(** The body of the loop over [element.bookmark] (main.ts, 183-188):
<<
    const link: string = bookmark.$.href;
    const title: string = bookmark.title[0];
    const linkTitle = `[${title}](${link})`;
    data += linkTitle + '\n';
>> *)
Definition bookmarkLine (bookmark : value) : result string :=
  attrs <- get bookmark "$" ;;
  link <- get attrs "href" ;;
  titles <- get bookmark "title" ;;
  title <- index0 titles ;;
  t <- toString title ;;
  l <- toString link ;;
  Ok ("[" ++ t ++ "](" ++ l ++ ")" ++ LF).

(** The heading of a folder (main.ts, 171-179). *)
Definition folderHeading (element : value) (level : nat) : result string :=
  hasFolder <- hasOwnProperty element "folder" ;;
  hasAny <- (if hasFolder : bool then Ok true
             else hasOwnProperty element "bookmark") ;;
  if hasAny : bool then
    titles <- get element "title" ;;
    folderTitle <- (if truthy titles then index0 titles
                    else Ok (VString "Bookmarks")) ;;
    text <- toString folderTitle ;;
    Ok ((if Nat.eqb level 0 then "" else LF)
        ++ repeat_string "#" (level + 1) ++ " " ++ text ++ LF)
  else Ok "".

(** [writeFolderStructure(element: any, level = 0): string]
    (main.ts, 166-200). *)
Fixpoint writeFolderStructure (element : value) (level : nat) : result string :=
  if typeof_object element then
    heading <- folderHeading element level ;;
    links <- whenArray "bookmark" (forEach bookmarkLine) element ;;
    subs <- whenArray "folder"
              (forEach (fun subfolder => writeFolderStructure subfolder (level + 1)))
              element ;;
    Ok (heading ++ links ++ subs)
  else Ok "".

(* ================================================================= *)
(** ** Bookmark documents *)

(** A bookmark document as a tree: a folder has an optional title and
    its children in document order, a link has a title and a target. *)
Inductive BookmarkNode : Type :=
| Folder (title : option string) (children : list BookmarkNode)
| Link (title : string) (target : string).

Definition is_link (n : BookmarkNode) : bool :=
  match n with
  | Link _ _ => true
  | Folder _ _ => false
  end.

Definition is_folder (n : BookmarkNode) : bool := negb (is_link n).

(** The object the parser returns for a document.  The source has no
    separate normalisation stage: [writeFolderStructure] reads the
    parser's output, in which the children of a folder are grouped by
    tag, the bookmarks in the array [bookmark] and the sub-folders in
    the array [folder], each in document order; a property exists only
    when there is at least one such child, and an element with no
    content at all is the empty string. *)
Fixpoint raw (n : BookmarkNode) : value :=
  match n with
  | Link t u =>
      VObject [("$", VObject [("href", VString u)]); ("title", VArray [VString t])]
  | Folder t cs =>
      let bookmarks := flat_map (fun c => if is_link c then [raw c] else []) cs in
      let folders := flat_map (fun c => if is_folder c then [raw c] else []) cs in
      let props :=
        (match t with Some s => [("title", VArray [VString s])] | None => [] end
         ++ match bookmarks with [] => [] | _ => [("bookmark", VArray bookmarks)] end
         ++ match folders with [] => [] | _ => [("folder", VArray folders)] end)%list in
      match props with
      | [] => VString ""
      | _ => VObject props
      end
  end.

(** What the converter emits, one unit at a time. *)
Inductive emitted : Type :=
| Blank
| Heading (level : nat) (title : string)
| LinkLine (title : string) (target : string).

Definition emitted_text (u : emitted) : string :=
  match u with
  | Blank => LF
  | Heading level title => repeat_string "#" (level + 1) ++ " " ++ title ++ LF
  | LinkLine title target => "[" ++ title ++ "](" ++ target ++ ")" ++ LF
  end.

(** The text of a sequence of heading and link lines: each line in
    turn, a blank line before every heading below the root level. *)
Fixpoint emit (us : list emitted) : string :=
  match us with
  | [] => ""
  | Heading level title :: r =>
      (if Nat.eqb level 0 then "" else emitted_text Blank)
      ++ emitted_text (Heading level title) ++ emit r
  | u :: r => emitted_text u ++ emit r
  end.

Definition heading_title (t : option string) : string :=
  match t with
  | Some s => s
  | None => "Bookmarks"
  end.

Definition link_line (n : BookmarkNode) : list emitted :=
  match n with
  | Link t u => [LinkLine t u]
  | Folder _ _ => []
  end.

(** The nodes of a document that give rise to a line, in document order
    (a folder, then its children from first to last, each with its own
    descendants). *)
Fixpoint doc_order (depth : nat) (n : BookmarkNode) : list emitted :=
  match n with
  | Link t u => [LinkLine t u]
  | Folder t cs =>
      (match cs with
       | [] => []
       | _ :: _ => [Heading depth (heading_title t)]
       end ++ flat_map (doc_order (depth + 1)) cs)%list
  end.

(** The same nodes in the order the converter visits them: a folder,
    then all its links, then its sub-folders. *)
Fixpoint render_order (depth : nat) (n : BookmarkNode) : list emitted :=
  match n with
  | Link t u => []
  | Folder t cs =>
      (match cs with
       | [] => []
       | _ :: _ => [Heading depth (heading_title t)]
       end
       ++ flat_map link_line cs
       ++ flat_map (render_order (depth + 1)) cs)%list
  end.

(** The children of a folder are in the order links, then sub-folders. *)
Fixpoint links_before_folders (cs : list BookmarkNode) : bool :=
  match cs with
  | [] => true
  | Link _ _ :: r => links_before_folders r
  | Folder _ _ :: r => forallb is_folder r
  end.

(** Every folder of the document lists its links before its
    sub-folders. *)
Fixpoint links_first (n : BookmarkNode) : bool :=
  match n with
  | Link _ _ => true
  | Folder _ cs => forallb links_first cs && links_before_folders cs
  end.

Definition example_tree : BookmarkNode :=
  Folder (Some "Bookmarks")
    [Link "Example" "https://example.com";
     Folder (Some "Sub") [Link "Nested" "https://nested.example"]].

Definition example_text : string :=
  "# Bookmarks" ++ LF
  ++ "[Example](https://example.com)" ++ LF
  ++ LF
  ++ "## Sub" ++ LF
  ++ "[Nested](https://nested.example)" ++ LF.

(** A folder that precedes a link among the children of its parent. *)
Definition mixed_tree : BookmarkNode :=
  Folder (Some "A")
    [Folder (Some "B") [Link "n" "https://b.example"];
     Link "x" "https://a.example"].

(** A folder without title inside a titled root. *)
Definition untitled_tree : BookmarkNode :=
  Folder (Some "Root") [Folder None [Link "a" "https://a.example"]].

(** A bookmark entry without attributes, and one without title. *)
Definition no_attributes : value :=
  VObject [("title", VArray [VString "x"])].

Definition no_title : value :=
  VObject [("$", VObject [("href", VString "https://x.example")])].

Definition no_href : value :=
  VObject [("$", VObject [("id", VString "7")]); ("title", VArray [VString "x"])].

Definition folder_of (bookmarks : list value) : value :=
  VObject [("title", VArray [VString "T"]); ("bookmark", VArray bookmarks)].

(* ================================================================= *)
(** ** Dates and file names *)

Module Date.

Open Scope Z_scope.

(** A time value is a number of milliseconds since the epoch. *)
Definition msPerDay : Z := 86400000.

Definition Day (t : Z) : Z := t / msPerDay.
Definition TimeWithinDay (t : Z) : Z := t mod msPerDay.

(** The proleptic Gregorian date of a day number (days since
    1970-01-01), computed over 400-year eras that start on 1 March. *)
Definition civil (z : Z) : Z * Z * Z :=
  let z := z + 719468 in
  let era := z / 146097 in
  let doe := z - era * 146097 in
  let yoe := (doe - doe / 1460 + doe / 36524 - doe / 146096) / 365 in
  let doy := doe - (365 * yoe + yoe / 4 - yoe / 100) in
  let mp := (5 * doy + 2) / 153 in
  let d := doy - (153 * mp + 2) / 5 + 1 in
  let m := if mp <? 10 then mp + 3 else mp - 9 in
  let y := yoe + era * 400 + (if m <=? 2 then 1 else 0) in
  (y, m, d).

(** The fields of the date with time value [t]; the month is counted
    from 1, as it is printed. *)
Definition getUTCFullYear (t : Z) : Z := fst (fst (civil (Day t))).
Definition getUTCMonth1 (t : Z) : Z := snd (fst (civil (Day t))).
Definition getUTCDate (t : Z) : Z := snd (civil (Day t)).
Definition getUTCHours (t : Z) : Z := TimeWithinDay t / 3600000.
Definition getUTCMinutes (t : Z) : Z := TimeWithinDay t / 60000 mod 60.
Definition getUTCSeconds (t : Z) : Z := TimeWithinDay t / 1000 mod 60.
Definition getUTCMilliseconds (t : Z) : Z := TimeWithinDay t mod 1000.

Definition digit (n : Z) : ascii := ascii_of_nat (48 + Z.to_nat (n mod 10)).

(** Decimal digits of [n], least significant last, padded with zeros to
    the width [w]. *)
Fixpoint pad (w : nat) (n : Z) : string :=
  match w with
  | O => ""
  | S w' => (pad w' (n / 10) ++ String (digit n) "")%string
  end.

(** The year of an ISO date: four digits for the years 0 to 9999, a
    sign and six digits for the others. *)
Definition year_text (y : Z) : string :=
  if ((0 <=? y)%Z && (y <=? 9999)%Z)%bool then pad 4 y
  else ((if (y <? 0)%Z then "-" else "+") ++ pad 6 (Z.abs y))%string.

(** [d.toISOString()] for the date with time value [t]. *)
Definition toISOString (t : Z) : string :=
  (year_text (getUTCFullYear t)
   ++ "-" ++ pad 2 (getUTCMonth1 t) ++ "-" ++ pad 2 (getUTCDate t)
   ++ "T" ++ pad 2 (getUTCHours t) ++ ":" ++ pad 2 (getUTCMinutes t)
   ++ ":" ++ pad 2 (getUTCSeconds t)
   ++ "." ++ pad 3 (getUTCMilliseconds t) ++ "Z")%string.

(** [s.replace(/[-T:]/g, '')] *)
Fixpoint strip_separators (s : string) : string :=
  match s with
  | EmptyString => EmptyString
  | String c r =>
      if (Ascii.eqb c "-" || Ascii.eqb c "T" || Ascii.eqb c ":")%bool
      then strip_separators r
      else String c (strip_separators r)
  end.

(** The date-time suffix of a backup (main.ts, 118-121); [now] is
    [new Date().getTime()] and [offset] is [getTimezoneOffset()], the
    minutes by which UTC is ahead of local time:
<<
    const timeZoneOffset = now.getTimezoneOffset() * 60000;
    const localTime = new Date(now.getTime() - timeZoneOffset);
    const dateSuffix = localTime.toISOString().slice(0, 19).replace(/[-T:]/g, '');
>> *)
Definition dateSuffix (now offset : Z) : string :=
  let timeZoneOffset := offset * 60000 in
  let localTime := now - timeZoneOffset in
  strip_separators (substring 0 19 (toISOString localTime)).

Definition is_digit (c : ascii) : bool :=
  (48 <=? nat_of_ascii c)%nat && (nat_of_ascii c <=? 57)%nat.

Fixpoint all_digits (s : string) : bool :=
  match s with
  | EmptyString => true
  | String c r => is_digit c && all_digits r
  end.

End Date.

Module Path.

(** A name cut at its last dot: what precedes the dot and what follows
    it; [None] when the name has no dot. *)
Fixpoint split_last_dot (s : string) : option (string * string) :=
  match s with
  | EmptyString => None
  | String c r =>
      match split_last_dot r with
      | Some (a, b) => Some (String c a, b)
      | None => if Ascii.eqb c "." then Some (EmptyString, r) else None
      end
  end.

(** [parse(name).name] of Node's [path] module for a name without
    directory separator: the name without its extension, the extension
    starting at the last dot.  A name whose only dot is its first
    character, and the name [..], have no extension. *)
Definition parse_name (name : string) : string :=
  match split_last_dot name with
  | None => name
  | Some (pre, _) =>
      if String.eqb pre "" then name
      else if String.eqb name ".." then name
      else pre
  end.

(** [basename] and [extension] of a vault file called [name], split at
    the last dot when there is something on both sides of it. *)
Definition basename_of (name : string) : string :=
  match split_last_dot name with
  | Some (String c pre, String d ext) => String c pre
  | _ => name
  end.

Definition extension_of (name : string) : string :=
  match split_last_dot name with
  | Some (String c pre, String d ext) => String d ext
  | _ => ""
  end.

(** A path cut at its last [/]. *)
Fixpoint split_last_slash (s : string) : option (string * string) :=
  match s with
  | EmptyString => None
  | String c r =>
      match split_last_slash r with
      | Some (a, b) => Some (String c a, b)
      | None => if Ascii.eqb c "/" then Some (EmptyString, r) else None
      end
  end.

(** The path of the folder that holds what is stored at [p]; the root of
    the vault, whose path is [/], for a path without [/]. *)
Definition parent (p : string) : string :=
  match split_last_slash p with
  | Some (pre, _) => pre
  | None => "/"
  end.

End Path.


(* ================================================================= *)
(** ** The vault *)

(** The vault is the storage the plugin works on.  Its methods belong to
    the host application; what is modelled here is their contract:
    [getAbstractFileByPath] finds what is stored at a path, a file or a
    folder, and [createFolder], [rename], [trash] and [create] change the
    vault when they succeed and leave it as it is when they fail.  They
    fail when the result would clash with what is stored already (a new
    folder or file at a path that is taken, a file moved or created in a
    folder that does not exist) and whenever the underlying storage
    refuses, which is the [environment]'s choice.

    [getAbstractFileByPath] answers at once, from the vault as it is in
    memory.  The other methods are asynchronous: the call sends a
    request and returns a promise, and the vault in memory changes only
    when the request is carried out.  The source awaits [create] only;
    the promises of [createFolder], [rename] and [trash] are dropped.  A
    run therefore goes through its first stretch of code, up to its
    first [await], against the vault as it found it, and the requests
    sent on the way are carried out later.  They are taken to be carried
    out in the order of the calls and before the XBEL file has been read
    and parsed; a request names its file by the path the file had when
    the request was sent.  A failed request never reaches the caller.

    The casts of the source are unchecked: [getAbstractFileByPath(p) as
    TFolder] is whatever is stored at [p], and the children of a folder
    are files and sub-folders alike. *)

Record TFile : Type := mkTFile {
  path : string;
  basename : string;
  extension : string;
  mtime : Z;            (* stat.mtime *)
  contents : string
}.

(** What is stored at a path: a file, or a folder, which is named here
    by its path. *)
Inductive TAbstractFile : Type :=
| AFile (f : TFile)
| AFolder (p : string).

Definition path_of (e : TAbstractFile) : string :=
  match e with
  | AFile f => path f
  | AFolder p => p
  end.

Definition is_file (e : TAbstractFile) : bool :=
  match e with
  | AFile _ => true
  | AFolder _ => false
  end.

Definition files_of (l : list TAbstractFile) : list TFile :=
  flat_map (fun e => match e with AFile f => [f] | AFolder _ => [] end) l.

Record TFolder : Type := mkTFolder {
  folder_path : string;
  children : list TAbstractFile
}.

(** What a run leaves in the [trace]: its requests, in the order of the
    calls and each with its outcome, the reports of [console.error], and
    [Uncaught] when the run ends by an exception that nothing catches. *)
Inductive event : Type :=
| CreateFolder (p : string) (ok : bool)
| Rename (from : string) (to : string) (ok : bool)
| Trash (p : string) (ok : bool)
| Create (p : string) (data : string) (ok : bool)
| ConsoleError
| Uncaught.

Record world : Type := mkWorld {
  vault : list TFolder;
  trace : list event
}.

(** What a run takes from outside: the clock, the outcome of reading
    and parsing the XBEL file ([None] when either throws, otherwise the
    value of [result.xbel]), and whether the storage carries out a
    request. *)
Record environment : Type := mkEnvironment {
  now : Z;
  timezoneOffset : Z;
  xbel : option value;
  storage_createFolder : string -> bool;
  storage_rename : string -> string -> bool;
  storage_trash : string -> bool;
  storage_create : string -> bool
}.

Definition log (e : event) (w : world) : world :=
  mkWorld (vault w) (trace w ++ [e]).

(** The folder, and the file, stored at a path. *)
Definition folder_at (v : list TFolder) (p : string) : option TFolder :=
  find (fun d => String.eqb (folder_path d) p) v.

Definition stored (v : list TFolder) : list TFile :=
  files_of (flat_map children v).

Definition file_at (v : list TFolder) (p : string) : option TFile :=
  find (fun f => String.eqb (path f) p) (stored v).

(** [getAbstractFileByPath(p)]: what is stored at [p], a folder or a
    file; [None] stands for [null]. *)
Definition getAbstractFileByPath (v : list TFolder) (p : string)
  : option TAbstractFile :=
  match folder_at v p with
  | Some _ => Some (AFolder p)
  | None => option_map AFile (file_at v p)
  end.

(** [e.children]: the entries of a folder; a file has no such property,
    and [None] stands for [undefined]. *)
Definition children_of (v : list TFolder) (e : TAbstractFile)
  : option (list TAbstractFile) :=
  match e with
  | AFile _ => None
  | AFolder p => option_map children (folder_at v p)
  end.

Definition occupied (v : list TFolder) (p : string) : bool :=
  match getAbstractFileByPath v p with
  | Some _ => true
  | None => false
  end.

(** The children of the folder at [p] become [f] of what they were. *)
Fixpoint update_children (p : string)
  (f : list TAbstractFile -> list TAbstractFile) (v : list TFolder)
  : list TFolder :=
  match v with
  | [] => []
  | d :: r =>
      if String.eqb (folder_path d) p
      then mkTFolder (folder_path d) (f (children d)) :: r
      else d :: update_children p f r
  end.

(** What is stored at path [p] leaves the folder that holds it. *)
Definition remove_file (p : string) (v : list TFolder) : list TFolder :=
  map (fun d => mkTFolder (folder_path d)
                  (filter (fun e => negb (String.eqb (path_of e) p)) (children d))) v.

Fixpoint starts_with (pre s : string) : bool :=
  match pre, s with
  | EmptyString, _ => true
  | String a pre', String b s' => Ascii.eqb a b && starts_with pre' s'
  | String _ _, EmptyString => false
  end.

Definition inside (p q : string) : bool :=
  String.eqb q p || starts_with (p ++ "/") q.

Definition remove_folder (p : string) (v : list TFolder) : list TFolder :=
  filter (fun d => negb (inside p (folder_path d))) (remove_file p v).

(** [vault.createFolder(p)], carried out: the new folder is empty and is
    an entry of its parent. *)
Definition createFolder (env : environment) (p : string) (w : world) : world :=
  let ok := storage_createFolder env p && negb (occupied (vault w) p) in
  log (CreateFolder p ok)
    (if ok
     then mkWorld (update_children (Path.parent p) (fun cs => cs ++ [AFolder p])%list
                     (vault w) ++ [mkTFolder p []]) (trace w)
     else w).

(** [vault.rename(file, `${folder}/${name}`)], carried out: the file
    moves to the folder at [folder] under the name [name] (a name has no
    [/]) and keeps its modification time and its contents. *)
Definition rename_ok (env : environment) (file : TFile) (folder name : string)
  (v : list TFolder) : bool :=
  let to := folder ++ "/" ++ name in
  storage_rename env (path file) to
  && (match folder_at v folder with Some _ => true | None => false end)
  && negb (occupied v to).

Definition rename (env : environment) (file : TFile) (folder name : string)
  (w : world) : world :=
  let to := folder ++ "/" ++ name in
  let ok := rename_ok env file folder name (vault w) in
  let moved := mkTFile to (Path.basename_of name) (Path.extension_of name)
                 (mtime file) (contents file) in
  log (Rename (path file) to ok)
    (if ok
     then mkWorld (update_children folder (fun cs => cs ++ [AFile moved])%list
                     (remove_file (path file) (vault w))) (trace w)
     else w).

(** [vault.trash(file, false)], carried out *)
Definition trash (env : environment) (file : TAbstractFile) (w : world) : world :=
  let ok := storage_trash env (path_of file) in
  log (Trash (path_of file) ok)
    (if ok
     then mkWorld (match file with
                   | AFile f => remove_file (path f) (vault w)
                   | AFolder p => remove_folder p (vault w)
                   end) (trace w)
     else w).

(** [vault.create(`${folder}/${name}`, data)]: a new file; the call
    fails when the path is taken. *)
Definition create_ok (env : environment) (folder name : string)
  (v : list TFolder) : bool :=
  let p := folder ++ "/" ++ name in
  storage_create env p
  && (match folder_at v folder with Some _ => true | None => false end)
  && negb (occupied v p).

Definition create (env : environment) (folder name data : string)
  (w : world) : world :=
  let p := folder ++ "/" ++ name in
  let ok := create_ok env folder name (vault w) in
  let file := mkTFile p (Path.basename_of name) (Path.extension_of name)
                (now env) data in
  log (Create p data ok)
    (if ok
     then mkWorld (update_children folder (fun cs => cs ++ [AFile file])%list (vault w))
            (trace w)
     else w).

(** The requests whose promise the source drops. *)
Inductive request : Type :=
| CreateFolderRequest (p : string)
| RenameRequest (file : TFile) (folder name : string)
| TrashRequest (file : TAbstractFile).

Definition carry_out (env : environment) (r : request) (w : world) : world :=
  match r with
  | CreateFolderRequest p => createFolder env p w
  | RenameRequest file folder name => rename env file folder name w
  | TrashRequest file => trash env file w
  end.

(** The pending requests are carried out, in the order of the calls. *)
Definition settle (env : environment) (rs : list request) (w : world) : world :=
  fold_left (fun w' r => carry_out env r w') rs w.

(** A stretch of code that does not await: the vault as it is in
    memory, which no request changes before the stretch is over, the
    requests sent so far, and whether an exception has ended the
    stretch. *)
Record calls : Type := mkCalls {
  memory : list TFolder;
  sent : list request;
  thrown : bool
}.

Definition send (r : request) (c : calls) : calls :=
  mkCalls (memory c) (sent c ++ [r]) (thrown c).

Definition throw (c : calls) : calls :=
  mkCalls (memory c) (sent c) true.

(** The world once the requests of [c] have been carried out. *)
Definition carried_out (env : environment) (c : calls) (w : world) : world :=
  settle env (sent c) (mkWorld (memory c) (trace w)).

(* ================================================================= *)
(** ** Backup rotation *)

(** The stable sort of files by ascending modification time: files of
    equal time keep the order they had. *)
Fixpoint insert (x : TFile) (l : list TFile) : list TFile :=
  match l with
  | [] => [x]
  | y :: r => if (mtime x <=? mtime y)%Z then x :: l else y :: insert x r
  end.

Fixpoint sort (l : list TFile) : list TFile :=
  match l with
  | [] => []
  | x :: r => insert x (sort r)
  end.

(** [backupFiles.sort((a, b) => a.stat.mtime - b.stat.mtime)].  With
    fewer than two entries the comparator is not called.  With two or
    more every entry is compared with another at least once, and a
    sub-folder has no [stat]: reading [stat.mtime] of it throws, which
    leaves the array as it was ([None]).  On files the sort is stable,
    so its result is fixed by the comparator. *)
Definition sort_by_mtime (l : list TAbstractFile)
  : option (list TAbstractFile) :=
  match l with
  | [] | [_] => Some l
  | _ :: _ :: _ =>
      if forallb is_file l then Some (map AFile (sort (files_of l))) else None
  end.

(** [a.slice(0, n)] for an integer [n] *)
Definition slice0 {A : Type} (n : Z) (a : list A) : list A :=
  if (n <? 0)%Z then firstn (length a - Z.to_nat (- n)) a
  else firstn (Z.to_nat n) a.

(** [if (!getAbstractFileByPath(p)) { createFolder(p) }]: "create the
    folder if it doesn't exist" (main.ts, 86-89 and 124-127). *)
Definition ensureFolder (p : string) (c : calls) : calls :=
  match getAbstractFileByPath (memory c) p with
  | None => send (CreateFolderRequest p) c
  | Some _ => c
  end.

(** [backupExistingFile(file: TFile, backupFolderPath: string): void]
    (main.ts, 116-138).  The argument is what [getAbstractFileByPath]
    found at the path of the output; when that is a folder, [basename]
    is [undefined] and [parse] throws. *)
Definition backupExistingFile (env : environment) (file : TAbstractFile)
  (backupFolderPath : string) (c : calls) : calls :=
  let dateSuffix := Date.dateSuffix (now env) (timezoneOffset env) in
  let c1 := ensureFolder backupFolderPath c in
  match file with
  | AFolder _ => throw c1
  | AFile f =>
      let fileName := basename f in
      let fileExtension := extension f in
      let backupFileName :=
        Path.parse_name fileName ++ "-" ++ dateSuffix ++ "." ++ fileExtension in
      send (RenameRequest f backupFolderPath backupFileName) c1
  end.

(** [deleteOldBackups(backupFolderPath: string, keepCount: number): void]
    (main.ts, 140-164).  What is stored at the path is taken for a
    folder: of a file the [children] are [undefined], and calling [sort]
    on them throws.  The sort is in place: it reorders the [children] of
    the folder in memory. *)
Definition deleteOldBackups (backupFolderPath : string) (keepCount : Z)
  (c : calls) : calls :=
  match getAbstractFileByPath (memory c) backupFolderPath with
  | None => c
  | Some backupFolder =>
      match children_of (memory c) backupFolder with
      | None => throw c
      | Some listed =>
          match sort_by_mtime listed with
          | None => throw c
          | Some backupFiles =>
              let c1 := mkCalls (update_children backupFolderPath
                                   (fun _ => backupFiles) (memory c))
                          (sent c) (thrown c) in
              let filesToDelete :=
                (Z.of_nat (length backupFiles) - keepCount + 1)%Z in
              if (filesToDelete >? 0)%Z then
                let filesToDeleteList := slice0 filesToDelete backupFiles in
                fold_left (fun c' file => send (TrashRequest file) c')
                          filesToDeleteList c1
              else c1
          end
      end
  end.

Record fbmPluginSettings : Type := mkSettings {
  xbelFolderPath : string;
  xbelFileName : string;
  mdFolderPath : string;
  mdFileName : string;
  backupFolderPath : string;
  keepCount : Z;
  automaticUpdate : bool;
  updateInterval : Z
}.

Definition DEFAULT_SETTINGS : fbmPluginSettings :=
  mkSettings "" "bookmarks.xbel" "" "bookmarks.md" "" 5 false 900.

(** The [try] block of [processXBELFileData] (main.ts, 99-113): read
    and parse the XBEL file, convert, create the Markdown file; whatever
    is thrown on the way is caught and reported on the console. *)
Definition convertAndCreate (settings : fbmPluginSettings)
  (env : environment) (w : world) : world :=
  match xbel env with
  | None => log ConsoleError w
  | Some result_xbel =>
      match writeFolderStructure result_xbel 0 with
      | TypeError => log ConsoleError w
      | Ok mdData =>
          let w' := create env (mdFolderPath settings) (mdFileName settings) mdData w in
          if create_ok env (mdFolderPath settings) (mdFileName settings) (vault w)
          then w' else log ConsoleError w'
      end
  end.

(** The first stretch of [processXBELFileData] (main.ts, 70-97), which
    runs without awaiting anything: the lookups, the folder of the
    output, the backup of the previous output, the prune.  An exception
    thrown by the backup ends the stretch before the prune. *)
Definition rotation (settings : fbmPluginSettings) (env : environment)
  (v : list TFolder) : calls :=
  let mdFilePath := mdFolderPath settings ++ "/" ++ mdFileName settings in
  let mdFile := getAbstractFileByPath v mdFilePath in
  let c1 := ensureFolder (mdFolderPath settings) (mkCalls v [] false) in
  let c2 :=
    match mdFile with
    | Some file => backupExistingFile env file (backupFolderPath settings) c1
    | None => c1
    end in
  if thrown c2 then c2
  else deleteOldBackups (backupFolderPath settings) (keepCount settings) c2.

(** [processXBELFileData()] (main.ts, 69-114).  The rotation is outside
    the [try] block: an exception thrown there ends the run, uncaught.
    The requests sent before are carried out all the same. *)
Definition processXBELFileData (settings : fbmPluginSettings)
  (env : environment) (w : world) : world :=
  let c := rotation settings env (vault w) in
  let w' := carried_out env c w in
  if thrown c then log Uncaught w' else convertAndCreate settings env w'.


(** A function of the rotation called on its own, its requests carried
    out before anything else happens. *)
Definition alone (env : environment) (f : calls -> calls) (w : world) : world :=
  carried_out env (f (mkCalls (vault w) [] false)) w.

(** The entries of the backup folder. *)
Definition backups (settings : fbmPluginSettings) (w : world)
  : list TAbstractFile :=
  match folder_at (vault w) (backupFolderPath settings) with
  | Some d => children d
  | None => []
  end.

(** The requests a run has added to the trace. *)
Definition events_since (w w' : world) : list event :=
  skipn (length (trace w)) (trace w').

Definition succeeded (e : event) : bool :=
  match e with
  | CreateFolder _ ok | Rename _ _ ok | Trash _ ok | Create _ _ ok => ok
  | ConsoleError => true
  | Uncaught => false
  end.

(** The properties below speak of folders: the elements for which the
    converter writes a heading, that is the objects with a property
    [folder] or a property [bookmark]. *)
Definition folder_bearing (element : value) : bool :=
  match element with
  | VObject ps => has_key "folder" ps || has_key "bookmark" ps
  | _ => false
  end.

Definition has_title (element : value) : bool :=
  match element with
  | VObject ps => has_key "title" ps
  | _ => false
  end.

(** A bookmark entry carries attributes when [bookmark.$] is defined,
    and a title when [bookmark.title] is. *)
Definition has_attributes (bookmark : value) : bool :=
  match get bookmark "$" with
  | Ok VUndefined | TypeError => false
  | Ok _ => true
  end.

Definition has_titles (bookmark : value) : bool :=
  match get bookmark "title" with
  | Ok VUndefined | TypeError => false
  | Ok _ => true
  end.

(** A text is line-terminated when it is empty or ends with a line
    feed. *)
Definition terminated (s : string) : Prop :=
  s = "" \/ exists p, s = p ++ LF.

(** The blank line that precedes the heading of a folder below the
    root. *)
Definition separator (level : nat) : string :=
  if Nat.eqb level 0 then "" else LF.

(** The parts of [raw (Folder t cs)]. *)
Definition bookmarks_of (cs : list BookmarkNode) : list value :=
  flat_map (fun c => if is_link c then [raw c] else []) cs.

Definition folders_of (cs : list BookmarkNode) : list value :=
  flat_map (fun c => if is_folder c then [raw c] else []) cs.

Definition element_of (t : option string) (bookmarks folders : list value)
  : value :=
  let props :=
    (match t with Some s => [("title", VArray [VString s])] | None => [] end
     ++ match bookmarks with [] => [] | _ => [("bookmark", VArray bookmarks)] end
     ++ match folders with [] => [] | _ => [("folder", VArray folders)] end)%list in
  match props with
  | [] => VString ""
  | _ => VObject props
  end.

(** [a] is not newer than [b]. *)
Definition older (a b : TFile) : Prop := (mtime a <= mtime b)%Z.

(** No string occurs twice. *)
Fixpoint distinct (l : list string) : bool :=
  match l with
  | [] => true
  | x :: r => negb (existsb (String.eqb x) r) && distinct r
  end.

(** A run rotates when it finds a previous output to move, in a folder
    that is in the vault, every request it sends to the storage succeeds
    and no exception ends it, and the backup folder is in order: its
    entries are files, they have distinct paths and the output is not
    one of them. *)
Definition rotates (settings : fbmPluginSettings) (env : environment)
  (w : world) : bool :=
  let mdFilePath := mdFolderPath settings ++ "/" ++ mdFileName settings in
  match getAbstractFileByPath (vault w) mdFilePath with
  | Some (AFile _) => true
  | _ => false
  end
  && match getAbstractFileByPath (vault w) (mdFolderPath settings) with
     | Some _ => true
     | None => false
     end
  && forallb succeeded (events_since w (processXBELFileData settings env w))
  && forallb is_file (backups settings w)
  && distinct (map path_of (backups settings w))
  && negb (existsb (String.eqb mdFilePath) (map path_of (backups settings w))).


(** The trace of [w'] continues the trace of [w]. *)
Definition extends (w w' : world) : Prop :=
  exists evs, trace w' = (trace w ++ evs)%list.

(** Sample data: a vault with an output and no backup folder yet, a
    storage that carries out every request, one that refuses to move
    files, and a backup folder with three entries. *)
Definition sample_settings : fbmPluginSettings :=
  mkSettings "in" "bookmarks.xbel" "out" "bookmarks.md" "bak" 2 false 900.

Definition sample_env (t : Z) : environment :=
  mkEnvironment t 0 (Some (raw example_tree))
    (fun _ => true) (fun _ _ => true) (fun _ => true) (fun _ => true).

Definition stuck_env (t : Z) : environment :=
  mkEnvironment t 0 (Some (raw example_tree))
    (fun _ => true) (fun _ _ => false) (fun _ => true) (fun _ => true).

Definition sample_output : TFile :=
  mkTFile "out/bookmarks.md" "bookmarks" "md" 1699999999000 "# Old".

Definition sample_world : world :=
  mkWorld [mkTFolder "out" [AFile sample_output]] [].

Definition sample_files : list TFile :=
  [mkTFile "bak/c.md" "c" "md" 30 "c";
   mkTFile "bak/a.md" "a" "md" 10 "a";
   mkTFile "bak/b.md" "b" "md" 20 "b"].

Definition sample_backups : TFolder :=
  mkTFolder "bak" (map AFile sample_files).

Definition dotted_output : TFile :=
  mkTFile "out/my.bookmarks.md" "my.bookmarks" "md" 1699999999000 "# Old".

Definition dotted_world : world :=
  mkWorld [mkTFolder "out" [AFile dotted_output]] [].

(** A vault in which a file, not a folder, is stored at the backup
    location, and one whose backup folder holds a sub-folder beside a
    file. *)
Definition file_at_backup_location : world :=
  mkWorld
    [mkTFolder "/" [AFolder "out"; AFile (mkTFile "bak" "bak" "" 5 "notes")];
     mkTFolder "out" [AFile sample_output]]
    [].

Definition folder_among_backups : world :=
  mkWorld
    [mkTFolder "out" [AFile sample_output];
     mkTFolder "bak" [AFile (mkTFile "bak/a.md" "a" "md" 10 "a"); AFolder "bak/old"];
     mkTFolder "bak/old" []]
    [].

(** A chain of folders [depth] deep below a root, each with the title
    [T] and the innermost with one link. *)
Fixpoint chain (depth : nat) : BookmarkNode :=
  match depth with
  | O => Folder (Some "T") [Link "x" "https://x.example"]
  | S d => Folder (Some "T") [chain d]
  end.

(** The lines of a text: the pieces between line feeds, an unfinished
    last line included. *)
Fixpoint lines (s : string) : list string :=
  match s with
  | EmptyString => []
  | String c r =>
      if Ascii.eqb c (ascii_of_nat 10) then "" :: lines r
      else match lines r with
           | [] => [String c ""]
           | l :: ls => String c l :: ls
           end
  end.

Definition nonblank (l : string) : bool := negb (String.eqb l "").

Fixpoint no_LF (s : string) : bool :=
  match s with
  | EmptyString => true
  | String c r => negb (Ascii.eqb c (ascii_of_nat 10)) && no_LF r
  end.

(** No title and no target of the document contains a line feed. *)
Fixpoint single_line (n : BookmarkNode) : bool :=
  match n with
  | Link t u => no_LF t && no_LF u
  | Folder t cs =>
      match t with Some s => no_LF s | None => true end
      && forallb single_line cs
  end.

(** A heading or link line without its line feed. *)
Definition line_text (u : emitted) : string :=
  match u with
  | Blank => ""
  | Heading level title => repeat_string "#" (level + 1) ++ " " ++ title
  | LinkLine title target => "[" ++ title ++ "](" ++ target ++ ")"
  end.

Definition single_line_unit (u : emitted) : bool :=
  match u with
  | Blank => false
  | Heading _ title => no_LF title
  | LinkLine title target => no_LF title && no_LF target
  end.

(** An object is plain when no own property hides [hasOwnProperty]. *)
Definition plain (element : value) : bool :=
  match element with
  | VObject ps => negb (has_key "hasOwnProperty" ps)
  | _ => true
  end.

(** [nested_in d e root]: the element [e] is reached from [root] by
    going [d] times into an element of a [folder] array. *)
Inductive nested_in : nat -> value -> value -> Prop :=
| nested_here (e : value) : nested_in 0 e e
| nested_below (d : nat) (e : value) (ps : list (string * value))
    (folders : list value) (f : value) :
    own "folder" ps = Some (VArray folders) ->
    In f folders ->
    nested_in d e f ->
    nested_in (S d) e (VObject ps).

(** The properties of an element that the converter reads. *)
Definition read_keys : list string :=
  ["hasOwnProperty"; "title"; "bookmark"; "folder"].

(** The world of a run when the requests of its rotation have been
    carried out, which is the world the [try] block finds. *)
Definition before_conversion (settings : fbmPluginSettings)
  (env : environment) (w : world) : world :=
  carried_out env (rotation settings env (vault w)) w.

(** The name under which a run backs up the output [file]. *)
Definition backup_name (env : environment) (file : TFile) : string :=
  Path.parse_name (basename file) ++ "-"
  ++ Date.dateSuffix (now env) (timezoneOffset env)
  ++ "." ++ extension file.

(** The backup that a run makes of the output [file]. *)
Definition backup_of (settings : fbmPluginSettings) (env : environment)
  (file : TFile) : TFile :=
  let name := Path.parse_name (basename file) ++ "-"
              ++ Date.dateSuffix (now env) (timezoneOffset env)
              ++ "." ++ extension file in
  mkTFile (backupFolderPath settings ++ "/" ++ name)
    (Path.basename_of name) (Path.extension_of name)
    (mtime file) (contents file).

Definition is_CreateFolder (e : event) : bool :=
  match e with CreateFolder _ _ => true | _ => false end.

Definition is_Trash (e : event) : bool :=
  match e with Trash _ _ => true | _ => false end.

Definition is_CreateFolderRequest (r : request) : bool :=
  match r with CreateFolderRequest _ => true | _ => false end.

Definition is_TrashRequest (r : request) : bool :=
  match r with TrashRequest _ => true | _ => false end.

(** The event that a request leaves in the trace has the kind of the
    request. *)
Definition answers (r : request) (e : event) : Prop :=
  match r, e with
  | CreateFolderRequest p, CreateFolder q _ => p = q
  | RenameRequest file folder name, Rename from to _ =>
      from = path file /\ to = folder ++ "/" ++ name
  | TrashRequest file, Trash p _ => p = path_of file
  | _, _ => False
  end.

(* ================================================================= *)
(** ** Settings *)

(** [Object.assign] on plain objects: the own properties of the source
    are written to the target one after the other, a property that the
    target has already keeping its place. *)
Section ObjectAssign.

Context {V : Type}.

Fixpoint lookup (k : string) (o : list (string * V)) : option V :=
  match o with
  | [] => None
  | (k', v) :: r => if String.eqb k' k then Some v else lookup k r
  end.

Fixpoint set_property (k : string) (v : V) (o : list (string * V))
  : list (string * V) :=
  match o with
  | [] => [(k, v)]
  | (k', v') :: r =>
      if String.eqb k' k then (k', v) :: r else (k', v') :: set_property k v r
  end.

Definition assign (target source : list (string * V)) : list (string * V) :=
  fold_left (fun t kv => set_property (fst kv) (snd kv) t) source target.

(** [Object.assign({}, DEFAULT_SETTINGS, await this.loadData())]
    (main.ts, 60-62); [loadData] gives [null] when nothing was saved, and
    a [null] source is passed over. *)
Definition loadSettings (defaults : list (string * V))
  (data : option (list (string * V))) : list (string * V) :=
  assign (assign [] defaults)
         (match data with Some o => o | None => [] end).

End ObjectAssign.

Module Num.

(** The result of [parseInt]: [NaN], or an integer.  The value of more
    than 2^53 is rounded by JavaScript to the nearest number it can
    hold; such results are told apart and not given a value here. *)
Inductive number : Type :=
| NaN
| Integer (z : Z)
| Inexact.

(** White space, as [parseInt] skips it (code units below 256). *)
Definition is_white (c : ascii) : bool :=
  existsb (Nat.eqb (nat_of_ascii c)) [9; 10; 11; 12; 13; 32; 160]%nat.

Fixpoint trimStart (s : string) : string :=
  match s with
  | EmptyString => EmptyString
  | String c r => if is_white c then trimStart r else s
  end.

Definition digit_value (c : ascii) : Z := Z.of_nat (nat_of_ascii c) - 48.

(** The value of the decimal digits at the start of [s], read after
    the digits of [acc]. *)
Fixpoint scan (acc : Z) (s : string) : Z :=
  match s with
  | EmptyString => acc
  | String c r =>
      if Date.is_digit c then scan (acc * 10 + digit_value c) r else acc
  end.

(** [parseInt(s, 10)] *)
Definition parseInt (s : string) : number :=
  let s1 := trimStart s in
  let sign := match s1 with
              | String c _ => if Ascii.eqb c "-" then (-1)%Z else 1%Z
              | EmptyString => 1%Z
              end in
  let s2 := match s1 with
            | String c r =>
                if (Ascii.eqb c "-" || Ascii.eqb c "+")%bool then r else s1
            | EmptyString => s1
            end in
  match s2 with
  | EmptyString => NaN
  | String c _ =>
      if Date.is_digit c then
        let v := scan 0 s2 in
        if (v <=? 2 ^ 53)%Z then Integer (sign * v) else Inexact
      else NaN
  end.

(** The decimal digits of [n >= 0] in front of [tail]. *)
Fixpoint decimal (fuel : nat) (n : Z) (tail : string) : string :=
  match fuel with
  | O => tail
  | S f =>
      let tail' := String (Date.digit n) tail in
      if (n <? 10)%Z then tail' else decimal f (n / 10) tail'
  end.

(** [String(z)] for an integer [z] below 10^21 in absolute value. *)
Definition toText (z : Z) : string :=
  if (z <? 0)%Z
  then String "-" (decimal (S (Z.to_nat (Z.log2 (- z)))) (- z) "")
  else decimal (S (Z.to_nat (Z.log2 z))) z "".

End Num.

Definition with_keepCount (k : Z) (s : fbmPluginSettings) : fbmPluginSettings :=
  mkSettings (xbelFolderPath s) (xbelFileName s) (mdFolderPath s) (mdFileName s)
    (backupFolderPath s) k (automaticUpdate s) (updateInterval s).

(** [saveSettings()] (main.ts, 64-67): the settings are saved, which is
    taken to succeed, and a run follows. *)
Definition saveSettings (settings : fbmPluginSettings) (env : environment)
  (w : world) : world :=
  processXBELFileData settings env w.

(** The handler of the field "Number of Backups to Keep" (main.ts,
    284-290), from the settings and the world to the settings and the
    world; [None] stands for a count that JavaScript had to round.
<<
    const keepCount = parseInt(value, 10);
    if (!isNaN(keepCount)) {
        this.plugin.settings.keepCount = keepCount;
        await this.plugin.saveSettings();
    }
>> *)
Definition keepCount_onChange (value : string) (settings : fbmPluginSettings)
  (env : environment) (w : world) : option (fbmPluginSettings * world) :=
  match Num.parseInt value with
  | Num.NaN => Some (settings, w)
  | Num.Integer keepCount =>
      let settings' := with_keepCount keepCount settings in
      Some (settings', saveSettings settings' env w)
  | Num.Inexact => None
  end.

(** The default settings as the object they are in the source. *)
Inductive setting : Type :=
| Text (s : string)
| Number (z : Z)
| Flag (b : bool).

Definition DEFAULT_SETTINGS_object : list (string * setting) :=
  [("xbelFolderPath", Text ""); ("xbelFileName", Text "bookmarks.xbel");
   ("mdFolderPath", Text ""); ("mdFileName", Text "bookmarks.md");
   ("backupFolderPath", Text ""); ("keepCount", Number 5);
   ("automaticUpdate", Flag false); ("updateInterval", Number 900)].

(* ================================================================= *)
(** ** Strings and the result monad *)

Lemma append_assoc (a b c : string) : (a ++ b) ++ c = a ++ (b ++ c).
Proof.
  induction a as [|x a IH]; simpl; [reflexivity | now rewrite IH].
Qed.

Lemma append_nil_r (a : string) : a ++ "" = a.
Proof.
  induction a as [|x a IH]; simpl; [reflexivity | now rewrite IH].
Qed.

Lemma bind_Ok {A B : Type} (r : result A) (f : A -> result B) (b : B) :
  bind r f = Ok b -> exists a, r = Ok a /\ f a = Ok b.
Proof.
  destruct r as [a|]; simpl; intros H; [now exists a | discriminate].
Qed.

Lemma bind_TypeError {A B : Type} (r : result A) (f : A -> result B) :
  r = TypeError -> bind r f = TypeError.
Proof. now intros ->. Qed.

(** Taking a bind chain that returned apart. *)
Ltac bind_inv H :=
  let a := fresh "a" in
  let Ha := fresh "Ha" in
  apply bind_Ok in H; destruct H as (a & Ha & H).

(* ================================================================= *)
(** ** Induction on values and on documents *)

Lemma value_induction (P : value -> Prop) :
  P VUndefined ->
  (forall s, P (VString s)) ->
  (forall items, Forall P items -> P (VArray items)) ->
  (forall ps, Forall (fun kv => P (snd kv)) ps -> P (VObject ps)) ->
  forall v, P v.
Proof.
  intros Hu Hs Ha Ho.
  fix IH 1.
  intros [| s | items | ps].
  - exact Hu.
  - apply Hs.
  - apply Ha. induction items as [|x r IHr]; constructor; [apply IH | exact IHr].
  - apply Ho. induction ps as [|[k x] r IHr]; constructor; [apply IH | exact IHr].
Qed.

(** The form used for the converter, which descends from an object into
    the elements of the arrays it holds. *)
Lemma element_induction (P : value -> Prop) :
  P VUndefined ->
  (forall s, P (VString s)) ->
  (forall items, P (VArray items)) ->
  (forall ps,
     (forall k items, own k ps = Some (VArray items) -> Forall P items) ->
     P (VObject ps)) ->
  forall v, P v.
Proof.
  intros Hu Hs Ha Ho v.
  enough (P v /\ forall items, v = VArray items -> Forall P items) as [H _]
    by exact H.
  induction v as [| s | items IH | ps IH] using value_induction.
  - split; [exact Hu | discriminate].
  - split; [apply Hs | discriminate].
  - split; [apply Ha|]. intros items' [= <-].
    eapply Forall_impl; [|exact IH]. now intros x [Hx _].
  - split; [|discriminate]. apply Ho. intros k items Hown.
    assert (In (k, VArray items) ps) as Hin.
    { clear -Hown. induction ps as [|[k' x] r IHr]; simpl in *; [discriminate|].
      destruct (String.eqb_spec k' k) as [->|_].
      - injection Hown as ->. now left.
      - right. now apply IHr. }
    rewrite Forall_forall in IH. now apply (IH _ Hin).
Qed.

Lemma BookmarkNode_induction (P : BookmarkNode -> Prop) :
  (forall t cs, Forall P cs -> P (Folder t cs)) ->
  (forall t u, P (Link t u)) ->
  forall n, P n.
Proof.
  intros Hf Hl.
  fix IH 1.
  intros [t cs | t u].
  - apply Hf. induction cs as [|c r IHr]; constructor; [apply IH | exact IHr].
  - apply Hl.
Qed.

(* ================================================================= *)
(** ** The converter, unfolded *)

Lemma with_prop_own {A : Type} (k : string) (found : value -> A) (missing : A)
  (ps : list (string * value)) :
  with_prop k found missing ps =
  match own k ps with
  | Some v => found v
  | None => missing
  end.
Proof.
  induction ps as [|[k' v] r IH]; simpl; [reflexivity|].
  destruct (String.eqb k' k); [reflexivity | exact IH].
Qed.

Lemma whenArray_own (k : string) (body : list value -> result string)
  (ps : list (string * value)) :
  whenArray k body (VObject ps) =
  match own k ps with
  | Some (VArray items) => body items
  | _ => Ok ""
  end.
Proof.
  unfold whenArray. rewrite with_prop_own. reflexivity.
Qed.

Lemma writeFolderStructure_eq (element : value) (level : nat) :
  writeFolderStructure element level =
  if typeof_object element then
    heading <- folderHeading element level ;;
    links <- whenArray "bookmark" (forEach bookmarkLine) element ;;
    subs <- whenArray "folder"
              (forEach (fun subfolder => writeFolderStructure subfolder (level + 1)))
              element ;;
    Ok (heading ++ links ++ subs)
  else Ok "".
Proof.
  destruct element; reflexivity.
Qed.

Lemma forEach_cons (f : value -> result string) (x : value) (r : list value) :
  forEach f (x :: r) = (s <- f x ;; t <- forEach f r ;; Ok (s ++ t)).
Proof. reflexivity. Qed.

Lemma forEach_ext (f g : value -> result string) (l : list value) :
  Forall (fun x => f x = g x) l -> forEach f l = forEach g l.
Proof.
  induction 1 as [|x r Hx _ IH]; [reflexivity|].
  rewrite !forEach_cons, Hx, IH. reflexivity.
Qed.

Lemma forEach_app (f : value -> result string) (l1 l2 : list value) :
  forEach f (l1 ++ l2) =
  (s <- forEach f l1 ;; t <- forEach f l2 ;; Ok (s ++ t)).
Proof.
  induction l1 as [|x r IH].
  - simpl. destruct (forEach f l2); reflexivity.
  - rewrite <- app_comm_cons, !forEach_cons, IH.
    destruct (f x) as [s|]; simpl; [|reflexivity].
    destruct (forEach f r) as [t|]; simpl; [|reflexivity].
    destruct (forEach f l2) as [u|]; simpl; [|reflexivity].
    now rewrite append_assoc.
Qed.

(** One failing element makes the whole loop fail. *)
Lemma forEach_TypeError (f : value -> result string) (l : list value) (x : value) :
  In x l -> f x = TypeError -> forEach f l = TypeError.
Proof.
  induction l as [|y r IH]; intros Hin Hx; [contradiction|].
  rewrite forEach_cons. destruct Hin as [->|Hin].
  - now rewrite Hx.
  - rewrite (IH Hin Hx). destruct (f y); reflexivity.
Qed.

(* ================================================================= *)
(** ** Line structure of the output *)

Lemma terminated_app (a b : string) :
  terminated a -> terminated b -> terminated (a ++ b).
Proof.
  intros Ha [-> | [p ->]].
  - now rewrite append_nil_r.
  - right. exists (a ++ p). now rewrite append_assoc.
Qed.

Lemma terminated_LF (p : string) : terminated (p ++ LF).
Proof. right. now exists p. Qed.

Lemma terminated_nil : terminated "".
Proof. now left. Qed.

Lemma ends_LF_String (c : ascii) (s : string) :
  (exists p, s = p ++ LF) -> exists p, String c s = p ++ LF.
Proof. intros [p ->]. now exists (String c p). Qed.

Lemma ends_LF_app (a s : string) :
  (exists p, s = p ++ LF) -> exists p, a ++ s = p ++ LF.
Proof. intros [p ->]. exists (a ++ p). now rewrite append_assoc. Qed.

Lemma ends_LF_LF : exists p, LF = p ++ LF.
Proof. now exists "". Qed.

Create HintDb lines.
#[local] Hint Resolve terminated_app terminated_LF terminated_nil
  ends_LF_String ends_LF_app ends_LF_LF : lines.

Lemma bookmarkLine_terminated (bookmark : value) (s : string) :
  bookmarkLine bookmark = Ok s -> terminated s.
Proof.
  unfold bookmarkLine. intros H.
  do 6 bind_inv H.
  injection H as <-.
  right. simpl. auto 10 with lines.
Qed.

(** The heading of a folder, when there is one, is the separator, the
    marker, a space, the title text and a line feed. *)
Lemma folderHeading_Ok (element : value) (level : nat) (s : string) :
  folderHeading element level = Ok s ->
  (folder_bearing element = false /\ s = "")
  \/ (folder_bearing element = true
      /\ exists titles folderTitle text,
           get element "title" = Ok titles
           /\ (if truthy titles then index0 titles else Ok (VString "Bookmarks"))
              = Ok folderTitle
           /\ toString folderTitle = Ok text
           /\ s = separator level ++ repeat_string "#" (level + 1)
                    ++ " " ++ text ++ LF).
Proof.
  unfold folderHeading. intros H.
  destruct element as [| s0 | items | ps]; simpl in H; try discriminate.
  - injection H as <-. now left.
  - destruct (has_key "hasOwnProperty" ps); simpl in H; [discriminate|].
    simpl. destruct (has_key "folder" ps); simpl in H |- *.
    + do 3 bind_inv H. injection H as <-.
      right. split; [reflexivity|]. now exists a, a0, a1.
    + destruct (has_key "bookmark" ps); simpl in H.
      * do 3 bind_inv H. injection H as <-.
        right. split; [reflexivity|]. now exists a, a0, a1.
      * injection H as <-. now left.
Qed.

Lemma folderHeading_terminated (element : value) (level : nat) (s : string) :
  folderHeading element level = Ok s -> terminated s.
Proof.
  intros H. apply folderHeading_Ok in H.
  destruct H as [[_ ->] | [_ (titles & ft & text & _ & _ & _ & ->)]].
  - auto with lines.
  - right. auto 10 with lines.
Qed.

Lemma forEach_terminated (f : value -> result string) (l : list value) :
  Forall (fun x => forall s, f x = Ok s -> terminated s) l ->
  forall s, forEach f l = Ok s -> terminated s.
Proof.
  induction 1 as [|x r Hx _ IH]; intros s H.
  - injection H as <-. auto with lines.
  - rewrite forEach_cons in H. do 2 bind_inv H. injection H as <-.
    eauto with lines.
Qed.

(** C10.  Whatever the element and the level, the text the converter
    returns is empty or ends with a line feed: every unit it appends (the
    blank separator, a heading line, a link line) ends with one, so what
    follows always starts on a line of its own. *)
Theorem output_line_terminated (element : value) (level : nat) (s : string) :
  writeFolderStructure element level = Ok s -> terminated s.
Proof.
  revert level s.
  induction element as [| s0 | items | ps IH] using element_induction;
    intros level s H; rewrite writeFolderStructure_eq in H;
    cbn [typeof_object] in H;
    try (injection H as <-; auto with lines; fail).
  do 3 bind_inv H. injection H as <-.
  apply folderHeading_terminated in Ha.
  rewrite whenArray_own in Ha0, Ha1.
  assert (terminated a0) as Hlinks.
  { destruct (own "bookmark" ps) as [[| | bs |]|];
      try (injection Ha0 as <-; auto with lines; fail).
    revert a0 Ha0. apply forEach_terminated.
    apply Forall_forall. intros b _ line. apply bookmarkLine_terminated. }
  assert (terminated a1) as Hsubs.
  { destruct (own "folder" ps) as [[| | fs |]|] eqn:Hown;
      try (injection Ha1 as <-; auto with lines; fail).
    revert a1 Ha1. apply forEach_terminated.
    eapply Forall_impl; [|exact (IH _ _ Hown)].
    intros x Hx t. apply Hx. }
  auto with lines.
Qed.

(* ================================================================= *)
(** ** Headings *)

(** C8.  The document [Folder("Bookmarks", [Link("Example", ...),
    Folder("Sub", [Link("Nested", ...)])])] is converted to exactly the
    five lines of [example_text]. *)
Theorem example_renders :
  writeFolderStructure (raw example_tree) 0 = Ok example_text.
Proof. reflexivity. Qed.

Lemma writeFolderStructure_heading (element : value) (level : nat) (s : string) :
  folder_bearing element = true ->
  writeFolderStructure element level = Ok s ->
  exists titles folderTitle text rest,
    get element "title" = Ok titles
    /\ (if truthy titles then index0 titles else Ok (VString "Bookmarks"))
       = Ok folderTitle
    /\ toString folderTitle = Ok text
    /\ s = separator level ++ repeat_string "#" (level + 1)
             ++ " " ++ text ++ LF ++ rest.
Proof.
  intros Hf H. rewrite writeFolderStructure_eq in H.
  destruct element as [| s0 | items | ps]; try discriminate.
  cbn [typeof_object] in H. do 3 bind_inv H. injection H as <-.
  apply folderHeading_Ok in Ha.
  destruct Ha as [[Hf' _] | [_ (titles & ft & text & Ht & Hft & Htext & ->)]];
    [congruence|].
  exists titles, ft, text, (a0 ++ a1). repeat split; try assumption.
  now rewrite !append_assoc.
Qed.

(** The rendering of a folder contains the rendering of every folder
    nested in it, each at the level that its depth gives. *)
Lemma nested_rendering (depth : nat) (element root : value) :
  nested_in depth element root ->
  forall (level : nat) (text : string),
    writeFolderStructure root level = Ok text ->
    exists before section after,
      writeFolderStructure element (level + depth) = Ok section
      /\ text = before ++ section ++ after
      /\ (depth = 0%nat -> before = "").
Proof.
  induction 1 as [e | d e ps folders f Hown Hin _ IH]; intros level text H.
  - exists "", text, "". rewrite Nat.add_0_r, append_nil_r. now repeat split.
  - rewrite writeFolderStructure_eq in H. cbn [typeof_object] in H.
    do 3 bind_inv H. injection H as <-.
    rewrite whenArray_own, Hown in Ha1.
    apply in_split in Hin as (l1 & l2 & ->).
    rewrite forEach_app in Ha1.
    apply bind_Ok in Ha1 as (s1 & _ & Ha1).
    apply bind_Ok in Ha1 as (s2 & Hs2 & Ha1). injection Ha1 as <-.
    rewrite forEach_cons in Hs2.
    apply bind_Ok in Hs2 as (sf & Hsf & Hs2).
    apply bind_Ok in Hs2 as (s3 & _ & Hs2). injection Hs2 as <-.
    destruct (IH (level + 1)%nat sf Hsf) as (b & section & c & Hsec & -> & _).
    exists (a ++ a0 ++ s1 ++ b), section, (c ++ s3).
    split; [|split; [|discriminate]].
    + now replace (level + S d)%nat with (level + 1 + d)%nat by lia.
    + now rewrite !append_assoc.
Qed.

(** C6.  A folder nested [depth] folders below an element rendered at
    [level] is rendered, inside the text of that element, at the level
    [level + depth], however deep: its part of the text starts with one
    line feed, which makes the blank line, exactly when that level is
    not 0, followed by a marker of one [#] more than the level, a space
    and the title.  For the root of a document [level] is 0, and a
    folder at depth [d] has a marker of [d + 1] characters; no depth is
    too large. *)
Theorem heading_separator_and_weight
  (root element : value) (level depth : nat) (text : string) :
  nested_in depth element root ->
  folder_bearing element = true ->
  writeFolderStructure root level = Ok text ->
  exists before section after title rest,
    text = before ++ section ++ after
    /\ writeFolderStructure element (level + depth) = Ok section
    /\ section = (if Nat.eqb (level + depth) 0 then "" else LF)
                 ++ repeat_string "#" (level + depth + 1) ++ " " ++ title ++ LF
                 ++ rest
    /\ (depth = 0%nat -> before = "").
Proof.
  intros Hn Hf H.
  destruct (nested_rendering depth element root Hn level text H)
    as (before & section & after & Hsec & -> & Hroot).
  destruct (writeFolderStructure_heading _ _ _ Hf Hsec)
    as (titles & ft & title & rest & _ & _ & _ & ->).
  eexists before, _, after, title, rest.
  split; [reflexivity|]. split; [exact Hsec|]. split; [reflexivity | exact Hroot].
Qed.

Lemma heading_separator_and_weight_witness :
  exists before section after title rest,
    "# T" ++ LF ++ LF ++ "## T" ++ LF ++ LF ++ "### T" ++ LF ++ LF ++ "#### T" ++ LF
    ++ LF ++ "##### T" ++ LF ++ LF ++ "###### T" ++ LF ++ LF ++ "####### T" ++ LF
    ++ LF ++ "######## T" ++ LF ++ "[x](https://x.example)" ++ LF
    = before ++ section ++ after
    /\ writeFolderStructure (raw (chain 0)) (0 + 7) = Ok section
    /\ section = (if Nat.eqb (0 + 7) 0 then "" else LF)
                 ++ repeat_string "#" (0 + 7 + 1) ++ " " ++ title ++ LF ++ rest
    /\ (7%nat = 0%nat -> before = "").
Proof.
  apply (heading_separator_and_weight (raw (chain 7)) (raw (chain 0)) 0 7).
  - do 7 (eapply nested_below; [reflexivity | now left |]). apply nested_here.
  - reflexivity.
  - reflexivity.
Defined.

(** C2 as stated fails: a folder without title below the root gets the
    placeholder too, not an empty title. *)
Lemma nested_untitled_folder_counterexample :
  writeFolderStructure (raw untitled_tree) 0
  = Ok ("# Root" ++ LF ++ LF ++ "## Bookmarks" ++ LF
        ++ "[a](https://a.example)" ++ LF)
  /\ writeFolderStructure (raw untitled_tree) 0
     <> Ok ("# Root" ++ LF ++ LF ++ "## " ++ LF
            ++ "[a](https://a.example)" ++ LF).
Proof.
  split; [reflexivity | discriminate].
Qed.

(** C2, amended.  A folder without title is headed by the placeholder
    [Bookmarks] at every depth, the root and the nested folders alike. *)
Theorem untitled_folder_heading
  (element : value) (level : nat) (s : string) :
  folder_bearing element = true ->
  has_title element = false ->
  writeFolderStructure element level = Ok s ->
  exists rest,
    s = (if Nat.eqb level 0 then "" else LF)
          ++ repeat_string "#" (level + 1) ++ " Bookmarks" ++ LF ++ rest.
Proof.
  intros Hf Ht H.
  destruct (writeFolderStructure_heading _ _ _ Hf H)
    as (titles & ft & text & rest & Hget & Hft & Htext & ->).
  destruct element as [| s0 | items | ps]; try discriminate.
  simpl in Hget, Ht. unfold has_key in Ht.
  destruct (own "title" ps); [discriminate|].
  injection Hget as <-. simpl in Hft. injection Hft as <-.
  simpl in Htext. injection Htext as <-.
  now exists rest.
Qed.

Lemma untitled_folder_heading_witness :
  exists rest,
    LF ++ "## Bookmarks" ++ LF ++ "[a](https://a.example)" ++ LF
    = (if Nat.eqb 1 0 then "" else LF)
        ++ repeat_string "#" (1 + 1) ++ " Bookmarks" ++ LF ++ rest.
Proof.
  apply (untitled_folder_heading
           (raw (Folder None [Link "a" "https://a.example"])) 1);
    reflexivity.
Defined.

(* ================================================================= *)
(** ** Documents *)

Lemma raw_Folder (t : option string) (cs : list BookmarkNode) :
  raw (Folder t cs) = element_of t (bookmarks_of cs) (folders_of cs).
Proof. reflexivity. Qed.

Lemma emit_app (a b : list emitted) : emit (a ++ b) = emit a ++ emit b.
Proof.
  induction a as [|u r IH]; [reflexivity|].
  destruct u; cbn [emit app]; rewrite IH; now rewrite ?append_assoc.
Qed.

Lemma render_element_of (t : option string) (B F : list value) (level : nat) :
  writeFolderStructure (element_of t B F) level =
  (links <- forEach bookmarkLine B ;;
   subs <- forEach (fun subfolder => writeFolderStructure subfolder (level + 1)) F ;;
   Ok (match B, F with
       | [], [] => ""
       | _, _ => separator level ++ repeat_string "#" (level + 1)
                   ++ " " ++ heading_title t ++ LF
       end ++ links ++ subs)).
Proof.
  destruct t as [s|], B as [|b B], F as [|f F]; reflexivity.
Qed.

Lemma render_links (cs : list BookmarkNode) :
  forEach bookmarkLine (bookmarks_of cs) = Ok (emit (flat_map link_line cs)).
Proof.
  induction cs as [|[t cs' | t u] r IH]; [reflexivity | exact IH |].
  change (bookmarks_of (Link t u :: r)) with (raw (Link t u) :: bookmarks_of r).
  rewrite forEach_cons, IH. reflexivity.
Qed.

Lemma render_folders (cs : list BookmarkNode) (level : nat) :
  Forall (fun c => forall d,
            writeFolderStructure (raw c) d = Ok (emit (render_order d c))) cs ->
  forEach (fun subfolder => writeFolderStructure subfolder level) (folders_of cs)
  = Ok (emit (flat_map (render_order level) cs)).
Proof.
  induction 1 as [|c r Hc _ IH]; [reflexivity|].
  destruct c as [t cs' | t u].
  - change (folders_of (Folder t cs' :: r))
      with (raw (Folder t cs') :: folders_of r).
    change (flat_map (render_order level) (Folder t cs' :: r))
      with (render_order level (Folder t cs') ++ flat_map (render_order level) r)%list.
    rewrite emit_app, forEach_cons, Hc, IH. reflexivity.
  - exact IH.
Qed.

Lemma childless (cs : list BookmarkNode) :
  match bookmarks_of cs, folders_of cs with
  | [], [] => cs = []
  | _, _ => cs <> []
  end.
Proof.
  destruct cs as [|[t cs' | t u] r]; [reflexivity| |].
  - change (folders_of (Folder t cs' :: r))
      with (raw (Folder t cs') :: folders_of r).
    destruct (bookmarks_of _); discriminate.
  - change (bookmarks_of (Link t u :: r)) with (raw (Link t u) :: bookmarks_of r).
    discriminate.
Qed.

(** The converter on a document: the lines of [render_order]. *)
Lemma render_raw (n : BookmarkNode) (level : nat) :
  writeFolderStructure (raw n) level = Ok (emit (render_order level n)).
Proof.
  revert level.
  induction n as [t cs IH | t u] using BookmarkNode_induction; intros level;
    [|reflexivity].
  rewrite raw_Folder, render_element_of, render_links,
    (render_folders cs (level + 1) IH).
  cbn [bind]. f_equal.
  pose proof (childless cs) as Hcs.
  cbn [render_order]. rewrite !emit_app.
  destruct (bookmarks_of cs), (folders_of cs); subst;
    try reflexivity;
    (destruct cs; [congruence|]; simpl; unfold separator;
     destruct (Nat.eqb level 0); simpl; now rewrite ?append_assoc).
Qed.

Lemma flat_map_split {A B : Type} (f g : A -> list B) (l : list A) :
  Permutation (flat_map f l ++ flat_map g l)
              (flat_map (fun x => f x ++ g x)%list l).
Proof.
  induction l as [|x r IH]; simpl; [constructor|].
  rewrite <- !app_assoc. apply Permutation_app_head.
  rewrite app_assoc.
  rewrite (Permutation_app_comm (flat_map f r) (g x)).
  rewrite <- app_assoc. now apply Permutation_app_head.
Qed.

Lemma flat_map_Permutation {A B : Type} (f g : A -> list B) (l : list A) :
  Forall (fun x => Permutation (f x) (g x)) l ->
  Permutation (flat_map f l) (flat_map g l).
Proof.
  induction 1 as [|x r Hx _ IH]; simpl; [constructor|].
  now apply Permutation_app.
Qed.

Lemma flat_map_Forall_eq {A B : Type} (f g : A -> list B) (l : list A) :
  Forall (fun x => f x = g x) l -> flat_map f l = flat_map g l.
Proof.
  induction 1 as [|x r Hx _ IH]; simpl; [reflexivity | now rewrite Hx, IH].
Qed.

(** The converter visits every node of a document once. *)
Lemma render_order_Permutation (n : BookmarkNode) (depth : nat) :
  Permutation (link_line n ++ render_order depth n) (doc_order depth n).
Proof.
  revert depth.
  induction n as [t cs IH | t u] using BookmarkNode_induction; intros depth;
    [|apply Permutation_refl].
  cbn [link_line render_order doc_order app].
  apply Permutation_app_head.
  rewrite flat_map_split. apply flat_map_Permutation.
  eapply Forall_impl; [|exact IH]. intros c Hc. apply Hc.
Qed.

Lemma folders_only (cs : list BookmarkNode) (depth : nat) :
  forallb is_folder cs = true ->
  flat_map link_line cs = []
  /\ flat_map (fun c => link_line c ++ render_order depth c)%list cs
     = flat_map (render_order depth) cs.
Proof.
  induction cs as [|[t cs' | t u] r IH]; simpl; intros H;
    [now split | | discriminate].
  destruct (IH H) as [-> ->]. now split.
Qed.

(** In a document whose folders list their links first, the converter's
    order is the document order. *)
Lemma links_first_order (n : BookmarkNode) (depth : nat) :
  links_first n = true ->
  (link_line n ++ render_order depth n)%list = doc_order depth n.
Proof.
  revert depth.
  induction n as [t cs IH | t u] using BookmarkNode_induction; intros depth H;
    [|reflexivity].
  cbn [link_line render_order doc_order app]. f_equal.
  cbn [links_first] in H. apply andb_prop in H as [Hall Hord].
  generalize (depth + 1). intros d.
  induction cs as [|c r IHr]; [reflexivity|].
  apply Forall_cons_iff in IH as [Hc Hr].
  cbn [forallb] in Hall. apply andb_prop in Hall as [Hlc Hlr].
  destruct c as [t' cs' | t' u'].
  - cbn [links_before_folders] in Hord.
    destruct (folders_only r d Hord) as [Hnil Heq].
    cbn [flat_map]. rewrite Hnil. cbn [app link_line].
    rewrite <- (Hc d Hlc). cbn [link_line app]. f_equal.
    rewrite <- Heq. apply flat_map_Forall_eq.
    apply Forall_forall. intros c Hin. rewrite Forall_forall in Hr.
    apply (Hr c Hin d). rewrite forallb_forall in Hlr. now apply Hlr.
  - cbn [links_before_folders] in Hord.
    cbn [flat_map link_line render_order doc_order app]. f_equal.
    now apply IHr.
Qed.

(* ----------------------------------------------------------------- *)
(** *** The lines of the text *)

Lemma no_LF_app (a b : string) : no_LF (a ++ b) = no_LF a && no_LF b.
Proof.
  induction a as [|c a IH]; [reflexivity|].
  cbn [append no_LF]. rewrite IH. now rewrite andb_assoc.
Qed.

Lemma no_LF_repeat_hash (n : nat) : no_LF (repeat_string "#" n) = true.
Proof.
  induction n as [|n IH]; [reflexivity|]. cbn [repeat_string].
  now rewrite no_LF_app, IH.
Qed.

Lemma lines_cons (l rest : string) :
  no_LF l = true -> lines (l ++ LF ++ rest) = l :: lines rest.
Proof.
  induction l as [|c l IH]; intros H; [reflexivity|].
  cbn [no_LF] in H. apply andb_prop in H as [Hc Hl].
  cbn [append lines]. destruct (Ascii.eqb c (ascii_of_nat 10)); [discriminate|].
  change (l ++ String (ascii_of_nat 10) rest) with (l ++ LF ++ rest).
  now rewrite (IH Hl).
Qed.

Lemma emitted_text_line (u : emitted) (rest : string) :
  emitted_text u ++ rest = line_text u ++ LF ++ rest.
Proof.
  destruct u; cbn [emitted_text line_text]; now rewrite ?append_assoc.
Qed.

Lemma single_line_text (u : emitted) :
  single_line_unit u = true ->
  no_LF (line_text u) = true /\ nonblank (line_text u) = true.
Proof.
  destruct u as [| level title | title target]; cbn [single_line_unit line_text];
    intros H; [discriminate | |].
  - split.
    + now rewrite !no_LF_app, no_LF_repeat_hash, H.
    + replace (level + 1)%nat with (S level) by lia. reflexivity.
  - apply andb_prop in H as [Ht Hu]. split; [|reflexivity].
    change (no_LF ("[" ++ title ++ "](" ++ target ++ ")"))
      with (no_LF (title ++ "](" ++ target ++ ")")).
    rewrite no_LF_app, Ht.
    change (no_LF ("](" ++ target ++ ")")) with (no_LF (target ++ ")")).
    now rewrite no_LF_app, Hu.
Qed.

(** The text of single-line units, cut into lines, blank lines dropped,
    is the sequence of their lines. *)
Lemma lines_emit (us : list emitted) :
  forallb single_line_unit us = true ->
  filter nonblank (lines (emit us)) = map line_text us.
Proof.
  induction us as [|u r IH]; intros H; [reflexivity|].
  cbn [forallb] in H. apply andb_prop in H as [Hu Hr].
  destruct (single_line_text u Hu) as [Hno Hnb].
  assert (filter nonblank (lines (emitted_text u ++ emit r))
          = line_text u :: map line_text r) as Hline.
  { rewrite emitted_text_line, (lines_cons _ _ Hno).
    cbn [filter]. now rewrite Hnb, (IH Hr). }
  destruct u as [| level title | title target]; [discriminate | | exact Hline].
  cbn [emit map]. destruct (Nat.eqb level 0); [exact Hline|].
  cbn [emitted_text].
  change (LF ++ ?x) with (String (ascii_of_nat 10) x).
  cbn [append lines Ascii.eqb]. exact Hline.
Qed.

Lemma single_line_children (cs : list BookmarkNode) (depth : nat) :
  Forall (fun c => forall d, single_line c = true ->
                    forallb single_line_unit (render_order d c) = true) cs ->
  forallb single_line cs = true ->
  forallb single_line_unit (flat_map link_line cs) = true
  /\ forallb single_line_unit (flat_map (render_order depth) cs) = true.
Proof.
  induction 1 as [|c r Hc _ IH]; intros Hall; [now split|].
  cbn [forallb] in Hall. apply andb_prop in Hall as [Hcl Hrl].
  destruct (IH Hrl) as [Hl Hf]. cbn [flat_map]. rewrite !forallb_app, Hl, Hf.
  rewrite (Hc depth Hcl), !andb_true_r. split; [|reflexivity].
  destruct c as [t cs' | t u]; [reflexivity|].
  cbn [link_line forallb single_line_unit]. cbn [single_line] in Hcl.
  now rewrite Hcl.
Qed.

Lemma single_line_render_order (n : BookmarkNode) (depth : nat) :
  single_line n = true ->
  forallb single_line_unit (render_order depth n) = true.
Proof.
  revert depth.
  induction n as [t cs IH | t u] using BookmarkNode_induction; intros depth H;
    [|reflexivity].
  cbn [single_line] in H. apply andb_prop in H as [Ht Hcs].
  destruct (single_line_children cs (depth + 1) IH Hcs) as [Hl Hf].
  cbn [render_order]. rewrite !forallb_app, Hl, Hf, !andb_true_r.
  destruct cs; [reflexivity|]. cbn [forallb single_line_unit].
  destruct t; cbn [heading_title]; [now rewrite Ht | reflexivity].
Qed.

(** C5 as stated fails: where a folder precedes a link among the
    children of its parent, the link line comes before that folder's
    section, so the lines are not in document order. *)
Lemma document_order_counterexample :
  writeFolderStructure (raw mixed_tree) 0
  = Ok (emit [Heading 0 "A"; LinkLine "x" "https://a.example";
              Heading 1 "B"; LinkLine "n" "https://b.example"])
  /\ doc_order 0 mixed_tree
     = [Heading 0 "A"; Heading 1 "B"; LinkLine "n" "https://b.example";
        LinkLine "x" "https://a.example"]
  /\ writeFolderStructure (raw mixed_tree) 0
     <> Ok (emit (doc_order 0 mixed_tree)).
Proof.
  repeat split; try reflexivity. discriminate.
Qed.

(** C5, amended.  The text of a document is made of one heading line for
    each folder that has a child and one link line for each link, and of
    nothing else but the blank separators: cut into lines, blank lines
    dropped, it is that sequence of lines (titles and targets being free
    of line feeds).  The lines of a folder come in the order: its
    heading, its links in document order, its sub-folders in document
    order.  That is the document order whenever no folder precedes a link
    among the children of one parent. *)
Theorem lines_of_document (t : option string) (cs : list BookmarkNode) :
  writeFolderStructure (raw (Folder t cs)) 0
  = Ok (emit (render_order 0 (Folder t cs)))
  /\ (single_line (Folder t cs) = true ->
      filter nonblank (lines (emit (render_order 0 (Folder t cs))))
      = map line_text (render_order 0 (Folder t cs)))
  /\ Permutation (render_order 0 (Folder t cs)) (doc_order 0 (Folder t cs))
  /\ (links_first (Folder t cs) = true ->
      render_order 0 (Folder t cs) = doc_order 0 (Folder t cs)).
Proof.
  split; [apply render_raw|]. split; [|split].
  - intros H. apply lines_emit. now apply single_line_render_order.
  - apply (render_order_Permutation (Folder t cs) 0).
  - apply (links_first_order (Folder t cs) 0).
Qed.

Lemma lines_of_document_witness :
  filter nonblank (lines example_text)
  = ["# Bookmarks"; "[Example](https://example.com)"; "## Sub";
     "[Nested](https://nested.example)"]
  /\ render_order 0 example_tree = doc_order 0 example_tree.
Proof.
  pose proof (lines_of_document (Some "Bookmarks")
    [Link "Example" "https://example.com";
     Folder (Some "Sub") [Link "Nested" "https://nested.example"]])
    as (_ & Hlines & _ & Horder).
  split.
  - apply Hlines. reflexivity.
  - apply Horder. reflexivity.
Defined.

(* ================================================================= *)
(** ** Malformed bookmark entries *)

Lemma bookmarkLine_malformed (bookmark : value) :
  has_attributes bookmark = false \/ has_titles bookmark = false ->
  bookmarkLine bookmark = TypeError.
Proof.
  unfold has_attributes, has_titles, bookmarkLine.
  destruct bookmark as [| s | items | ps]; simpl.
  - reflexivity.
  - reflexivity.
  - reflexivity.
  - intros [H | H].
    + destruct (own "$" ps) as [[| | |]|]; try discriminate; reflexivity.
    + destruct (own "$" ps) as [[| s | items | qs]|]; simpl; try reflexivity;
        destruct (own "title" ps) as [[| | |]|]; try discriminate;
        try reflexivity;
        destruct (own "href" qs); reflexivity.
Qed.

(** C3 as stated fails: a bookmark entry without attributes, or without
    title, is not skipped; the converter throws.  An entry whose
    attributes lack the target is not skipped either: it gives a link to
    [undefined]. *)
Lemma malformed_bookmark_counterexample :
  writeFolderStructure (folder_of [no_attributes]) 0 = TypeError
  /\ writeFolderStructure (folder_of [no_title]) 0 = TypeError
  /\ writeFolderStructure (folder_of [no_href]) 0
     = Ok ("# T" ++ LF ++ "[x](undefined)" ++ LF).
Proof.
  repeat split.
Qed.

(** C3, amended.  The converter returns a text, without throwing, for
    every document tree of folders and links, each link with its title
    and its target, in the form in which the parser delivers it ([raw]).
    No entry is skipped: as soon as one entry of a [bookmark] array has
    no attributes or no title the converter throws a [TypeError], which
    the run catches and reports, creating no output; an entry whose
    attributes have no [href] gives a link to [undefined]. *)
Theorem render_total_on_documents :
  (forall (n : BookmarkNode) (level : nat),
     exists s, writeFolderStructure (raw n) level = Ok s)
  /\ (forall (ps : list (string * value)) (bookmarks : list value)
        (bookmark : value) (level : nat),
        own "bookmark" ps = Some (VArray bookmarks) ->
        In bookmark bookmarks ->
        has_attributes bookmark = false \/ has_titles bookmark = false ->
        writeFolderStructure (VObject ps) level = TypeError)
  /\ (forall (settings : fbmPluginSettings) (env : environment) (w : world)
        (x : value),
        xbel env = Some x ->
        writeFolderStructure x 0 = TypeError ->
        convertAndCreate settings env w = log ConsoleError w)
  /\ (forall (attrs : list (string * value)) (t : string),
        own "href" attrs = None ->
        bookmarkLine (VObject [("$", VObject attrs); ("title", VArray [VString t])])
        = Ok ("[" ++ t ++ "](undefined)" ++ LF)).
Proof.
  split; [|split; [|split]].
  - intros n level. eexists. apply render_raw.
  - intros ps bs b level Hown Hin Hbad.
    rewrite writeFolderStructure_eq. cbn [typeof_object].
    destruct (folderHeading (VObject ps) level); [|reflexivity].
    cbn [bind]. rewrite whenArray_own, Hown.
    rewrite (forEach_TypeError bookmarkLine bs b Hin
               (bookmarkLine_malformed b Hbad)).
    reflexivity.
  - intros settings env w x Hx Hthrow. unfold convertAndCreate.
    now rewrite Hx, Hthrow.
  - intros attrs t Hhref. unfold bookmarkLine. cbn. now rewrite Hhref.
Qed.

Lemma render_total_on_documents_witness :
  writeFolderStructure (folder_of [no_attributes]) 0 = TypeError.
Proof.
  apply (proj1 (proj2 render_total_on_documents)
           _ [no_attributes] no_attributes 0).
  - reflexivity.
  - now left.
  - now left.
Defined.

(* ================================================================= *)
(** ** Sorting by modification time *)

Lemma insert_Permutation (x : TFile) (l : list TFile) :
  Permutation (insert x l) (x :: l).
Proof.
  induction l as [|y r IH]; simpl; [apply Permutation_refl|].
  destruct (mtime x <=? mtime y)%Z; [apply Permutation_refl|].
  rewrite IH. apply perm_swap.
Qed.

Lemma sort_Permutation (l : list TFile) : Permutation (sort l) l.
Proof.
  induction l as [|x r IH]; simpl; [constructor|].
  rewrite insert_Permutation. now constructor.
Qed.

Lemma length_sort (l : list TFile) : length (sort l) = length l.
Proof. apply Permutation_length, sort_Permutation. Qed.

Lemma insert_StronglySorted (x : TFile) (l : list TFile) :
  StronglySorted older l -> StronglySorted older (insert x l).
Proof.
  induction 1 as [|y r Hr IH Hy]; simpl.
  - repeat constructor.
  - destruct (Z.leb_spec (mtime x) (mtime y)) as [Hle | Hlt].
    + constructor; [now constructor|].
      constructor; [exact Hle|].
      eapply Forall_impl; [|exact Hy]. unfold older. intros z Hz. lia.
    + constructor; [exact IH|].
      apply (Permutation_Forall (Permutation_sym (insert_Permutation x r))).
      constructor; [unfold older; lia | exact Hy].
Qed.

Lemma sort_StronglySorted (l : list TFile) : StronglySorted older (sort l).
Proof.
  induction l as [|x r IH]; simpl; [constructor|].
  now apply insert_StronglySorted.
Qed.



Lemma skipn_In {A : Type} (n : nat) (l : list A) (x : A) :
  In x (skipn n l) -> In x l.
Proof.
  intros H. rewrite <- (firstn_skipn n l). apply in_or_app. now right.
Qed.

Lemma firstn_In {A : Type} (n : nat) (l : list A) (x : A) :
  In x (firstn n l) -> In x l.
Proof.
  intros H. rewrite <- (firstn_skipn n l). apply in_or_app. now left.
Qed.

(** In a sorted list, what comes first is not newer than what follows. *)
Lemma StronglySorted_firstn_skipn (l : list TFile) (n : nat) (a b : TFile) :
  StronglySorted older l ->
  In a (firstn n l) -> In b (skipn n l) -> older a b.
Proof.
  intros H. revert n. induction H as [|x r Hr IH Hx]; intros n Ha Hb.
  - now rewrite firstn_nil in Ha.
  - destruct n as [|n]; [contradiction|].
    cbn [firstn skipn] in Ha, Hb. destruct Ha as [<- | Ha].
    + rewrite Forall_forall in Hx. apply Hx.
      apply (skipn_In _ _ _ Hb).
    + now apply (IH n).
Qed.

Lemma files_of_map (l : list TFile) : files_of (map AFile l) = l.
Proof.
  induction l as [|x r IH]; [reflexivity|]. cbn [map files_of flat_map app].
  fold (files_of (map AFile r)). now rewrite IH.
Qed.

Lemma files_of_app (a b : list TAbstractFile) :
  files_of (a ++ b) = (files_of a ++ files_of b)%list.
Proof. apply flat_map_app. Qed.

Lemma all_files (l : list TAbstractFile) :
  forallb is_file l = true -> l = map AFile (files_of l).
Proof.
  induction l as [|[f|p] r IH]; cbn [forallb is_file]; intros H;
    [reflexivity | | discriminate].
  cbn [files_of flat_map app map]. fold (files_of r). now rewrite <- IH.
Qed.

Lemma forallb_is_file_map (l : list TFile) : forallb is_file (map AFile l) = true.
Proof. induction l as [|x r IH]; [reflexivity | exact IH]. Qed.

Lemma map_path_of (l : list TFile) : map path_of (map AFile l) = map path l.
Proof. rewrite map_map. reflexivity. Qed.

(** On files the sort of the source is the stable sort. *)
Lemma sort_by_mtime_files (files : list TFile) :
  sort_by_mtime (map AFile files) = Some (map AFile (sort files)).
Proof.
  destruct files as [|a [|b r]]; [reflexivity | reflexivity |].
  unfold sort_by_mtime.
  change (map AFile (a :: b :: r)) with (AFile a :: AFile b :: map AFile r).
  change (AFile a :: AFile b :: map AFile r) with (map AFile (a :: b :: r)).
  now rewrite forallb_is_file_map, files_of_map.
Qed.

(** When the sort returns, it has permuted the entries. *)
Lemma sort_by_mtime_Permutation (l s : list TAbstractFile) :
  sort_by_mtime l = Some s -> Permutation s l.
Proof.
  destruct l as [|a [|b r]]; cbn [sort_by_mtime].
  - now intros [= <-].
  - now intros [= <-].
  - set (l := a :: b :: r).
    destruct (forallb is_file l) eqn:E; [|discriminate].
    intros [= <-].
    eapply Permutation_trans; [apply Permutation_map, sort_Permutation|].
    change (Permutation (map AFile (files_of l)) l).
    rewrite <- (all_files l E). apply Permutation_refl.
Qed.

(** The sort throws exactly on a listing of two entries or more with a
    sub-folder in it. *)
Lemma sort_by_mtime_None (l : list TAbstractFile) :
  sort_by_mtime l = None <->
  (2 <= length l)%nat /\ forallb is_file l = false.
Proof.
  destruct l as [|a [|b r]]; cbn [sort_by_mtime length].
  - split; [discriminate | intros [H _]; lia].
  - split; [discriminate | intros [H _]; lia].
  - destruct (forallb is_file (a :: b :: r)); split.
    + discriminate.
    + now intros [_ H].
    + intros _. split; [lia | reflexivity].
    + reflexivity.
Qed.

(* ================================================================= *)
(** ** The vault operations *)

Lemma folder_at_path (v : list TFolder) (p : string) (d : TFolder) :
  folder_at v p = Some d -> folder_path d = p.
Proof.
  intros H. apply find_some in H as [_ H]. now apply String.eqb_eq.
Qed.

Lemma folder_at_In (v : list TFolder) (p : string) (d : TFolder) :
  folder_at v p = Some d -> In d v.
Proof.
  intros H. now apply find_some in H as [H _].
Qed.

(** Changing the children of folders does not change which folder is
    found at a path. *)
Lemma folder_at_map (g : TFolder -> TFolder) (v : list TFolder) (p : string) :
  (forall d, folder_path (g d) = folder_path d) ->
  folder_at (map g v) p = option_map g (folder_at v p).
Proof.
  intros Hg. unfold folder_at.
  induction v as [|d r IH]; [reflexivity|].
  cbn [map find]. rewrite Hg. destruct (String.eqb (folder_path d) p);
    [reflexivity | exact IH].
Qed.

Lemma folder_at_remove_file (x : string) (v : list TFolder) (p : string) :
  folder_at (remove_file x v) p =
  option_map (fun d => mkTFolder (folder_path d)
                         (filter (fun e => negb (String.eqb (path_of e) x))
                                 (children d)))
             (folder_at v p).
Proof.
  unfold remove_file. now apply folder_at_map.
Qed.

Lemma folder_at_update_children
  (q : string) (f : list TAbstractFile -> list TAbstractFile)
  (v : list TFolder) (p : string) :
  folder_at (update_children q f v) p =
  option_map (fun d => if String.eqb (folder_path d) q
                       then mkTFolder (folder_path d) (f (children d)) else d)
             (folder_at v p).
Proof.
  unfold folder_at. induction v as [|d r IH]; [reflexivity|].
  cbn [update_children find].
  destruct (String.eqb_spec (folder_path d) q) as [Eq|Nq]; cbn [find folder_path].
  - destruct (String.eqb_spec (folder_path d) p) as [Ep|Np].
    + cbn [option_map]. subst q. now rewrite String.eqb_refl.
    + destruct (find _ r) as [d'|] eqn:Hd'; [|reflexivity].
      cbn [option_map]. apply find_some in Hd' as [_ Hp].
      apply String.eqb_eq in Hp.
      destruct (String.eqb_spec (folder_path d') q); [congruence | reflexivity].
  - destruct (String.eqb_spec (folder_path d) p) as [Ep|Np]; [|exact IH].
    cbn [option_map]. now destruct (String.eqb_spec (folder_path d) q).
Qed.

Lemma folder_at_app (v : list TFolder) (d : TFolder) (p : string) :
  folder_at (v ++ [d]) p =
  match folder_at v p with
  | Some x => Some x
  | None => if String.eqb (folder_path d) p then Some d else None
  end.
Proof.
  unfold folder_at. induction v as [|x r IH]; [reflexivity|].
  cbn [app find]. destruct (String.eqb (folder_path x) p);
    [reflexivity | exact IH].
Qed.

(** A folder is what [getAbstractFileByPath] finds at its path. *)
Lemma getAbstractFileByPath_folder (v : list TFolder) (p : string) (d : TFolder) :
  folder_at v p = Some d ->
  getAbstractFileByPath v p = Some (AFolder p)
  /\ children_of v (AFolder p) = Some (children d).
Proof.
  intros H. unfold getAbstractFileByPath, children_of. now rewrite H.
Qed.

Lemma getAbstractFileByPath_None (v : list TFolder) (p : string) :
  getAbstractFileByPath v p = None <-> folder_at v p = None /\ file_at v p = None.
Proof.
  unfold getAbstractFileByPath.
  destruct (folder_at v p); [split; [discriminate | intros [H _]; discriminate]|].
  destruct (file_at v p); cbn [option_map]; split; try discriminate.
  - intros [_ H]. discriminate.
  - now split.
  - reflexivity.
Qed.

Lemma getAbstractFileByPath_file (v : list TFolder) (p : string) (f : TFile) :
  getAbstractFileByPath v p = Some (AFile f) <->
  folder_at v p = None /\ file_at v p = Some f.
Proof.
  unfold getAbstractFileByPath.
  destruct (folder_at v p); [split; [discriminate | intros [H _]; discriminate]|].
  destruct (file_at v p); cbn [option_map]; split.
  - now intros [= ->].
  - now intros [_ [= ->]].
  - discriminate.
  - intros [_ H]. discriminate.
Qed.

Lemma file_at_path (v : list TFolder) (p : string) (f : TFile) :
  file_at v p = Some f -> path f = p /\ In f (stored v).
Proof.
  intros H. apply find_some in H as [Hin H]. split; [|exact Hin].
  now apply String.eqb_eq.
Qed.

Lemma file_at_None (v : list TFolder) (p : string) :
  file_at v p = None <-> ~ In p (map path (stored v)).
Proof.
  unfold file_at. split.
  - intros H Hin. apply in_map_iff in Hin as (f & Hf & Hin).
    pose proof (find_none _ _ H f Hin) as Hno. cbv beta in Hno.
    rewrite Hf, String.eqb_refl in Hno. discriminate.
  - intros H. destruct (find _ (stored v)) as [f|] eqn:E; [|reflexivity].
    exfalso. apply find_some in E as [Hin Hp]. apply String.eqb_eq in Hp.
    apply H. rewrite <- Hp. now apply in_map.
Qed.

Lemma existsb_eqb_In (x : string) (l : list string) :
  existsb (String.eqb x) l = false -> ~ In x l.
Proof.
  intros H Hin.
  assert (existsb (String.eqb x) l = true) as Ht.
  { apply existsb_exists. exists x. split; [exact Hin | apply String.eqb_refl]. }
  congruence.
Qed.

Lemma distinct_NoDup (l : list string) : distinct l = true -> NoDup l.
Proof.
  induction l as [|x r IH]; cbn [distinct]; intros H; [constructor|].
  apply andb_prop in H as [Hx Hr].
  constructor; [|now apply IH].
  apply existsb_eqb_In. now destruct (existsb (String.eqb x) r).
Qed.

(** Removing a path that occurs once removes one entry. *)
Lemma filter_path_head (x : TAbstractFile) (r : list TAbstractFile) :
  ~ In (path_of x) (map path_of r) ->
  filter (fun e => negb (String.eqb (path_of e) (path_of x))) (x :: r) = r.
Proof.
  intros Hx. cbn [filter]. rewrite String.eqb_refl. cbn [negb].
  apply forallb_filter_id. apply forallb_forall. intros f Hf.
  destruct (String.eqb_spec (path_of f) (path_of x)) as [E|_]; [|reflexivity].
  exfalso. apply Hx. rewrite <- E. now apply in_map.
Qed.

Lemma filter_path_absent (x : string) (l : list TAbstractFile) :
  ~ In x (map path_of l) ->
  filter (fun e => negb (String.eqb (path_of e) x)) l = l.
Proof.
  intros Hx. apply forallb_filter_id. apply forallb_forall. intros f Hf.
  destruct (String.eqb_spec (path_of f) x) as [E|_]; [|reflexivity].
  exfalso. apply Hx. rewrite <- E. now apply in_map.
Qed.

(* ================================================================= *)
(** ** Traces *)

Lemma events_since_app (w w' : world) (evs : list event) :
  trace w' = (trace w ++ evs)%list -> events_since w w' = evs.
Proof.
  intros H. unfold events_since. rewrite H, skipn_app, skipn_all, Nat.sub_diag.
  reflexivity.
Qed.

Lemma extends_events (w w' : world) :
  extends w w' -> trace w' = (trace w ++ events_since w w')%list.
Proof.
  intros [evs H]. now rewrite (events_since_app _ _ _ H).
Qed.

Lemma extends_refl (w : world) : extends w w.
Proof. exists []. now rewrite app_nil_r. Qed.

Lemma extends_trans (w w' w'' : world) :
  extends w w' -> extends w' w'' -> extends w w''.
Proof.
  intros [e1 H1] [e2 H2]. exists (e1 ++ e2)%list.
  now rewrite H2, H1, app_assoc.
Qed.

Lemma events_since_trans (w w' w'' : world) :
  extends w w' -> extends w' w'' ->
  events_since w w'' = (events_since w w' ++ events_since w' w'')%list.
Proof.
  intros H1 H2. apply events_since_app.
  rewrite (extends_events _ _ H2), (extends_events _ _ H1).
  now rewrite app_assoc.
Qed.

Lemma extends_log (e : event) (w : world) : extends w (log e w).
Proof. now exists [e]. Qed.

Lemma extends_trace (w0 w w' : world) :
  trace w0 = trace w -> extends w0 w' -> extends w w'.
Proof. unfold extends. now intros ->. Qed.

Lemma trace_createFolder (env : environment) (p : string) (w : world) :
  trace (createFolder env p w)
  = (trace w ++ [CreateFolder p (storage_createFolder env p
                                 && negb (occupied (vault w) p))])%list.
Proof.
  unfold createFolder.
  now destruct (storage_createFolder env p && negb (occupied (vault w) p)).
Qed.

Lemma trace_rename (env : environment) (file : TFile) (folder name : string)
  (w : world) :
  trace (rename env file folder name w)
  = (trace w ++ [Rename (path file) (folder ++ "/" ++ name)
                   (rename_ok env file folder name (vault w))])%list.
Proof.
  unfold rename. now destruct (rename_ok env file folder name (vault w)).
Qed.

Lemma trace_trash (env : environment) (file : TAbstractFile) (w : world) :
  trace (trash env file w)
  = (trace w ++ [Trash (path_of file) (storage_trash env (path_of file))])%list.
Proof.
  unfold trash. now destruct (storage_trash env (path_of file)).
Qed.

(** A request that is carried out leaves one event, of its kind. *)
Lemma trace_carry_out (env : environment) (r : request) (w : world) :
  exists e, trace (carry_out env r w) = (trace w ++ [e])%list /\ answers r e.
Proof.
  destruct r as [p | file folder name | file]; cbn [carry_out].
  - eexists. split; [apply trace_createFolder | reflexivity].
  - eexists. split; [apply trace_rename | now split].
  - eexists. split; [apply trace_trash | reflexivity].
Qed.

Lemma settle_app (env : environment) (a b : list request) (w : world) :
  settle env (a ++ b) w = settle env b (settle env a w).
Proof. apply fold_left_app. Qed.

(** The requests leave their events in the order of the calls. *)
Lemma trace_settle (env : environment) (rs : list request) (w : world) :
  exists evs, trace (settle env rs w) = (trace w ++ evs)%list
              /\ Forall2 answers rs evs.
Proof.
  revert w. induction rs as [|r rest IH]; intros w.
  - exists []. split; [now rewrite app_nil_r | constructor].
  - cbn [settle fold_left]. fold (settle env rest (carry_out env r w)).
    destruct (trace_carry_out env r w) as (e & He & Ha).
    destruct (IH (carry_out env r w)) as (evs & Hevs & Hall).
    exists (e :: evs). split; [|now constructor].
    rewrite Hevs, He, <- app_assoc. reflexivity.
Qed.

Lemma extends_settle (env : environment) (rs : list request) (w : world) :
  extends w (settle env rs w).
Proof.
  destruct (trace_settle env rs w) as (evs & H & _). now exists evs.
Qed.

Lemma extends_carried_out (env : environment) (c : calls) (w : world) :
  extends w (carried_out env c w).
Proof.
  unfold carried_out.
  apply (extends_trace (mkWorld (memory c) (trace w))); [reflexivity|].
  apply extends_settle.
Qed.

Lemma extends_create (env : environment) (folder name data : string)
  (w : world) : extends w (create env folder name data w).
Proof.
  unfold create. destruct (create_ok env folder name (vault w));
    eexists; reflexivity.
Qed.

Lemma extends_convertAndCreate (settings : fbmPluginSettings)
  (env : environment) (w : world) :
  extends w (convertAndCreate settings env w).
Proof.
  unfold convertAndCreate.
  destruct (xbel env) as [x|]; [|apply extends_log].
  destruct (writeFolderStructure x 0) as [data|]; [|apply extends_log].
  destruct (create_ok env _ _ (vault w)).
  - apply extends_create.
  - eapply extends_trans; [apply extends_create | apply extends_log].
Qed.

(** Trash requests, one after the other. *)
Lemma trace_trashes (env : environment) (l : list TAbstractFile) (w : world) :
  trace (settle env (map TrashRequest l) w)
  = (trace w ++ map (fun e => Trash (path_of e) (storage_trash env (path_of e))) l)%list.
Proof.
  revert w. induction l as [|x r IH]; intros w.
  - cbn [map settle fold_left]. now rewrite app_nil_r.
  - cbn [map settle fold_left carry_out].
    fold (settle env (map TrashRequest r) (trash env x w)).
    rewrite IH, trace_trash, <- app_assoc. reflexivity.
Qed.

(** Trashing the files of [l], each request being carried out. *)
Lemma trash_all (env : environment) (l : list TFile) (w : world) :
  (forall f, In f l -> storage_trash env (path f) = true) ->
  settle env (map TrashRequest (map AFile l)) w
  = mkWorld (fold_left (fun v f => remove_file (path f) v) l (vault w))
            (trace w ++ map (fun f => Trash (path f) true) l).
Proof.
  revert w. induction l as [|x r IH]; intros w Hok.
  - cbn [map settle fold_left]. rewrite app_nil_r. now destruct w.
  - cbn [map settle fold_left carry_out].
    fold (settle env (map TrashRequest (map AFile r)) (trash env (AFile x) w)).
    rewrite IH by (intros f Hf; apply Hok; now right).
    unfold trash. cbn [path_of]. rewrite (Hok x) by now left.
    cbn [log vault trace]. now rewrite <- app_assoc.
Qed.

Lemma children_after_removals (a : list TFile) (b : list TAbstractFile)
  (v : list TFolder) (p q : string) :
  folder_at v p = Some (mkTFolder q (map AFile a ++ b)) ->
  NoDup (map path_of (map AFile a ++ b)) ->
  folder_at (fold_left (fun v f => remove_file (path f) v) a v) p
  = Some (mkTFolder q b).
Proof.
  revert v. induction a as [|x r IH]; intros v Hv Hnd; [exact Hv|].
  cbn [fold_left]. cbn [map] in Hv, Hnd. rewrite <- app_comm_cons in Hv, Hnd.
  cbn [map] in Hnd. apply NoDup_cons_iff in Hnd as [Hx Hnd].
  apply IH; [|exact Hnd].
  rewrite folder_at_remove_file, Hv. cbn [option_map folder_path children].
  change (path x) with (path_of (AFile x)).
  now rewrite filter_path_head.
Qed.

(* ================================================================= *)
(** ** The prune *)

Lemma send_all (l : list TAbstractFile) (c : calls) :
  fold_left (fun c' file => send (TrashRequest file) c') l c
  = mkCalls (memory c) (sent c ++ map TrashRequest l) (thrown c).
Proof.
  revert c. induction l as [|x r IH]; intros c.
  - cbn [fold_left map]. rewrite app_nil_r. now destruct c.
  - cbn [fold_left map]. rewrite IH. unfold send.
    cbn [memory sent thrown]. now rewrite <- app_assoc.
Qed.

(** What [deleteOldBackups] does when a folder is stored at the path. *)
Lemma deleteOldBackups_folder (p : string) (k : Z) (c : calls) (d : TFolder) :
  folder_at (memory c) p = Some d ->
  deleteOldBackups p k c
  = match sort_by_mtime (children d) with
    | None => throw c
    | Some backupFiles =>
        mkCalls (update_children p (fun _ => backupFiles) (memory c))
          (sent c
           ++ map TrashRequest
                (firstn (Z.to_nat (Z.of_nat (length (children d)) - k + 1))
                        backupFiles))
          (thrown c)
    end.
Proof.
  intros Hd. unfold deleteOldBackups.
  destruct (getAbstractFileByPath_folder _ _ _ Hd) as [-> ->].
  destruct (sort_by_mtime (children d)) as [s|] eqn:Hs; [|reflexivity].
  rewrite (Permutation_length (sort_by_mtime_Permutation _ _ Hs)).
  destruct (Z.gtb_spec (Z.of_nat (length (children d)) - k + 1) 0) as [Hpos|Hneg].
  - rewrite send_all. cbn [memory sent thrown]. unfold slice0.
    destruct (Z.ltb_spec (Z.of_nat (length (children d)) - k + 1) 0); [lia|].
    reflexivity.
  - replace (Z.to_nat (Z.of_nat (length (children d)) - k + 1)) with 0%nat by lia.
    cbn [firstn map]. now rewrite app_nil_r.
Qed.

(** On a folder of files. *)
Lemma deleteOldBackups_files (p : string) (k : Z) (c : calls) (d : TFolder)
  (files : list TFile) :
  folder_at (memory c) p = Some d ->
  children d = map AFile files ->
  deleteOldBackups p k c
  = mkCalls (update_children p (fun _ => map AFile (sort files)) (memory c))
      (sent c
       ++ map TrashRequest
            (map AFile (firstn (Z.to_nat (Z.of_nat (length files) - k + 1))
                               (sort files))))
      (thrown c).
Proof.
  intros Hd Hfiles. rewrite (deleteOldBackups_folder p k c d Hd), Hfiles.
  rewrite sort_by_mtime_files, length_map, firstn_map. reflexivity.
Qed.

(** The prune on its own, the trash requests being carried out. *)
Lemma deleteOldBackups_spec (env : environment) (p : string) (k : Z)
  (w : world) (d : TFolder) (files : list TFile) :
  folder_at (vault w) p = Some d ->
  children d = map AFile files ->
  NoDup (map path files) ->
  let toDelete := (Z.of_nat (length files) - k + 1)%Z in
  let sorted := sort files in
  let w' := alone env (deleteOldBackups p k) w in
  (forall f, In f (firstn (Z.to_nat toDelete) sorted) ->
             storage_trash env (path f) = true) ->
  w' = mkWorld
         (fold_left (fun v f => remove_file (path f) v)
            (firstn (Z.to_nat toDelete) sorted)
            (update_children p (fun _ => map AFile sorted) (vault w)))
         (trace w ++ map (fun f => Trash (path f) true)
                       (firstn (Z.to_nat toDelete) sorted))
  /\ folder_at (vault w') p
     = Some (mkTFolder p (map AFile (skipn (Z.to_nat toDelete) sorted))).
Proof.
  intros Hd Hfiles Hnd toDelete sorted w' Hok.
  assert (NoDup (map path sorted)) as Hnds.
  { apply (Permutation_NoDup (l := map path files)); [|exact Hnd].
    apply Permutation_map, Permutation_sym, sort_Permutation. }
  assert (w' = mkWorld
         (fold_left (fun v f => remove_file (path f) v)
            (firstn (Z.to_nat toDelete) sorted)
            (update_children p (fun _ => map AFile sorted) (vault w)))
         (trace w ++ map (fun f => Trash (path f) true)
                       (firstn (Z.to_nat toDelete) sorted))) as Hw'.
  { subst w'. unfold alone, carried_out.
    rewrite (deleteOldBackups_files p k (mkCalls (vault w) [] false) d files
               Hd Hfiles).
    cbn [memory sent app]. now rewrite trash_all. }
  split; [exact Hw'|]. rewrite Hw'. cbn [vault].
  apply children_after_removals.
  - rewrite folder_at_update_children, Hd. cbn [option_map].
    rewrite (folder_at_path _ _ _ Hd), String.eqb_refl.
    now rewrite <- map_app, firstn_skipn.
  - now rewrite <- map_app, firstn_skipn, map_path_of.
Qed.

Lemma deleteOldBackups_no_folder (p : string) (k : Z) (c : calls) :
  folder_at (memory c) p = None ->
  deleteOldBackups p k c
  = match file_at (memory c) p with
    | Some _ => throw c
    | None => c
    end.
Proof.
  intros H. unfold deleteOldBackups, getAbstractFileByPath. rewrite H.
  now destruct (file_at (memory c) p).
Qed.

(** The prune sends trash requests only, for entries of the folder, and
    none when it throws. *)
Lemma deleteOldBackups_sent (p : string) (k : Z) (c : calls) :
  exists l,
    sent (deleteOldBackups p k c) = (sent c ++ map TrashRequest l)%list
    /\ memory (deleteOldBackups p k c)
       = match folder_at (memory c) p with
         | Some d =>
             match sort_by_mtime (children d) with
             | Some s => update_children p (fun _ => s) (memory c)
             | None => memory c
             end
         | None => memory c
         end
    /\ (thrown c = false -> thrown (deleteOldBackups p k c) = true -> l = [])
    /\ (length l <= length (match folder_at (memory c) p with
                            | Some d => children d
                            | None => []
                            end))%nat
    /\ forall e, In e l ->
         exists d, folder_at (memory c) p = Some d /\ In e (children d).
Proof.
  destruct (folder_at (memory c) p) as [d|] eqn:Hd.
  - rewrite (deleteOldBackups_folder p k c d Hd).
    destruct (sort_by_mtime (children d)) as [s|] eqn:Hs.
    + eexists. cbn [sent memory thrown]. split; [reflexivity|].
      split; [reflexivity|]. split; [congruence|]. split.
      * rewrite length_firstn,
          (Permutation_length (sort_by_mtime_Permutation _ _ Hs)). lia.
      * intros e He. exists d. split; [reflexivity|].
        apply (Permutation_in e (sort_by_mtime_Permutation _ _ Hs)).
        apply (firstn_In _ _ _ He).
    + exists []. cbn [throw sent memory map length]. rewrite app_nil_r.
      split; [reflexivity|]. split; [reflexivity|]. split; [reflexivity|].
      split; [lia | intros e []].
  - rewrite (deleteOldBackups_no_folder p k c Hd). exists [].
    cbn [map length]. destruct (file_at (memory c) p);
      cbn [throw sent memory]; rewrite app_nil_r;
      (split; [reflexivity|]; split; [reflexivity|]; split; [reflexivity|];
       split; [lia | intros e []]).
Qed.

(* ================================================================= *)
(** ** The files of the vault *)

Lemma In_files_of (t : TFile) (l : list TAbstractFile) :
  In t (files_of l) <-> In (AFile t) l.
Proof.
  unfold files_of. rewrite in_flat_map. split.
  - intros ([f|p] & Hin & Ht); [|contradiction].
    destruct Ht as [<- | []]. exact Hin.
  - intros H. exists (AFile t). split; [exact H | now left].
Qed.

Lemma In_stored (t : TFile) (v : list TFolder) :
  In t (stored v) <-> exists d, In d v /\ In (AFile t) (children d).
Proof.
  unfold stored. rewrite In_files_of, in_flat_map. reflexivity.
Qed.

Lemma stored_cons (d : TFolder) (v : list TFolder) :
  stored (d :: v) = (files_of (children d) ++ stored v)%list.
Proof. unfold stored. cbn [flat_map]. apply files_of_app. Qed.

Lemma stored_app (v v' : list TFolder) :
  stored (v ++ v') = (stored v ++ stored v')%list.
Proof. unfold stored. now rewrite flat_map_app, files_of_app. Qed.

Lemma stored_new_entry (q p : string) (v : list TFolder) :
  stored (update_children q (fun cs => cs ++ [AFolder p])%list v) = stored v.
Proof.
  induction v as [|d r IH]; [reflexivity|]. cbn [update_children].
  destruct (String.eqb (folder_path d) q).
  - rewrite !stored_cons. cbn [children]. rewrite files_of_app.
    cbn [files_of flat_map app]. now rewrite app_nil_r.
  - rewrite !stored_cons. now rewrite IH.
Qed.

Lemma stored_new_file (q : string) (m t : TFile) (v : list TFolder) :
  In t (stored (update_children q (fun cs => cs ++ [AFile m])%list v)) ->
  In t (stored v) \/ t = m.
Proof.
  induction v as [|d r IH]; [intros []|]. cbn [update_children].
  destruct (String.eqb (folder_path d) q); rewrite !stored_cons.
  - cbn [children]. rewrite files_of_app. intros H.
    apply in_app_or in H as [H | H]; [|left; apply in_or_app; now right].
    apply in_app_or in H as [H | H]; [left; apply in_or_app; now left|].
    destruct H as [<- | []]. now right.
  - intros H. apply in_app_or in H as [H | H].
    + left. apply in_or_app. now left.
    + destruct (IH H) as [H' | H']; [left; apply in_or_app; now right | now right].
Qed.

Lemma stored_remove_file (x : string) (t : TFile) (v : list TFolder) :
  In t (stored (remove_file x v)) -> In t (stored v) /\ path t <> x.
Proof.
  rewrite !In_stored. intros (d & Hd & Ht). unfold remove_file in Hd.
  apply in_map_iff in Hd as (d0 & <- & Hd0). cbn [children] in Ht.
  apply filter_In in Ht as [Ht Hne]. split; [now exists d0|].
  cbn [path_of] in Hne. intros E. rewrite E, String.eqb_refl in Hne.
  discriminate.
Qed.

Lemma stored_remove_folder (x : string) (t : TFile) (v : list TFolder) :
  In t (stored (remove_folder x v)) -> In t (stored v).
Proof.
  intros H. apply In_stored in H as (d & Hd & Ht). unfold remove_folder in Hd.
  apply filter_In in Hd as [Hd _].
  apply (stored_remove_file x t v). apply In_stored. now exists d.
Qed.

(** Sorting the entries of a folder keeps the files of the vault. *)
Lemma stored_reordered (p : string) (s : list TAbstractFile) (v : list TFolder)
  (d : TFolder) :
  folder_at v p = Some d ->
  Permutation s (children d) ->
  Permutation (stored (update_children p (fun _ => s) v)) (stored v).
Proof.
  unfold folder_at. induction v as [|d0 r IH]; [discriminate|].
  cbn [find update_children]. destruct (String.eqb (folder_path d0) p).
  - intros [= ->] Hs. rewrite !stored_cons. cbn [children].
    apply Permutation_app_tail. unfold files_of.
    now apply Permutation_flat_map.
  - intros Hd Hs. rewrite !stored_cons. apply Permutation_app_head.
    now apply IH.
Qed.

Lemma occupied_stored (v : list TFolder) (t : TFile) :
  In t (stored v) -> occupied v (path t) = true.
Proof.
  intros H. unfold occupied.
  destruct (getAbstractFileByPath v (path t)) eqn:E; [reflexivity|].
  apply getAbstractFileByPath_None in E as [_ E].
  apply file_at_None in E. exfalso. apply E. now apply in_map.
Qed.

Lemma file_at_createFolder (env : environment) (p : string) (w : world)
  (x : string) :
  file_at (vault (createFolder env p w)) x = file_at (vault w) x.
Proof.
  unfold createFolder, file_at.
  destruct (storage_createFolder env p && negb (occupied (vault w) p));
    cbn [log vault]; [|reflexivity].
  rewrite stored_app, stored_new_entry. unfold stored at 2.
  cbn [flat_map children app files_of]. now rewrite app_nil_r.
Qed.

(** After a successful move nothing is left at the old path, and the
    file is in the folder it was moved to. *)
Lemma rename_moves (env : environment) (file : TFile) (folder name : string)
  (w : world) :
  occupied (vault w) (path file) = true ->
  rename_ok env file folder name (vault w) = true ->
  file_at (vault (rename env file folder name w)) (path file) = None
  /\ exists d,
       folder_at (vault (rename env file folder name w)) folder = Some d
       /\ In (AFile (mkTFile (folder ++ "/" ++ name) (Path.basename_of name)
                       (Path.extension_of name) (mtime file) (contents file)))
             (children d).
Proof.
  intros Hfile Hok. unfold rename. rewrite Hok. cbn [log vault].
  pose proof Hok as Hok'. unfold rename_ok in Hok'.
  apply andb_prop in Hok' as [Hok' Hfree]. apply andb_prop in Hok' as [_ Hdir].
  destruct (folder_at (vault w) folder) as [d0|] eqn:Hd0; [|discriminate].
  assert (folder ++ "/" ++ name <> path file) as Hfresh.
  { intros E. rewrite E, Hfile in Hfree. discriminate. }
  split.
  - apply file_at_None. intros Hin. apply in_map_iff in Hin as (t & Hp & Hin).
    apply stored_new_file in Hin as [Hin | ->].
    + now apply stored_remove_file in Hin as [_ Hne].
    + cbn [path] in Hp. contradiction.
  - rewrite folder_at_update_children, folder_at_remove_file, Hd0.
    cbn [option_map folder_path children].
    rewrite (folder_at_path _ _ _ Hd0), String.eqb_refl.
    eexists. split; [reflexivity|]. cbn [children].
    apply in_or_app. right. now left.
Qed.

Lemma find_app_None {A : Type} (f : A -> bool) (l1 l2 : list A) :
  find f l1 = None -> find f (l1 ++ l2) = find f l2.
Proof.
  induction l1 as [|x r IH]; [reflexivity|]. cbn [find app].
  destruct (f x); [discriminate | exact IH].
Qed.

Lemma find_app_None_inv {A : Type} (f : A -> bool) (l1 l2 : list A) :
  find f (l1 ++ l2) = None -> find f l1 = None /\ find f l2 = None.
Proof.
  induction l1 as [|x r IH]; [now split|]. cbn [find app].
  destruct (f x); [discriminate | exact IH].
Qed.

(** A file that was created is found at its path. *)
Lemma create_lookup (env : environment) (folder name data : string) (w : world) :
  create_ok env folder name (vault w) = true ->
  file_at (vault (create env folder name data w)) (folder ++ "/" ++ name)
  = Some (mkTFile (folder ++ "/" ++ name) (Path.basename_of name)
            (Path.extension_of name) (now env) data).
Proof.
  intros Hok. unfold create. rewrite Hok. cbn [log vault].
  unfold create_ok in Hok.
  apply andb_prop in Hok as [Hok Hfree]. apply andb_prop in Hok as [_ Hdir].
  set (p := folder ++ "/" ++ name) in *.
  set (file := mkTFile p _ _ _ _).
  assert (file_at (vault w) p = None) as Hnone.
  { unfold occupied in Hfree.
    destruct (getAbstractFileByPath (vault w) p) eqn:E; [discriminate|].
    now apply getAbstractFileByPath_None in E. }
  destruct (folder_at (vault w) folder) as [d|] eqn:Hd; [|discriminate].
  clear Hfree Hdir. unfold file_at, folder_at in *.
  induction (vault w) as [|d0 r IH]; [discriminate|].
  cbn [find] in Hd. rewrite stored_cons in Hnone.
  apply find_app_None_inv in Hnone as [Hhere Hrest].
  cbn [update_children].
  destruct (String.eqb (folder_path d0) folder) eqn:E; rewrite stored_cons.
  - cbn [children]. rewrite files_of_app, <- app_assoc.
    rewrite (find_app_None _ _ _ Hhere).
    cbn [files_of flat_map app find path file]. now rewrite String.eqb_refl.
  - rewrite (find_app_None _ _ _ Hhere). now apply IH.
Qed.

(* ================================================================= *)
(** ** One run *)

Lemma ensureFolder_present (p : string) (c : calls) (e : TAbstractFile) :
  getAbstractFileByPath (memory c) p = Some e -> ensureFolder p c = c.
Proof. intros H. unfold ensureFolder. now rewrite H. Qed.

Lemma ensureFolder_absent (p : string) (c : calls) :
  getAbstractFileByPath (memory c) p = None ->
  ensureFolder p c = send (CreateFolderRequest p) c.
Proof. intros H. unfold ensureFolder. now rewrite H. Qed.

(** The requests of the rotation, then the end of the run: the [try]
    block, or the exception that the rotation has thrown. *)
Lemma events_of_run (settings : fbmPluginSettings) (env : environment)
  (w : world) :
  events_since w (processXBELFileData settings env w)
  = (events_since w (before_conversion settings env w)
     ++ (if thrown (rotation settings env (vault w)) then [Uncaught]
         else events_since (before_conversion settings env w)
                (convertAndCreate settings env
                   (before_conversion settings env w))))%list.
Proof.
  unfold processXBELFileData. cbv zeta.
  fold (before_conversion settings env w).
  assert (extends w (before_conversion settings env w)) as E
    by apply extends_carried_out.
  destruct (thrown (rotation settings env (vault w))).
  - rewrite (events_since_trans w _ _ E (extends_log _ _)). f_equal.
    now apply events_since_app.
  - apply (events_since_trans w _ _ E), extends_convertAndCreate.
Qed.

Lemma vault_of_run (settings : fbmPluginSettings) (env : environment)
  (w : world) :
  thrown (rotation settings env (vault w)) = false ->
  processXBELFileData settings env w
  = convertAndCreate settings env (before_conversion settings env w).
Proof.
  intros H. unfold processXBELFileData. cbv zeta. now rewrite H.
Qed.

(** A run all of whose events succeeded was not ended by an exception. *)
Lemma succeeded_returns (settings : fbmPluginSettings) (env : environment)
  (w : world) :
  forallb succeeded (events_since w (processXBELFileData settings env w)) = true ->
  thrown (rotation settings env (vault w)) = false.
Proof.
  rewrite events_of_run, forallb_app.
  destruct (thrown (rotation settings env (vault w))); [|reflexivity].
  cbn [forallb succeeded]. now rewrite andb_false_r.
Qed.

Lemma other_folder_convertAndCreate (settings : fbmPluginSettings)
  (env : environment) (w : world) (q : string) :
  mdFolderPath settings <> q ->
  folder_at (vault (convertAndCreate settings env w)) q
  = folder_at (vault w) q.
Proof.
  intros Hq. unfold convertAndCreate.
  destruct (xbel env) as [x|]; [|reflexivity].
  destruct (writeFolderStructure x 0) as [data|]; [|reflexivity].
  assert (folder_at
            (vault (create env (mdFolderPath settings) (mdFileName settings) data w)) q
          = folder_at (vault w) q) as H.
  { unfold create.
    destruct (create_ok env _ _ (vault w)); cbn [log vault]; [|reflexivity].
    rewrite folder_at_update_children.
    destruct (folder_at (vault w) q) as [d|] eqn:Hd; [|reflexivity].
    cbn [option_map]. rewrite (folder_at_path _ _ _ Hd).
    destruct (String.eqb_spec q (mdFolderPath settings)); [congruence|].
    reflexivity. }
  destruct (create_ok env _ _ (vault w)); exact H.
Qed.

Lemma NoDup_snoc {A : Type} (l : list A) (x : A) :
  NoDup l -> ~ In x l -> NoDup (l ++ [x]).
Proof.
  intros Hl Hx. apply NoDup_app; [exact Hl | repeat constructor; intros [] |].
  intros a Ha [<- | []]. contradiction.
Qed.

(** The rotation of a run that finds an output, in a folder that is in
    the vault, and a backup folder of files: one move, then the trash
    requests for the first [n - keepCount + 1] files of the listing,
    sorted.  The listing is the one of the vault as the run found it:
    the move has not been carried out when the prune reads it. *)
Lemma rotation_with_folder (settings : fbmPluginSettings) (env : environment)
  (v : list TFolder) (file : TFile) (d : TFolder) (files : list TFile) :
  getAbstractFileByPath v (mdFolderPath settings ++ "/" ++ mdFileName settings)
  = Some (AFile file) ->
  getAbstractFileByPath v (mdFolderPath settings) <> None ->
  folder_at v (backupFolderPath settings) = Some d ->
  children d = map AFile files ->
  rotation settings env v
  = mkCalls
      (update_children (backupFolderPath settings)
         (fun _ => map AFile (sort files)) v)
      (RenameRequest file (backupFolderPath settings) (backup_name env file)
       :: map TrashRequest
            (map AFile
               (firstn (Z.to_nat (Z.of_nat (length files) - keepCount settings + 1))
                       (sort files))))
      false.
Proof.
  intros Hfile Hmd Hd Hfiles. unfold rotation. cbv zeta. rewrite Hfile.
  destruct (getAbstractFileByPath v (mdFolderPath settings)) as [e|] eqn:E;
    [|congruence].
  rewrite (ensureFolder_present _ (mkCalls v [] false) e E).
  unfold backupExistingFile. cbv zeta. fold (backup_name env file).
  rewrite (ensureFolder_present _ (mkCalls v [] false) (AFolder _)
             (proj1 (getAbstractFileByPath_folder _ _ _ Hd))).
  unfold send. cbn [thrown memory sent app].
  now rewrite (deleteOldBackups_files _ _ (mkCalls v _ false) d files Hd Hfiles).
Qed.

(** The same when nothing is stored at the backup location: the folder
    is asked for, and nothing is pruned. *)
Lemma rotation_without_folder (settings : fbmPluginSettings)
  (env : environment) (v : list TFolder) (file : TFile) :
  getAbstractFileByPath v (mdFolderPath settings ++ "/" ++ mdFileName settings)
  = Some (AFile file) ->
  getAbstractFileByPath v (mdFolderPath settings) <> None ->
  getAbstractFileByPath v (backupFolderPath settings) = None ->
  rotation settings env v
  = mkCalls v
      [CreateFolderRequest (backupFolderPath settings);
       RenameRequest file (backupFolderPath settings) (backup_name env file)]
      false.
Proof.
  intros Hfile Hmd Hbak. unfold rotation. cbv zeta. rewrite Hfile.
  destruct (getAbstractFileByPath v (mdFolderPath settings)) as [e|] eqn:E;
    [|congruence].
  rewrite (ensureFolder_present _ (mkCalls v [] false) e E).
  unfold backupExistingFile. cbv zeta. fold (backup_name env file).
  rewrite (ensureFolder_absent _ (mkCalls v [] false) Hbak).
  unfold send. cbn [thrown memory sent app].
  unfold deleteOldBackups. cbn [memory]. now rewrite Hbak.
Qed.

Lemma memory_ensureFolder (p : string) (c : calls) :
  memory (ensureFolder p c) = memory c.
Proof.
  unfold ensureFolder. now destruct (getAbstractFileByPath (memory c) p).
Qed.

Lemma memory_backupExistingFile (env : environment) (file : TAbstractFile)
  (bak : string) (c : calls) :
  memory (backupExistingFile env file bak c) = memory c.
Proof.
  unfold backupExistingFile. cbv zeta.
  destruct file; cbn [send throw memory]; apply memory_ensureFolder.
Qed.

(** The vault in memory when the prune starts is the vault as the run
    found it. *)
Lemma memory_before_prune (settings : fbmPluginSettings) (env : environment)
  (v : list TFolder) :
  memory
    match getAbstractFileByPath v
            (mdFolderPath settings ++ "/" ++ mdFileName settings) with
    | Some file =>
        backupExistingFile env file (backupFolderPath settings)
          (ensureFolder (mdFolderPath settings) (mkCalls v [] false))
    | None => ensureFolder (mdFolderPath settings) (mkCalls v [] false)
    end = v.
Proof.
  destruct (getAbstractFileByPath v _);
    rewrite ?memory_backupExistingFile, memory_ensureFolder; reflexivity.
Qed.

(** A file stored at the backup location makes the rotation throw. *)
Lemma rotation_file_at_backup_location (settings : fbmPluginSettings)
  (env : environment) (v : list TFolder) (g : TFile) :
  getAbstractFileByPath v (backupFolderPath settings) = Some (AFile g) ->
  thrown (rotation settings env v) = true.
Proof.
  intros Hbak. unfold rotation. cbv zeta.
  pose proof (memory_before_prune settings env v) as Hm.
  match goal with
  | |- thrown (if thrown ?c then _ else _) = true =>
      destruct (thrown c) eqn:E; [exact E|]
  end.
  unfold deleteOldBackups. rewrite Hm, Hbak. reflexivity.
Qed.

Lemma backups_files (settings : fbmPluginSettings) (w : world) (d : TFolder) :
  folder_at (vault w) (backupFolderPath settings) = Some d ->
  backups settings w = children d.
Proof. intros H. unfold backups. now rewrite H. Qed.

Lemma forallb_trashes (env : environment) (l : list TFile) :
  forallb succeeded
    (map (fun e => Trash (path_of e) (storage_trash env (path_of e)))
         (map AFile l)) = true ->
  forall f, In f l -> storage_trash env (path f) = true.
Proof.
  intros H f Hf. rewrite forallb_forall in H.
  apply (H (Trash (path f) (storage_trash env (path f)))).
  apply in_map_iff. exists (AFile f). split; [reflexivity | now apply in_map].
Qed.

(** The backup folder after a run that rotates: the entries it had,
    sorted, without the first [n - keepCount + 1] of them, and after
    them the backup of the output, which the prune has not seen. *)
Lemma rotation_listing (settings : fbmPluginSettings) (env : environment)
  (w : world) (file : TFile) :
  mdFolderPath settings <> backupFolderPath settings ->
  getAbstractFileByPath (vault w)
    (mdFolderPath settings ++ "/" ++ mdFileName settings) = Some (AFile file) ->
  rotates settings env w = true ->
  let files := files_of (backups settings w) in
  backups settings (processXBELFileData settings env w)
  = (map AFile
       (skipn (Z.to_nat (Z.of_nat (length files) - keepCount settings + 1))
              (sort files))
     ++ [AFile (backup_of settings env file)])%list.
Proof.
  intros Hneq Hfile Hrot files. unfold rotates in Hrot. cbv zeta in Hrot.
  rewrite Hfile in Hrot.
  apply andb_prop in Hrot as [Hrot Hout]. apply andb_prop in Hrot as [Hrot Hdis].
  apply andb_prop in Hrot as [Hrot Hallf]. apply andb_prop in Hrot as [Hrot Hsucc].
  apply andb_prop in Hrot as [_ Hmd].
  assert (getAbstractFileByPath (vault w) (mdFolderPath settings) <> None) as Hmd'
    by (destruct (getAbstractFileByPath (vault w) (mdFolderPath settings));
        [discriminate | discriminate]).
  clear Hmd.
  pose proof (succeeded_returns settings env w Hsucc) as Hret.
  rewrite events_of_run, Hret, forallb_app in Hsucc.
  apply andb_prop in Hsucc as [Hsucc _].
  rewrite (vault_of_run settings env w Hret).
  unfold backups at 1. rewrite (other_folder_convertAndCreate _ _ _ _ Hneq).
  unfold before_conversion, carried_out in *.
  set (bak := backupFolderPath settings) in *.
  set (name := backup_name env file) in *.
  change (backup_of settings env file)
    with (mkTFile (bak ++ "/" ++ name) (Path.basename_of name)
            (Path.extension_of name) (mtime file) (contents file)).
  set (moved := mkTFile (bak ++ "/" ++ name) (Path.basename_of name)
                  (Path.extension_of name) (mtime file) (contents file)).
  destruct (folder_at (vault w) bak) as [d|] eqn:Hd.
  - (* a backup folder *)
    assert (children d = map AFile files) as Hch.
    { unfold files. rewrite (backups_files settings w d Hd) in *.
      now apply all_files. }
    rewrite (backups_files settings w d Hd), Hch, map_path_of in Hout, Hdis.
    rewrite (rotation_with_folder settings env (vault w) file d files
               Hfile Hmd' Hd Hch) in *.
    cbn [memory sent] in *. fold bak name in Hsucc |- *.
    set (sorted := sort files) in *.
    set (c := Z.to_nat (Z.of_nat (length files) - keepCount settings + 1)) in *.
    set (v' := update_children bak (fun _ => map AFile sorted) (vault w)) in *.
    cbn [settle fold_left carry_out] in *.
    fold (settle env (map TrashRequest (map AFile (firstn c sorted)))
            (rename env file bak name (mkWorld v' (trace w)))) in *.
    set (w1 := rename env file bak name (mkWorld v' (trace w))) in *.
    (* the events *)
    assert (trace (settle env (map TrashRequest (map AFile (firstn c sorted))) w1)
            = (trace w
               ++ Rename (path file) (bak ++ "/" ++ name)
                    (rename_ok env file bak name v')
               :: map (fun e => Trash (path_of e) (storage_trash env (path_of e)))
                    (map AFile (firstn c sorted)))%list) as Htrace.
    { rewrite trace_trashes. unfold w1. rewrite trace_rename.
      cbn [vault trace]. now rewrite <- app_assoc. }
    rewrite (events_since_app _ _ _ Htrace) in Hsucc.
    cbn [forallb succeeded] in Hsucc. apply andb_prop in Hsucc as [Hmove Htrash].
    pose proof (forallb_trashes env _ Htrash) as Hok. clear Htrash Htrace.
    (* the folder in memory, sorted *)
    assert (folder_at v' bak = Some (mkTFolder bak (map AFile sorted))) as Hd'.
    { unfold v'. rewrite folder_at_update_children, Hd. cbn [option_map].
      now rewrite (folder_at_path _ _ _ Hd), String.eqb_refl. }
    assert (Permutation (map path sorted) (map path files)) as Hperm
      by apply Permutation_map, sort_Permutation.
    destruct (proj1 (getAbstractFileByPath_file _ _ _) Hfile) as [_ Hat].
    apply file_at_path in Hat as [Hpath _].
    (* the move *)
    assert (~ In (bak ++ "/" ++ name) (map path sorted)) as Hfresh.
    { intros Hin. apply in_map_iff in Hin as (f & Hf & Hin).
      unfold rename_ok in Hmove.
      apply andb_prop in Hmove as [_ Hfree]. rewrite <- Hf in Hfree.
      rewrite occupied_stored in Hfree; [discriminate|].
      apply In_stored. exists (mkTFolder bak (map AFile sorted)).
      split; [apply (folder_at_In _ _ _ Hd') | now apply in_map]. }
    assert (folder_at (vault w1) bak
            = Some (mkTFolder bak (map AFile sorted ++ [AFile moved]))) as Hd1.
    { unfold w1, rename. cbv zeta. cbn [vault trace]. rewrite Hmove.
      cbn [log vault].
      rewrite folder_at_update_children, folder_at_remove_file, Hd'.
      cbn [option_map folder_path children]. rewrite String.eqb_refl.
      rewrite filter_path_absent; [reflexivity|].
      rewrite map_path_of, Hpath. intros Hin.
      apply negb_true_iff in Hout. apply (existsb_eqb_In _ _ Hout).
      apply (Permutation_in _ Hperm Hin). }
    (* the trash requests *)
    rewrite trash_all by exact Hok. cbn [vault].
    rewrite (children_after_removals (firstn c sorted)
               (map AFile (skipn c sorted) ++ [AFile moved]) _ bak bak).
    + reflexivity.
    + now rewrite Hd1, app_assoc, <- map_app, firstn_skipn.
    + rewrite app_assoc, <- map_app, firstn_skipn, map_app, map_path_of.
      cbn [map path_of moved path]. apply NoDup_snoc; [|exact Hfresh].
      apply (Permutation_NoDup (Permutation_sym Hperm)).
      now apply distinct_NoDup.
  - (* no backup folder *)
    assert (files = []) as Hnil
      by (unfold files, backups; fold bak; now rewrite Hd).
    rewrite Hnil. cbn [sort length]. rewrite skipn_nil. cbn [map app].
    destruct (file_at (vault w) bak) as [g|] eqn:Hg.
    + (* a file at the backup location: the run throws *)
      rewrite (rotation_file_at_backup_location settings env (vault w) g)
        in Hret; [discriminate|].
      apply getAbstractFileByPath_file. now split.
    + assert (getAbstractFileByPath (vault w) bak = None) as Hnone
        by (apply getAbstractFileByPath_None; now split).
      rewrite (rotation_without_folder settings env (vault w) file
                 Hfile Hmd' Hnone) in *.
      cbn [memory sent settle fold_left carry_out] in *. fold bak name in Hsucc |- *.
      set (w0 := createFolder env bak (mkWorld (vault w) (trace w))) in *.
      assert (trace (rename env file bak name w0)
              = (trace w
                 ++ [CreateFolder bak (storage_createFolder env bak
                                       && negb (occupied (vault w) bak));
                     Rename (path file) (bak ++ "/" ++ name)
                       (rename_ok env file bak name (vault w0))])%list)
        as Htrace.
      { rewrite trace_rename. unfold w0. rewrite trace_createFolder.
        cbn [vault trace]. now rewrite <- app_assoc. }
      rewrite (events_since_app _ _ _ Htrace) in Hsucc.
      cbn [forallb succeeded] in Hsucc.
      apply andb_prop in Hsucc as [Hnew Hmove].
      rewrite andb_true_r in Hmove.
      assert (folder_at (vault w0) bak = Some (mkTFolder bak [])) as Hd0.
      { unfold w0, createFolder. cbn [vault]. rewrite Hnew. cbn [log vault].
        rewrite folder_at_app, folder_at_update_children, Hd.
        cbn [option_map folder_path]. now rewrite String.eqb_refl. }
      unfold rename. rewrite Hmove. cbn [log vault].
      rewrite folder_at_update_children, folder_at_remove_file, Hd0.
      cbn [option_map folder_path children filter app].
      now rewrite String.eqb_refl.
Qed.

(* ================================================================= *)
(** ** Retention *)

Lemma rotates_output (settings : fbmPluginSettings) (env : environment)
  (w : world) :
  rotates settings env w = true ->
  (exists file,
     getAbstractFileByPath (vault w)
       (mdFolderPath settings ++ "/" ++ mdFileName settings) = Some (AFile file))
  /\ backups settings w = map AFile (files_of (backups settings w)).
Proof.
  intros Hrot. unfold rotates in Hrot. cbv zeta in Hrot.
  apply andb_prop in Hrot as [Hrot _]. apply andb_prop in Hrot as [Hrot _].
  apply andb_prop in Hrot as [Hrot Hallf]. apply andb_prop in Hrot as [Hrot _].
  apply andb_prop in Hrot as [Hfile _]. split; [|now apply all_files].
  destruct (getAbstractFileByPath (vault w) _) as [[file|q]|];
    try discriminate. now exists file.
Qed.






(* ================================================================= *)
(** ** No folder at the backup location *)

(** C9 as stated fails: in a vault where a file, not a folder, is stored
    at the backup location no folder exists there, and the prune throws;
    the run it is part of ends there, uncaught. *)
Lemma file_at_backup_location_counterexample :
  folder_at (vault file_at_backup_location) "bak" = None
  /\ deleteOldBackups "bak" 2 (mkCalls (vault file_at_backup_location) [] false)
     = mkCalls (vault file_at_backup_location) [] true
  /\ events_since file_at_backup_location
       (processXBELFileData sample_settings (sample_env 1700000000000)
          file_at_backup_location)
     = [Rename "out/bookmarks.md" "bak/bookmarks-20231114221320.md" false;
        Uncaught].
Proof.
  split; [|split]; reflexivity.
Qed.

(** C9, amended.  When nothing is stored at the backup location, pruning
    does nothing, whatever the retention count: it returns without
    throwing, no request is sent and the vault is left as it is. *)
Theorem deleteOldBackups_without_folder
  (env : environment) (p : string) (k : Z) (w : world) :
  getAbstractFileByPath (vault w) p = None ->
  deleteOldBackups p k (mkCalls (vault w) [] false) = mkCalls (vault w) [] false
  /\ alone env (deleteOldBackups p k) w = w.
Proof.
  intros H.
  assert (deleteOldBackups p k (mkCalls (vault w) [] false)
          = mkCalls (vault w) [] false) as E
    by (unfold deleteOldBackups; cbn [memory]; now rewrite H).
  split; [exact E|]. unfold alone, carried_out. rewrite E.
  cbn [memory sent settle fold_left]. now destruct w.
Qed.

Lemma deleteOldBackups_without_folder_witness :
  alone (sample_env 0) (deleteOldBackups "bak" 2) sample_world = sample_world.
Proof.
  apply deleteOldBackups_without_folder. reflexivity.
Defined.

(* ================================================================= *)
(** ** A failed backup *)

Lemma events_convertAndCreate (settings : fbmPluginSettings)
  (env : environment) (w : world) (x : value) (data : string) :
  xbel env = Some x ->
  writeFolderStructure x 0 = Ok data ->
  let ok := create_ok env (mdFolderPath settings) (mdFileName settings) (vault w) in
  events_since w (convertAndCreate settings env w)
  = Create (mdFolderPath settings ++ "/" ++ mdFileName settings) data ok
    :: (if ok then [] else [ConsoleError]).
Proof.
  intros Hx Hdata ok. apply events_since_app.
  unfold convertAndCreate, create. rewrite Hx, Hdata. fold ok.
  destruct ok; cbn [log trace]; [reflexivity|].
  now rewrite <- app_assoc.
Qed.

(** Before the [try] block the trace of a run holds requests and
    nothing else, one event for each request of the rotation. *)
Lemma events_before_conversion (settings : fbmPluginSettings)
  (env : environment) (w : world) :
  Forall2 answers (sent (rotation settings env (vault w)))
          (events_since w (before_conversion settings env w)).
Proof.
  unfold before_conversion, carried_out.
  destruct (trace_settle env (sent (rotation settings env (vault w)))
              (mkWorld (memory (rotation settings env (vault w))) (trace w)))
    as (evs & Htrace & Hall).
  cbn [trace] in Htrace. now rewrite (events_since_app _ _ _ Htrace).
Qed.

Lemma answers_request (r : request) (e : event) :
  answers r e -> e <> ConsoleError /\ e <> Uncaught
                 /\ forall q data ok, e <> Create q data ok.
Proof.
  destruct r, e; cbn [answers]; intros H; try contradiction;
    repeat split; discriminate.
Qed.

(** C4 as stated fails: the output exists, the storage refuses to move
    it, and the run still sends the write request afterwards. *)
Lemma failed_backup_counterexample :
  getAbstractFileByPath (vault sample_world) "out/bookmarks.md"
  = Some (AFile sample_output)
  /\ events_since sample_world
       (processXBELFileData sample_settings (stuck_env 1700000000000)
          sample_world)
     = [CreateFolder "bak" true;
        Rename "out/bookmarks.md" "bak/bookmarks-20231114221320.md" false;
        Create "out/bookmarks.md" example_text false;
        ConsoleError].
Proof.
  split; reflexivity.
Qed.

(** C4, amended.  When the output exists and the move into the backup
    folder fails, the run does not stop: the promise of the move is
    dropped, so nothing of the failure reaches the run.  Unless the
    rotation itself throws an exception, the run goes on to read, parse
    and convert the input, and when that succeeds it sends the write
    request for the new text, after the failed move and with nothing but
    requests of the rotation before it. *)
Theorem write_attempted_after_failed_backup
  (settings : fbmPluginSettings) (env : environment) (w : world)
  (file : TFile) (to : string) (x : value) (data : string) :
  getAbstractFileByPath (vault w)
    (mdFolderPath settings ++ "/" ++ mdFileName settings) = Some (AFile file) ->
  In (Rename (path file) to false)
     (events_since w (processXBELFileData settings env w)) ->
  thrown (rotation settings env (vault w)) = false ->
  xbel env = Some x ->
  writeFolderStructure x 0 = Ok data ->
  let ok := create_ok env (mdFolderPath settings) (mdFileName settings)
              (vault (before_conversion settings env w)) in
  exists before,
    events_since w (processXBELFileData settings env w)
    = (before
       ++ Create (mdFolderPath settings ++ "/" ++ mdFileName settings) data ok
       :: (if ok then [] else [ConsoleError]))%list
    /\ In (Rename (path file) to false) before
    /\ Forall2 answers (sent (rotation settings env (vault w))) before
    /\ ~ In Uncaught (events_since w (processXBELFileData settings env w)).
Proof.
  intros Hfile Hfailed Hret Hx Hdata ok.
  rewrite events_of_run, Hret in *.
  rewrite (events_convertAndCreate settings env _ x data Hx Hdata) in *.
  cbv zeta in *. fold ok in Hfailed |- *.
  pose proof (events_before_conversion settings env w) as Hreq.
  exists (events_since w (before_conversion settings env w)).
  split; [reflexivity|]. split; [|split; [exact Hreq|]].
  - apply in_app_or in Hfailed as [H | H]; [exact H|].
    destruct H as [H | H]; [discriminate|].
    destruct ok; [contradiction|]. destruct H as [H | []]. discriminate.
  - intros Hin. apply in_app_or in Hin as [H | H].
    + clear Hfailed. induction Hreq as [|r e rs es Hre _ IH]; [contradiction|].
      destruct H as [-> | H]; [|exact (IH H)].
      now apply answers_request in Hre as (_ & Hre & _).
    + destruct H as [H | H]; [discriminate|].
      destruct ok; [contradiction|]. destruct H as [H | []]. discriminate.
Qed.

Lemma write_attempted_after_failed_backup_witness :
  exists before,
    events_since sample_world
      (processXBELFileData sample_settings (stuck_env 1700000000000)
         sample_world)
    = (before
       ++ Create "out/bookmarks.md" example_text
            (create_ok (stuck_env 1700000000000) "out" "bookmarks.md"
               (vault (before_conversion sample_settings
                         (stuck_env 1700000000000) sample_world)))
       :: (if create_ok (stuck_env 1700000000000) "out" "bookmarks.md"
                (vault (before_conversion sample_settings
                          (stuck_env 1700000000000) sample_world))
           then [] else [ConsoleError]))%list
    /\ In (Rename "out/bookmarks.md" "bak/bookmarks-20231114221320.md" false)
          before
    /\ Forall2 answers
         (sent (rotation sample_settings (stuck_env 1700000000000)
                  (vault sample_world))) before
    /\ ~ In Uncaught
         (events_since sample_world
            (processXBELFileData sample_settings (stuck_env 1700000000000)
               sample_world)).
Proof.
  apply (write_attempted_after_failed_backup sample_settings
           (stuck_env 1700000000000) sample_world sample_output
           "bak/bookmarks-20231114221320.md" (raw example_tree) example_text).
  - reflexivity.
  - vm_compute. right. left. reflexivity.
  - reflexivity.
  - reflexivity.
  - reflexivity.
Defined.
(* ================================================================= *)
(** ** The name of a backup *)

Section DateSuffix.

Import Date.
Open Scope Z_scope.

Lemma digit_cases (n : Z) :
  exists k, (k < 10)%nat /\ digit n = ascii_of_nat (48 + k).
Proof.
  unfold digit. exists (Z.to_nat (n mod 10)). split; [|reflexivity].
  pose proof (Z.mod_pos_bound n 10 ltac:(lia)). lia.
Qed.

Lemma digit_plain (n : Z) :
  (Ascii.eqb (digit n) "-" || Ascii.eqb (digit n) "T"
   || Ascii.eqb (digit n) ":")%bool = false
  /\ is_digit (digit n) = true.
Proof.
  destruct (digit_cases n) as (k & Hk & ->).
  do 10 (destruct k as [|k]; [split; reflexivity|]). lia.
Qed.

Lemma strip_digit (n : Z) (r : string) :
  strip_separators (String (digit n) r) = String (digit n) (strip_separators r).
Proof.
  change (strip_separators (String (digit n) r))
    with (if (Ascii.eqb (digit n) "-" || Ascii.eqb (digit n) "T"
              || Ascii.eqb (digit n) ":")%bool
          then strip_separators r else String (digit n) (strip_separators r)).
  now rewrite (proj1 (digit_plain n)).
Qed.

Lemma strip_dash (r : string) :
  strip_separators (String "-" r) = strip_separators r.
Proof. reflexivity. Qed.

Lemma strip_T (r : string) :
  strip_separators (String "T" r) = strip_separators r.
Proof. reflexivity. Qed.

Lemma strip_colon (r : string) :
  strip_separators (String ":" r) = strip_separators r.
Proof. reflexivity. Qed.

(** The fields of a date are in their ranges, so two digits hold them. *)
Lemma time_ranges (t : Z) :
  0 <= getUTCHours t <= 23 /\ 0 <= getUTCMinutes t <= 59
  /\ 0 <= getUTCSeconds t <= 59.
Proof.
  unfold getUTCHours, getUTCMinutes, getUTCSeconds, TimeWithinDay, msPerDay.
  repeat split; Z.div_mod_to_equations; lia.
Qed.

Lemma civil_ranges (z : Z) :
  let '(y, m, d) := civil z in 1 <= m <= 12 /\ 1 <= d <= 31.
Proof.
  unfold civil.
  set (z' := z + 719468).
  set (era := z' / 146097).
  set (doe := z' - era * 146097).
  assert (0 <= doe <= 146096) as Hdoe.
  { subst doe era. Z.div_mod_to_equations. lia. }
  clearbody doe. clear z' era.
  set (yoe := (doe - doe / 1460 + doe / 36524 - doe / 146096) / 365).
  assert (0 <= yoe <= 399) as Hyoe.
  { subst yoe. Z.div_mod_to_equations. lia. }
  set (doy := doe - (365 * yoe + yoe / 4 - yoe / 100)).
  assert (0 <= doy <= 365) as Hdoy.
  { subst doy yoe. Z.div_mod_to_equations. lia. }
  clearbody doy.
  set (mp := (5 * doy + 2) / 153).
  assert (0 <= mp <= 11) as Hmp.
  { subst mp. Z.div_mod_to_equations. lia. }
  destruct (Z.ltb_spec mp 10); split; try lia;
    subst mp; Z.div_mod_to_equations; lia.
Qed.

(** Between the years 0 and 9999 the suffix is the year, the month, the
    day, the hour, the minute and the second of local time, in digits. *)
Lemma dateSuffix_fields (now offset : Z) :
  let t := now - offset * 60000 in
  0 <= getUTCFullYear t <= 9999 ->
  dateSuffix now offset
  = (pad 4 (getUTCFullYear t) ++ pad 2 (getUTCMonth1 t) ++ pad 2 (getUTCDate t)
     ++ pad 2 (getUTCHours t) ++ pad 2 (getUTCMinutes t)
     ++ pad 2 (getUTCSeconds t))%string.
Proof.
  intros t Hy. unfold dateSuffix. fold t. unfold toISOString, year_text.
  destruct (Z.leb_spec 0 (getUTCFullYear t)); [|lia].
  destruct (Z.leb_spec (getUTCFullYear t) 9999); [|lia].
  cbn [andb]. cbn [pad append]. cbn [substring].
  repeat (rewrite ?strip_digit, ?strip_dash, ?strip_T, ?strip_colon).
  reflexivity.
Qed.

Lemma dateSuffix_digits (now offset : Z) :
  0 <= getUTCFullYear (now - offset * 60000) <= 9999 ->
  String.length (dateSuffix now offset) = 14%nat
  /\ all_digits (dateSuffix now offset) = true.
Proof.
  intros Hy. rewrite (dateSuffix_fields now offset Hy).
  cbn [pad append]. split; [reflexivity|].
  cbn [all_digits]. now rewrite !(fun n => proj2 (digit_plain n)).
Qed.

End DateSuffix.

Lemma parse_name_plain (b : string) :
  Path.split_last_dot b = None -> Path.parse_name b = b.
Proof.
  intros H. unfold Path.parse_name. now rewrite H.
Qed.

Lemma mkWorld_eta (w : world) : mkWorld (vault w) (trace w) = w.
Proof. now destruct w. Qed.

(** The backup of a file on its own: the backup folder is asked for when
    nothing is stored at its path, then the move. *)
Lemma alone_backupExistingFile (env : environment) (file : TFile)
  (bak : string) (w : world) :
  alone env (backupExistingFile env (AFile file) bak) w
  = rename env file bak (backup_name env file)
      match getAbstractFileByPath (vault w) bak with
      | None => createFolder env bak w
      | Some _ => w
      end.
Proof.
  unfold alone, carried_out, backupExistingFile, ensureFolder. cbv zeta.
  fold (backup_name env file). cbn [memory].
  destruct (getAbstractFileByPath (vault w) bak); unfold send;
    cbn [memory sent app settle fold_left carry_out];
    now rewrite mkWorld_eta.
Qed.

(** The claim of C7 on the files whose base name has no dot: the backup
    is called [b-<timestamp>.e], the timestamp has fourteen digits for
    the years 0 to 9999, and once the move has succeeded the backup is in
    the backup folder and nothing is left at the path of the output. *)
Lemma backup_of_plain_name (env : environment) (file : TFile) (bak : string)
  (w : world) :
  Path.split_last_dot (basename file) = None ->
  (0 <= Date.getUTCFullYear (now env - timezoneOffset env * 60000) <= 9999)%Z ->
  file_at (vault w) (path file) = Some file ->
  let timestamp := Date.dateSuffix (now env) (timezoneOffset env) in
  let name := basename file ++ "-" ++ timestamp ++ "." ++ extension file in
  let w' := alone env (backupExistingFile env (AFile file) bak) w in
  String.length timestamp = 14%nat
  /\ Date.all_digits timestamp = true
  /\ exists before ok,
       events_since w w'
       = (before ++ [Rename (path file) (bak ++ "/" ++ name) ok])%list
       /\ (ok = true ->
           file_at (vault w') (path file) = None
           /\ exists d,
                folder_at (vault w') bak = Some d
                /\ In (AFile (mkTFile (bak ++ "/" ++ name) (Path.basename_of name)
                                (Path.extension_of name) (mtime file)
                                (contents file)))
                      (children d)).
Proof.
  intros Hplain Hyear Hfile timestamp name w'.
  destruct (dateSuffix_digits _ _ Hyear) as [Hlen Hdigits].
  split; [exact Hlen|]. split; [exact Hdigits|].
  subst w'. rewrite alone_backupExistingFile.
  assert (backup_name env file = name) as ->
    by (unfold backup_name; now rewrite (parse_name_plain _ Hplain)).
  set (w1 := match getAbstractFileByPath (vault w) bak with
             | None => createFolder env bak w
             | Some _ => w
             end).
  assert (extends w w1 /\ file_at (vault w1) (path file) = Some file)
    as [E1 Hfile1].
  { unfold w1. destruct (getAbstractFileByPath (vault w) bak).
    - split; [apply extends_refl | exact Hfile].
    - split; [eexists; apply trace_createFolder|].
      now rewrite file_at_createFolder. }
  exists (events_since w w1), (rename_ok env file bak name (vault w1)).
  split.
  - rewrite (events_since_trans w w1 _ E1
               (ex_intro _ _ (trace_rename env file bak name w1))).
    now rewrite (events_since_app _ _ _ (trace_rename env file bak name w1)).
  - intros Hok. apply rename_moves; [|exact Hok].
    apply file_at_path in Hfile1 as [_ Hin]. now apply occupied_stored in Hin.
Qed.

(** C7.  The backup of [my.bookmarks.md], whose base name is
    [my.bookmarks] and whose extension is [md], is not called
    [my.bookmarks-20231114221320.md]: the base name goes through
    [parse(...).name], which takes [.bookmarks] for an extension and
    drops it. *)
Theorem dotted_basename_backup :
  events_since dotted_world
    (alone (sample_env 1700000000000)
       (backupExistingFile (sample_env 1700000000000)
          (AFile (mkTFile "out/my.bookmarks.md" "my.bookmarks" "md"
                    1699999999000 "# Old"))
          "bak")
       dotted_world)
  = [CreateFolder "bak" true;
     Rename "out/my.bookmarks.md" "bak/my-20231114221320.md" true]
  /\ "bak/my-20231114221320.md" <> "bak/my.bookmarks-20231114221320.md".
Proof.
  split; [reflexivity | discriminate].
Qed.

(* ================================================================= *)
(** ** Instances *)

Lemma output_line_terminated_witness : terminated example_text.
Proof.
  apply (output_line_terminated (raw example_tree) 0). reflexivity.
Defined.
(* ================================================================= *)
(** ** More on the converter *)

Lemma folderHeading_agree (ps ps' : list (string * value)) (level : nat) :
  (forall k, In k read_keys -> own k ps = own k ps') ->
  folderHeading (VObject ps) level = folderHeading (VObject ps') level.
Proof.
  intros H. unfold folderHeading, hasOwnProperty, get, has_key.
  rewrite (H "hasOwnProperty"), (H "title"), (H "bookmark"), (H "folder");
    try reflexivity; unfold read_keys; simpl; tauto.
Qed.

(** X1.  The converter reads four properties of an element and no other:
    two objects that agree on [hasOwnProperty], [title], [bookmark] and
    [folder] are converted alike, whatever else they hold (attributes,
    descriptions, separators, ...) and in whatever order. *)
Theorem other_properties_ignored
  (ps ps' : list (string * value)) (level : nat) :
  (forall k, In k read_keys -> own k ps = own k ps') ->
  writeFolderStructure (VObject ps) level = writeFolderStructure (VObject ps') level.
Proof.
  intros H. rewrite !writeFolderStructure_eq. cbn [typeof_object].
  rewrite (folderHeading_agree ps ps' level H), !whenArray_own.
  rewrite (H "bookmark"), (H "folder"); try reflexivity;
    unfold read_keys; simpl; tauto.
Qed.

Lemma other_properties_ignored_witness :
  writeFolderStructure
    (VObject [("$", VObject [("id", VString "1")]);
              ("title", VArray [VString "T"]);
              ("desc", VArray [VString "about"]);
              ("bookmark", VArray [no_href])]) 3
  = writeFolderStructure (folder_of [no_href]) 3.
Proof.
  apply other_properties_ignored.
  intros k Hk. unfold read_keys in Hk. simpl in Hk.
  destruct Hk as [<- | [<- | [<- | [<- | []]]]]; reflexivity.
Defined.

Lemma childless_renders_nothing (element : value) (level : nat) :
  folder_bearing element = false ->
  plain element = true ->
  writeFolderStructure element level = Ok "".
Proof.
  intros Hf Hp. rewrite writeFolderStructure_eq.
  destruct element as [| s | items | ps]; try reflexivity.
  cbn [typeof_object]. rewrite !whenArray_own.
  cbn [folder_bearing plain] in Hf, Hp.
  apply orb_false_elim in Hf as [Hfo Hbo].
  unfold folderHeading, hasOwnProperty.
  apply negb_true_iff in Hp. rewrite Hp, Hfo, Hbo. cbn [bind].
  unfold has_key in Hfo, Hbo.
  destruct (own "bookmark" ps); [discriminate|].
  destruct (own "folder" ps); [discriminate|]. reflexivity.
Qed.

(** X2.  An element without [folder] and without [bookmark] property
    contributes nothing, at every level: an empty folder has no heading
    even when it has a title, and what is not an object at all (the
    empty string of an empty element, [undefined]) is passed over. *)
Theorem childless_element_renders_nothing (element : value) (level : nat) :
  folder_bearing element = false ->
  plain element = true ->
  writeFolderStructure element level = Ok "".
Proof. apply childless_renders_nothing. Qed.

Lemma childless_element_renders_nothing_witness :
  writeFolderStructure (VObject [("title", VArray [VString "Empty"])]) 2 = Ok "".
Proof.
  apply childless_element_renders_nothing; reflexivity.
Defined.

(** X3.  The heading of a folder shows the first of its titles only and
    copies it as it is; a folder with an empty list of titles is headed
    [undefined]. *)
Theorem heading_shows_first_title
  (ps : list (string * value)) (titles : list value) (level : nat) (s : string) :
  folder_bearing (VObject ps) = true ->
  own "title" ps = Some (VArray titles) ->
  writeFolderStructure (VObject ps) level = Ok s ->
  exists text rest,
    toString (hd VUndefined titles) = Ok text
    /\ s = (if Nat.eqb level 0 then "" else LF)
             ++ repeat_string "#" (level + 1) ++ " " ++ text ++ LF ++ rest.
Proof.
  intros Hf Ht H.
  destruct (writeFolderStructure_heading _ _ _ Hf H)
    as (tv & ft & text & rest & Hget & Hft & Htext & ->).
  cbn [get] in Hget. rewrite Ht in Hget. injection Hget as <-.
  cbn [truthy] in Hft. exists text, rest. split; [|reflexivity].
  destruct titles as [|t more]; cbn [index0 hd] in *; now injection Hft as <-.
Qed.

Lemma heading_shows_first_title_witness :
  exists text rest,
    toString (hd VUndefined [VString "One"; VString "Two"]) = Ok text
    /\ LF ++ "## One" ++ LF
       = (if Nat.eqb 1 0 then "" else LF)
           ++ repeat_string "#" (1 + 1) ++ " " ++ text ++ LF ++ rest.
Proof.
  apply (heading_shows_first_title
           [("title", VArray [VString "One"; VString "Two"]);
            ("folder", VArray [VString ""])]
           [VString "One"; VString "Two"] 1); reflexivity.
Defined.

Lemma subfolder_TypeError (ps : list (string * value)) (folders : list value)
  (f : value) (level : nat) :
  own "folder" ps = Some (VArray folders) ->
  In f folders ->
  writeFolderStructure f (level + 1) = TypeError ->
  writeFolderStructure (VObject ps) level = TypeError.
Proof.
  intros Hown Hin Hf. rewrite writeFolderStructure_eq. cbn [typeof_object].
  destruct (folderHeading (VObject ps) level); [|reflexivity]. cbn [bind].
  destruct (whenArray "bookmark" (forEach bookmarkLine) (VObject ps));
    [|reflexivity].
  cbn [bind]. rewrite whenArray_own, Hown.
  rewrite (forEach_TypeError _ folders f Hin Hf). reflexivity.
Qed.

(** X4.  An exception thrown anywhere in the tree reaches the root: when
    the conversion of an element nested [d] folders deep throws, so does
    the conversion of the whole document; no part of the text is
    returned. *)
Theorem TypeError_reaches_root (d : nat) (e root : value) (level : nat) :
  nested_in d e root ->
  writeFolderStructure e (level + d) = TypeError ->
  writeFolderStructure root level = TypeError.
Proof.
  intros Hn. revert level.
  induction Hn as [e | d e ps folders f Hown Hin _ IH]; intros level He.
  - now rewrite Nat.add_0_r in He.
  - apply (subfolder_TypeError ps folders f level Hown Hin).
    apply IH. now replace (level + 1 + d)%nat with (level + S d)%nat by lia.
Qed.

Lemma TypeError_reaches_root_witness :
  writeFolderStructure
    (VObject [("title", VArray [VString "Root"]);
              ("folder", VArray [VObject [("folder",
                                           VArray [folder_of [no_title]])]])]) 0
  = TypeError.
Proof.
  apply (TypeError_reaches_root 2 (folder_of [no_title])).
  - eapply nested_below; [reflexivity | now left |].
    eapply nested_below; [reflexivity | now left |].
    apply nested_here.
  - reflexivity.
Defined.

(** X5.  A bookmark entry with attributes and titles gives one line made
    of the first title and of the [href] attribute, copied as they are:
    nothing is escaped, and the other attributes and titles play no
    part. *)
Theorem bookmarkLine_verbatim
  (ps attrs : list (string * value)) (t u : string) (more : list value) :
  own "$" ps = Some (VObject attrs) ->
  own "href" attrs = Some (VString u) ->
  own "title" ps = Some (VArray (VString t :: more)) ->
  bookmarkLine (VObject ps) = Ok ("[" ++ t ++ "](" ++ u ++ ")" ++ LF).
Proof.
  intros Ha Hh Ht. unfold bookmarkLine. cbn [get]. rewrite Ha. cbn [bind get].
  rewrite Hh, Ht. reflexivity.
Qed.

Lemma bookmarkLine_verbatim_witness :
  bookmarkLine
    (VObject [("$", VObject [("href", VString "https://a.example/(x)");
                             ("id", VString "9")]);
              ("title", VArray [VString "a [b] c"; VString "other"])])
  = Ok ("[" ++ "a [b] c" ++ "](" ++ "https://a.example/(x)" ++ ")" ++ LF).
Proof.
  apply (bookmarkLine_verbatim _
           [("href", VString "https://a.example/(x)"); ("id", VString "9")]
           _ _ [VString "other"]); reflexivity.
Defined.

(* ================================================================= *)

(* ================================================================= *)
(** ** More on pruning *)

(** The events of the prune on its own are those of its trash
    requests. *)
Lemma events_alone_deleteOldBackups (env : environment) (p : string) (k : Z)
  (w : world) :
  exists l,
    sent (deleteOldBackups p k (mkCalls (vault w) [] false)) = map TrashRequest l
    /\ events_since w (alone env (deleteOldBackups p k) w)
       = map (fun e => Trash (path_of e) (storage_trash env (path_of e))) l
    /\ (length l <= length (match folder_at (vault w) p with
                            | Some d => children d
                            | None => []
                            end))%nat
    /\ forall e, In e l ->
         exists d, folder_at (vault w) p = Some d /\ In e (children d).
Proof.
  destruct (deleteOldBackups_sent p k (mkCalls (vault w) [] false))
    as (l & Hsent & _ & _ & Hlen & Hin).
  cbn [memory sent app] in *. exists l. split; [exact Hsent|].
  split; [|split; [exact Hlen | exact Hin]].
  apply events_since_app. unfold alone, carried_out.
  rewrite Hsent, trace_trashes. reflexivity.
Qed.

(** X6.  Pruning sends trash requests and nothing else, one at most for
    each entry of the backup folder, and only for entries of that
    folder: it never creates, moves or writes anything, and it asks for
    no file outside the backup location. *)
Theorem prune_only_trashes_entries
  (env : environment) (p : string) (k : Z) (w : world) :
  (length (events_since w (alone env (deleteOldBackups p k) w))
   <= length (match folder_at (vault w) p with
              | Some d => children d
              | None => []
              end))%nat
  /\ forall e,
       In e (events_since w (alone env (deleteOldBackups p k) w)) ->
       exists d f,
         folder_at (vault w) p = Some d
         /\ In f (children d)
         /\ e = Trash (path_of f) (storage_trash env (path_of f)).
Proof.
  destruct (events_alone_deleteOldBackups env p k w)
    as (l & _ & -> & Hlen & Hin).
  split; [now rewrite length_map|].
  intros e He. apply in_map_iff in He as (f & <- & Hf).
  destruct (Hin f Hf) as (d & Hd & Hfd). now exists d, f.
Qed.

(** X7.  With a keep count of 1 or less, zero and negative counts
    included, pruning trashes every entry of a backup folder of files,
    oldest first, and leaves the folder empty. *)
Theorem prune_keeps_nothing
  (env : environment) (p : string) (k : Z) (w : world) (d : TFolder)
  (files : list TFile) :
  (k <= 1)%Z ->
  folder_at (vault w) p = Some d ->
  children d = map AFile files ->
  distinct (map path files) = true ->
  (forall f, In f files -> storage_trash env (path f) = true) ->
  events_since w (alone env (deleteOldBackups p k) w)
  = map (fun f => Trash (path f) true) (sort files)
  /\ folder_at (vault (alone env (deleteOldBackups p k) w)) p
     = Some (mkTFolder p []).
Proof.
  intros Hk Hd Hfiles Hdis Hok.
  destruct (deleteOldBackups_spec env p k w d files Hd Hfiles
              (distinct_NoDup _ Hdis)) as [Hw' Hfolder].
  { intros f Hf. apply Hok.
    apply (Permutation_in f (sort_Permutation files)).
    apply (firstn_In _ _ _ Hf). }
  rewrite firstn_all2 in Hw' by (rewrite length_sort; lia).
  rewrite skipn_all2 in Hfolder by (rewrite length_sort; lia).
  split; [|exact Hfolder]. apply events_since_app. now rewrite Hw'.
Qed.

Lemma prune_keeps_nothing_witness :
  events_since (mkWorld [sample_backups] [])
    (alone (sample_env 0) (deleteOldBackups "bak" (-3))
       (mkWorld [sample_backups] []))
  = [Trash "bak/a.md" true; Trash "bak/b.md" true; Trash "bak/c.md" true]
  /\ folder_at
       (vault (alone (sample_env 0) (deleteOldBackups "bak" (-3))
                 (mkWorld [sample_backups] []))) "bak"
     = Some (mkTFolder "bak" []).
Proof.
  apply (prune_keeps_nothing (sample_env 0) "bak" (-3)%Z
           (mkWorld [sample_backups] []) sample_backups sample_files).
  - lia.
  - reflexivity.
  - reflexivity.
  - reflexivity.
  - intros f _. reflexivity.
Defined.

(** X8.  When a backup folder of files has fewer entries than the keep
    count, pruning sends no request at all; all it does is to put the
    entries of the folder in ascending order of modification time. *)
Theorem prune_below_keep_count
  (env : environment) (p : string) (k : Z) (w : world) (d : TFolder)
  (files : list TFile) :
  (Z.of_nat (length files) < k)%Z ->
  folder_at (vault w) p = Some d ->
  children d = map AFile files ->
  events_since w (alone env (deleteOldBackups p k) w) = []
  /\ folder_at (vault (alone env (deleteOldBackups p k) w)) p
     = Some (mkTFolder p (map AFile (sort files)))
  /\ Permutation (sort files) files
  /\ StronglySorted older (sort files).
Proof.
  intros Hn Hd Hfiles.
  assert (alone env (deleteOldBackups p k) w
          = mkWorld (update_children p (fun _ => map AFile (sort files)) (vault w))
                    (trace w)) as Hw'.
  { unfold alone, carried_out.
    rewrite (deleteOldBackups_files p k (mkCalls (vault w) [] false) d files
               Hd Hfiles).
    replace (Z.to_nat (Z.of_nat (length files) - k + 1)) with 0%nat by lia.
    reflexivity. }
  rewrite Hw'. split; [|split; [|split]].
  - apply events_since_app. cbn [trace]. now rewrite app_nil_r.
  - cbn [vault]. rewrite folder_at_update_children, Hd. cbn [option_map].
    now rewrite (folder_at_path _ _ _ Hd), String.eqb_refl.
  - apply sort_Permutation.
  - apply sort_StronglySorted.
Qed.

Lemma prune_below_keep_count_witness :
  events_since (mkWorld [sample_backups] [])
    (alone (sample_env 0) (deleteOldBackups "bak" 5)
       (mkWorld [sample_backups] []))
  = []
  /\ folder_at
       (vault (alone (sample_env 0) (deleteOldBackups "bak" 5)
                 (mkWorld [sample_backups] []))) "bak"
     = Some (mkTFolder "bak"
               [AFile (mkTFile "bak/a.md" "a" "md" 10 "a");
                AFile (mkTFile "bak/b.md" "b" "md" 20 "b");
                AFile (mkTFile "bak/c.md" "c" "md" 30 "c")]).
Proof.
  pose proof (prune_below_keep_count (sample_env 0) "bak" 5%Z
                (mkWorld [sample_backups] []) sample_backups sample_files) as H.
  destruct H as (He & Hf & _).
  - vm_compute. reflexivity.
  - reflexivity.
  - reflexivity.
  - split; [exact He | exact Hf].
Defined.

(* ----------------------------------------------------------------- *)
(** *** Pruning twice *)

Lemma sort_sorted (l : list TFile) : StronglySorted older l -> sort l = l.
Proof.
  induction 1 as [|x r Hr IH Hx]; [reflexivity|].
  cbn [sort]. rewrite IH. destruct r as [|y r']; [reflexivity|].
  cbn [insert]. apply Forall_inv in Hx. unfold older in Hx.
  destruct (Z.leb_spec (mtime x) (mtime y)); [reflexivity | lia].
Qed.

Lemma StronglySorted_skipn (n : nat) (l : list TFile) :
  StronglySorted older l -> StronglySorted older (skipn n l).
Proof.
  intros H. revert n. induction H as [|x r Hr IH Hx]; intros n.
  - rewrite skipn_nil. constructor.
  - destruct n as [|n]; [now constructor | apply IH].
Qed.

Lemma update_children_same (p : string) (v : list TFolder) (d : TFolder) :
  folder_at v p = Some d ->
  update_children p (fun _ => children d) v = v.
Proof.
  unfold folder_at. induction v as [|d0 r IH]; [discriminate|].
  cbn [find update_children]. destruct (String.eqb (folder_path d0) p).
  - intros [= ->]. now destruct d.
  - intros H. now rewrite IH.
Qed.

(** Nothing is pruned where no folder is stored. *)
Lemma alone_no_folder (env : environment) (p : string) (k : Z) (w : world) :
  folder_at (vault w) p = None ->
  alone env (deleteOldBackups p k) w = w.
Proof.
  intros H. unfold alone, carried_out.
  rewrite (deleteOldBackups_no_folder p k (mkCalls (vault w) [] false) H).
  cbn [memory]. destruct (file_at (vault w) p);
    cbn [throw memory sent settle fold_left]; apply mkWorld_eta.
Qed.

(** X9.  Pruning twice in a row is pruning once: after a prune whose
    requests were carried out the folder is sorted and short enough, and
    a second prune with the same keep count sends no request and changes
    nothing. *)
Theorem prune_twice (env : environment) (p : string) (k : Z) (w : world) :
  (forall d, folder_at (vault w) p = Some d ->
             forallb is_file (children d) = true
             /\ distinct (map path_of (children d)) = true
             /\ forall e, In e (children d) ->
                          storage_trash env (path_of e) = true) ->
  alone env (deleteOldBackups p k) (alone env (deleteOldBackups p k) w)
  = alone env (deleteOldBackups p k) w.
Proof.
  intros H.
  destruct (folder_at (vault w) p) as [d|] eqn:Hd.
  2:{ rewrite (alone_no_folder env p k w Hd). now apply alone_no_folder. }
  destruct (H d eq_refl) as (Hall & Hdis & Hok). clear H.
  set (files := files_of (children d)).
  assert (children d = map AFile files) as Hfiles by now apply all_files.
  rewrite Hfiles, map_path_of in Hdis.
  assert (forall f, In f files -> storage_trash env (path f) = true) as Hok'.
  { intros f Hf. apply (Hok (AFile f)). rewrite Hfiles. now apply in_map. }
  clear Hok Hall.
  set (n := length files).
  set (c := Z.to_nat (Z.of_nat n - k + 1)).
  set (sorted := sort files).
  assert (forall f, In f (firstn c sorted) -> storage_trash env (path f) = true)
    as Hok1.
  { intros f Hf. apply Hok'.
    apply (Permutation_in f (sort_Permutation files)).
    apply (firstn_In _ _ _ Hf). }
  destruct (deleteOldBackups_spec env p k w d files Hd Hfiles
              (distinct_NoDup _ Hdis) Hok1) as [Hw1 Hkept].
  fold n c sorted in Hw1, Hkept.
  set (w1 := alone env (deleteOldBackups p k) w) in *.
  set (kept := skipn c sorted) in *.
  assert (StronglySorted older kept) as Hsorted
    by apply StronglySorted_skipn, sort_StronglySorted.
  assert (Z.to_nat (Z.of_nat (length kept) - k + 1) = 0%nat \/ kept = [])
    as Hnone.
  { assert (length kept = (n - c)%nat) as Hlen
      by (unfold kept, sorted; now rewrite length_skipn, length_sort).
    destruct kept; [now right | left].
    cbn [length] in *. unfold c in *. lia. }
  unfold alone at 1, carried_out.
  rewrite (deleteOldBackups_files p k (mkCalls (vault w1) [] false) _ kept
             Hkept eq_refl).
  cbn [memory sent app]. rewrite (sort_sorted kept Hsorted).
  assert (firstn (Z.to_nat (Z.of_nat (length kept) - k + 1)) kept = []) as ->.
  { destruct Hnone as [-> | ->]; [reflexivity | apply firstn_nil]. }
  cbn [map settle fold_left].
  change (map AFile kept) with (children (mkTFolder p (map AFile kept))).
  rewrite (update_children_same p (vault w1) _ Hkept).
  apply mkWorld_eta.
Qed.

Lemma prune_twice_witness :
  alone (sample_env 0) (deleteOldBackups "bak" 2)
    (alone (sample_env 0) (deleteOldBackups "bak" 2)
       (mkWorld [sample_backups] []))
  = alone (sample_env 0) (deleteOldBackups "bak" 2) (mkWorld [sample_backups] []).
Proof.
  apply prune_twice. intros d [= <-]. split; [reflexivity|].
  split; [reflexivity|]. intros f _. reflexivity.
Defined.
(* ================================================================= *)
(** ** More on the backup of the output *)

Section SameSecond.

Import Date.
Open Scope Z_scope.

Lemma same_second_fields (t t' : Z) :
  t / 1000 = t' / 1000 ->
  Day t = Day t'
  /\ getUTCHours t = getUTCHours t'
  /\ getUTCMinutes t = getUTCMinutes t'
  /\ getUTCSeconds t = getUTCSeconds t'.
Proof.
  intros H.
  unfold Day, getUTCHours, getUTCMinutes, getUTCSeconds, TimeWithinDay, msPerDay.
  repeat split; Z.div_mod_to_equations; lia.
Qed.

(** X10.  The suffix of a backup has the resolution of a second: two
    rotations whose clocks show the same second get the same suffix,
    hence, for the same output, the same backup name. *)
Theorem dateSuffix_same_second (now now' offset : Z) :
  now / 1000 = now' / 1000 ->
  dateSuffix now offset = dateSuffix now' offset.
Proof.
  intros H. unfold dateSuffix. cbv zeta.
  set (t := now - offset * 60000). set (t' := now' - offset * 60000).
  assert (t / 1000 = t' / 1000) as Ht
    by (subst t t'; Z.div_mod_to_equations; lia).
  destruct (same_second_fields t t' Ht) as (Hd & Hh & Hm & Hs).
  f_equal. unfold toISOString, getUTCFullYear, getUTCMonth1, getUTCDate.
  rewrite <- Hd, <- Hh, <- Hm, <- Hs. unfold year_text.
  destruct ((0 <=? fst (fst (civil (Day t))))
            && (fst (fst (civil (Day t))) <=? 9999))%bool.
  - cbn [pad append]. cbn [substring]. reflexivity.
  - destruct (fst (fst (civil (Day t))) <? 0);
      cbn [pad append]; cbn [substring]; reflexivity.
Qed.

Lemma dateSuffix_same_second_witness :
  dateSuffix 1700000000000 (-60) = dateSuffix 1700000000999 (-60).
Proof.
  apply dateSuffix_same_second. reflexivity.
Defined.

End SameSecond.


(** X11.  [backupExistingFile] sends one move request, for the name made
    of [parse(basename).name], the suffix and the extension; for a base
    name without dot that is the base name itself.  When the move is
    carried out, nothing is left at the path of the output and the backup
    folder holds the backup, with the contents and the modification time
    the output had. *)
Theorem backup_moves_output (env : environment) (file : TFile) (bak : string)
  (w : world) :
  file_at (vault w) (path file) = Some file ->
  let name := Path.parse_name (basename file) ++ "-"
              ++ Date.dateSuffix (now env) (timezoneOffset env)
              ++ "." ++ extension file in
  let w' := alone env (backupExistingFile env (AFile file) bak) w in
  (Path.split_last_dot (basename file) = None ->
   name = basename file ++ "-"
          ++ Date.dateSuffix (now env) (timezoneOffset env)
          ++ "." ++ extension file)
  /\ exists before ok,
       events_since w w'
       = (before ++ [Rename (path file) (bak ++ "/" ++ name) ok])%list
       /\ Forall (fun e => exists q b, e = CreateFolder q b) before
       /\ (ok = true ->
           file_at (vault w') (path file) = None
           /\ exists d,
                folder_at (vault w') bak = Some d
                /\ In (AFile (mkTFile (bak ++ "/" ++ name) (Path.basename_of name)
                                (Path.extension_of name) (mtime file)
                                (contents file)))
                      (children d)).
Proof.
  intros Hfile name w'. split.
  - intros Hplain. subst name. now rewrite (parse_name_plain _ Hplain).
  - subst w'. rewrite alone_backupExistingFile.
    change (backup_name env file) with name.
    set (w1 := match getAbstractFileByPath (vault w) bak with
               | None => createFolder env bak w
               | Some _ => w
               end).
    assert (exists before,
               trace w1 = (trace w ++ before)%list
               /\ Forall (fun e => exists q b, e = CreateFolder q b) before
               /\ file_at (vault w1) (path file) = Some file)
      as (before & Hbefore & Hkind & Hfile1).
    { unfold w1. destruct (getAbstractFileByPath (vault w) bak).
      - exists []. rewrite app_nil_r. now repeat split.
      - eexists. split; [apply trace_createFolder|].
        split; [repeat constructor; eauto|].
        now rewrite file_at_createFolder. }
    exists before, (rename_ok env file bak name (vault w1)).
    split; [|split; [exact Hkind|]].
    + apply events_since_app. now rewrite trace_rename, Hbefore, <- app_assoc.
    + intros Hok. apply rename_moves; [|exact Hok].
      apply file_at_path in Hfile1 as [_ Hin]. now apply occupied_stored in Hin.
Qed.

Lemma backup_moves_output_witness :
  exists before ok,
    events_since sample_world
      (alone (sample_env 1700000000000)
         (backupExistingFile (sample_env 1700000000000)
            (AFile sample_output) "bak") sample_world)
    = (before
       ++ [Rename "out/bookmarks.md" "bak/bookmarks-20231114221320.md" ok])%list.
Proof.
  pose proof (backup_moves_output (sample_env 1700000000000) sample_output
                "bak" sample_world) as H.
  destruct H as (_ & before & ok & Hev & _).
  - reflexivity.
  - exists before, ok. exact Hev.
Defined.

(* ================================================================= *)
(** ** More on a run *)

(** X12.  With a keep count of 1 or less, zero and negative counts
    included, a run that rotates leaves one entry in the backup folder:
    all the backups it found are trashed, and the backup it makes of the
    previous output stays, because the prune has read the folder before
    that backup arrived in it. *)
Theorem low_keep_count_keeps_fresh_backup (settings : fbmPluginSettings)
  (env : environment) (w : world) (file : TFile) :
  (keepCount settings <= 1)%Z ->
  mdFolderPath settings <> backupFolderPath settings ->
  getAbstractFileByPath (vault w)
    (mdFolderPath settings ++ "/" ++ mdFileName settings) = Some (AFile file) ->
  rotates settings env w = true ->
  backups settings (processXBELFileData settings env w)
  = [AFile (backup_of settings env file)].
Proof.
  intros Hk Hneq Hfile Hrot.
  rewrite (rotation_listing settings env w file Hneq Hfile Hrot).
  rewrite skipn_all2 by (rewrite length_sort; lia). reflexivity.
Qed.

Lemma low_keep_count_keeps_fresh_backup_witness :
  backups (with_keepCount 0 sample_settings)
    (processXBELFileData (with_keepCount 0 sample_settings)
       (sample_env 1700000000000)
       (mkWorld [mkTFolder "out" [AFile sample_output]; sample_backups] []))
  = [AFile (backup_of (with_keepCount 0 sample_settings)
              (sample_env 1700000000000) sample_output)].
Proof.
  apply low_keep_count_keeps_fresh_backup.
  - cbn [keepCount with_keepCount]. lia.
  - discriminate.
  - reflexivity.
  - vm_compute. reflexivity.
Defined.

(** X13.  Whatever the keep count and the modification times, the backup
    that a rotating run makes of the previous output is in the backup
    folder after the run, as its last entry: the prune of the run does
    not see it.  Before it come backups the folder had already, the
    newest [keepCount - 1] of them or all when they are fewer. *)
Theorem fresh_backup_survives (settings : fbmPluginSettings)
  (env : environment) (w : world) (file : TFile) :
  mdFolderPath settings <> backupFolderPath settings ->
  getAbstractFileByPath (vault w)
    (mdFolderPath settings ++ "/" ++ mdFileName settings) = Some (AFile file) ->
  rotates settings env w = true ->
  exists deleted kept,
    backups settings (processXBELFileData settings env w)
    = (map AFile kept ++ [AFile (backup_of settings env file)])%list
    /\ Permutation (map AFile (deleted ++ kept)) (backups settings w)
    /\ (forall a b, In a deleted -> In b kept -> older a b)
    /\ Z.of_nat (length kept)
       = Z.min (Z.of_nat (length (backups settings w)))
               (Z.max (keepCount settings - 1) 0).
Proof.
  intros Hneq Hfile Hrot.
  destruct (rotates_output settings env w Hrot) as [_ Hfiles].
  pose proof (rotation_listing settings env w file Hneq Hfile Hrot) as Hl.
  cbv zeta in Hl.
  set (files := files_of (backups settings w)) in *.
  set (c := Z.to_nat (Z.of_nat (length files) - keepCount settings + 1)) in *.
  exists (firstn c (sort files)), (skipn c (sort files)).
  split; [exact Hl|]. rewrite firstn_skipn, Hfiles. split; [|split].
  - apply Permutation_map, sort_Permutation.
  - intros a b Ha Hb.
    apply (StronglySorted_firstn_skipn (sort files) c);
      [apply sort_StronglySorted | exact Ha | exact Hb].
  - rewrite length_skipn, length_sort, length_map. unfold c. lia.
Qed.

Lemma fresh_backup_survives_witness :
  exists deleted kept,
    backups sample_settings
      (processXBELFileData sample_settings (sample_env 1700000000000)
         (mkWorld [mkTFolder "out" [AFile sample_output]; sample_backups] []))
    = (map AFile kept
       ++ [AFile (backup_of sample_settings (sample_env 1700000000000)
                    sample_output)])%list
    /\ Permutation (map AFile (deleted ++ kept))
         (backups sample_settings
            (mkWorld [mkTFolder "out" [AFile sample_output]; sample_backups] []))
    /\ (forall a b, In a deleted -> In b kept -> older a b)
    /\ Z.of_nat (length kept)
       = Z.min (Z.of_nat (length (backups sample_settings
                  (mkWorld [mkTFolder "out" [AFile sample_output];
                            sample_backups] []))))
               (Z.max (keepCount sample_settings - 1) 0).
Proof.
  apply (fresh_backup_survives sample_settings (sample_env 1700000000000)
           (mkWorld [mkTFolder "out" [AFile sample_output]; sample_backups] [])
           sample_output).
  - discriminate.
  - reflexivity.
  - vm_compute. reflexivity.
Defined.

(* ----------------------------------------------------------------- *)
(** *** The requests of a run *)

Lemma forallb_TrashRequest (l : list TAbstractFile) :
  forallb is_TrashRequest (map TrashRequest l) = true.
Proof. induction l as [|x r IH]; [reflexivity | exact IH]. Qed.

Lemma ensureFolder_sent (p : string) (c : calls) :
  exists l,
    sent (ensureFolder p c) = (sent c ++ l)%list
    /\ forallb is_CreateFolderRequest l = true
    /\ thrown (ensureFolder p c) = thrown c.
Proof.
  unfold ensureFolder. destruct (getAbstractFileByPath (memory c) p).
  - exists []. now rewrite app_nil_r.
  - now exists [CreateFolderRequest p].
Qed.

(** The requests of the rotation: for the missing folders, then at most
    one move, then the trash requests of the prune, none when the
    rotation throws. *)
Lemma rotation_sent (settings : fbmPluginSettings) (env : environment)
  (v : list TFolder) :
  exists folders moves trashes,
    sent (rotation settings env v) = (folders ++ moves ++ trashes)%list
    /\ forallb is_CreateFolderRequest folders = true
    /\ (moves = [] \/ exists file folder name,
                        moves = [RenameRequest file folder name])
    /\ forallb is_TrashRequest trashes = true
    /\ (thrown (rotation settings env v) = true -> trashes = []).
Proof.
  unfold rotation. cbv zeta.
  pose proof (memory_before_prune settings env v) as Hm.
  destruct (ensureFolder_sent (mdFolderPath settings) (mkCalls v [] false))
    as (l1 & Hl1 & Hk1 & Ht1).
  cbn [sent thrown app] in Hl1, Ht1.
  set (c1 := ensureFolder (mdFolderPath settings) (mkCalls v [] false)) in *.
  destruct (ensureFolder_sent (backupFolderPath settings) c1)
    as (l2 & Hl2 & Hk2 & Ht2).
  rewrite Hl1 in Hl2. rewrite Ht1 in Ht2.
  assert (exists moves,
             sent match getAbstractFileByPath v
                          (mdFolderPath settings ++ "/" ++ mdFileName settings) with
                  | Some file =>
                      backupExistingFile env file (backupFolderPath settings) c1
                  | None => c1
                  end
             = ((if match getAbstractFileByPath v
                            (mdFolderPath settings ++ "/" ++ mdFileName settings) with
                    | Some _ => true
                    | None => false
                    end then l1 ++ l2 else l1) ++ moves)%list
             /\ (moves = [] \/ exists file folder name,
                                 moves = [RenameRequest file folder name]))
    as (moves & Hsent & Hmoves).
  { destruct (getAbstractFileByPath v _) as [[f|q]|].
    - eexists. unfold backupExistingFile. cbv zeta. unfold send.
      cbn [sent]. rewrite Hl2. split; [reflexivity|]. right. eauto.
    - exists []. unfold backupExistingFile, throw. cbn [sent].
      rewrite Hl2, app_nil_r. split; [reflexivity | now left].
    - exists []. rewrite app_nil_r. split; [exact Hl1 | now left]. }
  set (c2 := match getAbstractFileByPath v _ with
             | Some file => backupExistingFile env file (backupFolderPath settings) c1
             | None => c1
             end) in *.
  set (folders := if match getAbstractFileByPath v _ with
                     | Some _ => true
                     | None => false
                     end then (l1 ++ l2)%list else l1) in *.
  assert (forallb is_CreateFolderRequest folders = true) as Hfolders.
  { unfold folders. destruct (getAbstractFileByPath v _); [|exact Hk1].
    rewrite forallb_app, Hk1. exact Hk2. }
  destruct (thrown c2) eqn:Hthrown.
  - exists folders, moves, []. rewrite app_nil_r. now repeat split.
  - destruct (deleteOldBackups_sent (backupFolderPath settings)
                (keepCount settings) c2) as (l & Hl & _ & Hnone & _).
    exists folders, moves, (map TrashRequest l).
    split; [now rewrite Hl, Hsent, <- app_assoc|].
    split; [exact Hfolders|]. split; [exact Hmoves|].
    split; [apply forallb_TrashRequest|].
    intros H. now rewrite (Hnone Hthrown H).
Qed.

Lemma answers_CreateFolder (rs : list request) (es : list event) :
  Forall2 answers rs es ->
  forallb is_CreateFolderRequest rs = true ->
  forallb is_CreateFolder es = true.
Proof.
  induction 1 as [|r e rs es Hre _ IH]; [reflexivity|].
  cbn [forallb]. intros H. apply andb_prop in H as [Hr Hrs].
  rewrite (IH Hrs), andb_true_r.
  destruct r; try discriminate. destruct e; cbn [answers] in Hre;
    try contradiction. reflexivity.
Qed.

Lemma answers_Trash (rs : list request) (es : list event) :
  Forall2 answers rs es ->
  forallb is_TrashRequest rs = true ->
  forallb is_Trash es = true.
Proof.
  induction 1 as [|r e rs es Hre _ IH]; [reflexivity|].
  cbn [forallb]. intros H. apply andb_prop in H as [Hr Hrs].
  rewrite (IH Hrs), andb_true_r.
  destruct r; try discriminate. destruct e; cbn [answers] in Hre;
    try contradiction. reflexivity.
Qed.

(** What a run asks of the storage before the [try] block: folders,
    then at most one move, then the trash requests of the prune. *)
Lemma before_conversion_events (settings : fbmPluginSettings)
  (env : environment) (w : world) :
  exists folders moves trashes,
    events_since w (before_conversion settings env w)
    = (folders ++ moves ++ trashes)%list
    /\ forallb is_CreateFolder folders = true
    /\ (moves = [] \/ exists from to ok, moves = [Rename from to ok])
    /\ forallb is_Trash trashes = true
    /\ (thrown (rotation settings env (vault w)) = true -> trashes = []).
Proof.
  destruct (rotation_sent settings env (vault w))
    as (rf & rm & rt & Hsent & Hf & Hm & Ht & Hnone).
  pose proof (events_before_conversion settings env w) as Hall.
  rewrite Hsent in Hall.
  apply Forall2_app_inv_l in Hall as (ef & rest & Hef & Hall & ->).
  apply Forall2_app_inv_l in Hall as (em & et & Hem & Het & ->).
  exists ef, em, et. split; [reflexivity|].
  split; [exact (answers_CreateFolder _ _ Hef Hf)|].
  split; [|split; [exact (answers_Trash _ _ Het Ht)|]].
  - destruct Hm as [-> | (file & folder & name & ->)].
    + left. now inversion Hem.
    + right. inversion Hem as [|r e rs es Hre Hnil]; subst.
      inversion Hnil; subst. destruct e; cbn [answers] in Hre;
        try contradiction. eauto.
  - intros H. rewrite (Hnone H) in Het. now inversion Het.
Qed.

Lemma events_failed_conversion (settings : fbmPluginSettings)
  (env : environment) (w : world) :
  xbel env = None
  \/ (exists x, xbel env = Some x /\ writeFolderStructure x 0 = TypeError) ->
  convertAndCreate settings env w = log ConsoleError w.
Proof.
  unfold convertAndCreate. intros [-> | (x & -> & ->)]; reflexivity.
Qed.

(** X14.  The requests of a run come in one order: the creation of the
    missing folders, then at most one move, then the trash requests of
    the prune.  After them the run ends in one of three ways: by the
    exception that the rotation has thrown, uncaught, and then without
    any trash request; by a report on the console, when the input could
    not be read, parsed or converted; or by one write request for the
    converted text, followed by a report on the console when it is
    refused.  Nothing is written before the rotation is over, and
    nothing is asked of the storage after the write. *)
Theorem run_requests_in_order (settings : fbmPluginSettings)
  (env : environment) (w : world) :
  exists folders moves trashes last,
    events_since w (processXBELFileData settings env w)
    = (folders ++ moves ++ trashes ++ last)%list
    /\ forallb is_CreateFolder folders = true
    /\ (moves = [] \/ exists from to ok, moves = [Rename from to ok])
    /\ forallb is_Trash trashes = true
    /\ (last = [Uncaught] /\ trashes = []
        \/ last = [ConsoleError]
        \/ exists x data ok,
             xbel env = Some x
             /\ writeFolderStructure x 0 = Ok data
             /\ last = Create (mdFolderPath settings ++ "/" ++ mdFileName settings)
                         data ok
                       :: (if ok then [] else [ConsoleError])).
Proof.
  destruct (before_conversion_events settings env w)
    as (folders & moves & trashes & Hev & Hf & Hm & Ht & Hnone).
  exists folders, moves, trashes. eexists.
  split; [|split; [exact Hf | split; [exact Hm | split; [exact Ht|]]]].
  - rewrite events_of_run, Hev, <- !app_assoc. reflexivity.
  - destruct (thrown (rotation settings env (vault w)));
      [left; split; [reflexivity | now apply Hnone]|].
    right. destruct (xbel env) as [x|] eqn:Hx.
    + destruct (writeFolderStructure x 0) as [data|] eqn:Hdata.
      * right. exists x, data. eexists. split; [reflexivity|].
        split; [exact Hdata|].
        apply (events_convertAndCreate settings env _ x data Hx Hdata).
      * left. rewrite events_failed_conversion by eauto.
        now apply events_since_app.
    + left. rewrite events_failed_conversion by now left.
      now apply events_since_app.
Qed.

(** X15.  When the input is converted and every request of the run is
    carried out, the file found at the output path after the run holds
    exactly the converted text, with the time of the run as its
    modification time. *)
Theorem written_text_is_stored (settings : fbmPluginSettings)
  (env : environment) (w : world) (x : value) (data : string) :
  xbel env = Some x ->
  writeFolderStructure x 0 = Ok data ->
  forallb succeeded (events_since w (processXBELFileData settings env w)) = true ->
  file_at (vault (processXBELFileData settings env w))
    (mdFolderPath settings ++ "/" ++ mdFileName settings)
  = Some (mkTFile (mdFolderPath settings ++ "/" ++ mdFileName settings)
            (Path.basename_of (mdFileName settings))
            (Path.extension_of (mdFileName settings)) (now env) data).
Proof.
  intros Hx Hdata Hall.
  pose proof (succeeded_returns settings env w Hall) as Hret.
  rewrite events_of_run, Hret, forallb_app in Hall.
  apply andb_prop in Hall as [_ Hlast].
  rewrite (events_convertAndCreate settings env _ x data Hx Hdata) in Hlast.
  cbn [forallb succeeded] in Hlast. apply andb_prop in Hlast as [Hok _].
  rewrite (vault_of_run settings env w Hret). unfold convertAndCreate.
  rewrite Hx, Hdata, Hok. now apply create_lookup.
Qed.

Lemma written_text_is_stored_witness :
  file_at
    (vault (processXBELFileData sample_settings (sample_env 1700000000000)
              sample_world)) "out/bookmarks.md"
  = Some (mkTFile "out/bookmarks.md" "bookmarks" "md" 1700000000000 example_text).
Proof.
  apply (written_text_is_stored sample_settings (sample_env 1700000000000)
           sample_world (raw example_tree) example_text); reflexivity.
Defined.

Lemma stored_createFolder (env : environment) (p : string) (w : world) :
  stored (vault (createFolder env p w)) = stored (vault w).
Proof.
  unfold createFolder.
  destruct (storage_createFolder env p && negb (occupied (vault w) p));
    cbn [log vault]; [|reflexivity].
  rewrite stored_app, stored_new_entry. unfold stored at 2.
  cbn [flat_map children app files_of]. now rewrite app_nil_r.
Qed.

Lemma stored_settle_folders (env : environment) (folders : list request)
  (w : world) :
  forallb is_CreateFolderRequest folders = true ->
  stored (vault (settle env folders w)) = stored (vault w).
Proof.
  revert w. induction folders as [|r rest IH]; intros w H; [reflexivity|].
  cbn [forallb] in H. apply andb_prop in H as [Hr Hrest].
  cbn [settle fold_left]. fold (settle env rest (carry_out env r w)).
  rewrite (IH _ Hrest). destruct r; try discriminate.
  apply stored_createFolder.
Qed.

(** Trashing brings no file into the vault. *)
Lemma stored_settle_trashes (env : environment) (l : list TAbstractFile)
  (w : world) (t : TFile) :
  In t (stored (vault (settle env (map TrashRequest l) w))) ->
  In t (stored (vault w)).
Proof.
  revert w. induction l as [|x r IH]; intros w H; [exact H|].
  cbn [map settle fold_left carry_out] in H.
  fold (settle env (map TrashRequest r) (trash env x w)) in H.
  apply IH in H. unfold trash in H.
  destruct (storage_trash env (path_of x)); cbn [log vault] in H; [|exact H].
  destruct x; [now apply stored_remove_file in H
              | now apply stored_remove_folder in H].
Qed.

(** The rotation of a run that finds an output: requests for the missing
    folders, the move of the output, the trash requests of the prune;
    the vault in memory has the files it had. *)
Lemma rotation_of_file (settings : fbmPluginSettings) (env : environment)
  (v : list TFolder) (file : TFile) :
  getAbstractFileByPath v (mdFolderPath settings ++ "/" ++ mdFileName settings)
  = Some (AFile file) ->
  exists folders l,
    sent (rotation settings env v)
    = (folders
       ++ RenameRequest file (backupFolderPath settings) (backup_name env file)
       :: map TrashRequest l)%list
    /\ forallb is_CreateFolderRequest folders = true
    /\ Permutation (stored (memory (rotation settings env v))) (stored v).
Proof.
  intros Hfile. unfold rotation. cbv zeta. rewrite Hfile.
  destruct (ensureFolder_sent (mdFolderPath settings) (mkCalls v [] false))
    as (l1 & Hl1 & Hk1 & Ht1).
  cbn [sent thrown app] in Hl1, Ht1.
  set (c1 := ensureFolder (mdFolderPath settings) (mkCalls v [] false)) in *.
  destruct (ensureFolder_sent (backupFolderPath settings) c1)
    as (l2 & Hl2 & Hk2 & Ht2).
  rewrite Hl1 in Hl2. rewrite Ht1 in Ht2.
  unfold backupExistingFile. cbv zeta. fold (backup_name env file).
  set (c2 := send _ (ensureFolder (backupFolderPath settings) c1)).
  assert (memory c2 = v) as Hm
    by (unfold c2, send, c1; cbn [memory]; now rewrite !memory_ensureFolder).
  assert (thrown c2 = false) as -> by (unfold c2, send; now cbn [thrown]).
  destruct (deleteOldBackups_sent (backupFolderPath settings)
              (keepCount settings) c2) as (l & Hl & Hmem & _).
  exists (l1 ++ l2)%list, l. split; [|split].
  - rewrite Hl. unfold c2, send. cbn [sent]. rewrite Hl2.
    now rewrite <- !app_assoc.
  - now rewrite forallb_app, Hk1.
  - rewrite Hmem, Hm.
    destruct (folder_at v (backupFolderPath settings)) as [d|] eqn:Hd;
      [|apply Permutation_refl].
    destruct (sort_by_mtime (children d)) as [s|] eqn:Hs;
      [|apply Permutation_refl].
    apply (stored_reordered _ _ _ d Hd).
    now apply sort_by_mtime_Permutation.
Qed.

(** The world before the [try] block of a run that finds an output: the
    one move of the run, and what is at the path of the output once it
    has succeeded. *)
Lemma moved_before_conversion (settings : fbmPluginSettings)
  (env : environment) (w : world) (file : TFile) :
  getAbstractFileByPath (vault w)
    (mdFolderPath settings ++ "/" ++ mdFileName settings) = Some (AFile file) ->
  exists folders ok trashes,
    events_since w (before_conversion settings env w)
    = (folders
       ++ Rename (path file) (path (backup_of settings env file)) ok
       :: trashes)%list
    /\ forallb is_CreateFolder folders = true
    /\ forallb is_Trash trashes = true
    /\ (ok = true ->
        file_at (vault (before_conversion settings env w)) (path file) = None).
Proof.
  intros Hfile.
  destruct (rotation_of_file settings env (vault w) file Hfile)
    as (rf & l & Hsent & Hrf & Hperm).
  unfold before_conversion, carried_out. rewrite Hsent.
  set (w0 := mkWorld (memory (rotation settings env (vault w))) (trace w)).
  rewrite settle_app. cbn [settle fold_left carry_out].
  fold (settle env rf w0).
  set (bak := backupFolderPath settings). set (name := backup_name env file).
  fold (settle env (map TrashRequest l) (rename env file bak name (settle env rf w0))).
  set (wa := settle env rf w0).
  set (wb := rename env file bak name wa).
  destruct (trace_settle env rf w0) as (ef & Hef & Hall). fold wa in Hef.
  cbn [trace w0] in Hef.
  exists ef, (rename_ok env file bak name (vault wa)),
    (map (fun e => Trash (path_of e) (storage_trash env (path_of e))) l).
  split; [|split; [exact (answers_CreateFolder _ _ Hall Hrf) | split]].
  - apply events_since_app.
    rewrite trace_trashes. unfold wb. rewrite trace_rename, Hef.
    now rewrite <- !app_assoc.
  - apply forallb_forall. intros e He.
    now apply in_map_iff in He as (f & <- & _).
  - intros Hok. apply file_at_None. intros Hin.
    apply in_map_iff in Hin as (t & Hp & Hin).
    apply stored_settle_trashes in Hin.
    assert (occupied (vault wa) (path file) = true) as Hocc.
    { apply occupied_stored. unfold wa.
      rewrite (stored_settle_folders env rf w0 Hrf). cbn [vault w0].
      apply (Permutation_in _ (Permutation_sym Hperm)).
      apply getAbstractFileByPath_file in Hfile as [_ Hat].
      now apply file_at_path in Hat as [_ Hin']. }
    destruct (rename_moves env file bak name wa Hocc Hok) as [Hgone _].
    fold wb in Hgone. apply file_at_None in Hgone. apply Hgone.
    rewrite <- Hp. now apply in_map.
Qed.

(** X16.  When the previous output has been moved to the backup folder
    and the input then cannot be read, parsed or converted, the run ends
    with nothing at the output path, and no write request is sent.  The
    move was to the name of the backup; when the run rotates, the backup
    is in the backup folder after the run, with the previous text. *)
Theorem failed_conversion_leaves_no_output (settings : fbmPluginSettings)
  (env : environment) (w : world) (file : TFile) (to : string) :
  getAbstractFileByPath (vault w)
    (mdFolderPath settings ++ "/" ++ mdFileName settings) = Some (AFile file) ->
  xbel env = None
  \/ (exists x, xbel env = Some x /\ writeFolderStructure x 0 = TypeError) ->
  In (Rename (path file) to true)
     (events_since w (processXBELFileData settings env w)) ->
  file_at (vault (processXBELFileData settings env w))
    (mdFolderPath settings ++ "/" ++ mdFileName settings) = None
  /\ (forall q data ok,
        ~ In (Create q data ok)
             (events_since w (processXBELFileData settings env w)))
  /\ to = path (backup_of settings env file)
  /\ (mdFolderPath settings <> backupFolderPath settings ->
      rotates settings env w = true ->
      In (AFile (backup_of settings env file))
         (backups settings (processXBELFileData settings env w))
      /\ contents (backup_of settings env file) = contents file).
Proof.
  intros Hfile Hfail Hmoved.
  destruct (moved_before_conversion settings env w file Hfile)
    as (folders & ok & trashes & Hev & Hf & Ht & Hgone).
  assert (exists e, (e = Uncaught \/ e = ConsoleError)
                    /\ processXBELFileData settings env w
                       = log e (before_conversion settings env w))
    as (e & He & Hrun).
  { unfold processXBELFileData. cbv zeta.
    fold (before_conversion settings env w).
    destruct (thrown (rotation settings env (vault w))).
    - exists Uncaught. split; [now left | reflexivity].
    - exists ConsoleError. split; [now right|].
      now apply events_failed_conversion. }
  assert (events_since w (processXBELFileData settings env w)
          = ((folders
              ++ Rename (path file) (path (backup_of settings env file)) ok
              :: trashes) ++ [e])%list) as Hevents.
  { rewrite Hrun, <- Hev.
    rewrite (events_since_trans w (before_conversion settings env w) _
               (extends_carried_out _ _ _) (extends_log _ _)).
    f_equal. now apply events_since_app. }
  rewrite Hevents in Hmoved |- *. rewrite forallb_forall in Hf, Ht.
  assert (to = path (backup_of settings env file) /\ ok = true) as [Hto Hok].
  { apply in_app_or in Hmoved as [H | [H | []]].
    - apply in_app_or in H as [H | [H | H]].
      + now apply Hf in H.
      + injection H as H1 H2. split; [now symmetry | exact H2].
      + now apply Ht in H.
    - destruct He as [-> | ->]; discriminate. }
  split; [|split; [|split; [exact Hto|]]].
  - rewrite Hrun. cbn [log vault].
    apply getAbstractFileByPath_file in Hfile as [_ Hat].
    apply file_at_path in Hat as [<- _]. now apply Hgone.
  - intros q data ok' H. apply in_app_or in H as [H | [H | []]].
    + apply in_app_or in H as [H | [H | H]];
        [now apply Hf in H | discriminate | now apply Ht in H].
    + destruct He as [-> | ->]; discriminate.
  - intros Hneq Hrot. split; [|reflexivity].
    rewrite (rotation_listing settings env w file Hneq Hfile Hrot).
    apply in_or_app. right. now left.
Qed.

Lemma failed_conversion_leaves_no_output_witness :
  file_at
    (vault (processXBELFileData sample_settings
              (mkEnvironment 1700000000000 0 None
                 (fun _ => true) (fun _ _ => true) (fun _ => true) (fun _ => true))
              sample_world)) "out/bookmarks.md" = None.
Proof.
  apply (failed_conversion_leaves_no_output sample_settings
           (mkEnvironment 1700000000000 0 None
              (fun _ => true) (fun _ _ => true) (fun _ => true) (fun _ => true))
           sample_world sample_output "bak/bookmarks-20231114221320.md").
  - reflexivity.
  - now left.
  - vm_compute. right. left. reflexivity.
Defined.

(** X17.  A parsed document whose root has no [folder] and no
    [bookmark] property (the root of an empty XBEL file, or [undefined]
    when the root element is not [xbel]) is no error: unless the
    rotation has thrown, the run goes on to the write request, with the
    empty text. *)
Theorem childless_root_gives_empty_file (settings : fbmPluginSettings)
  (env : environment) (w : world) (x : value) :
  xbel env = Some x ->
  folder_bearing x = false ->
  plain x = true ->
  thrown (rotation settings env (vault w)) = false ->
  exists before ok,
    events_since w (processXBELFileData settings env w)
    = (before
       ++ Create (mdFolderPath settings ++ "/" ++ mdFileName settings) "" ok
       :: (if ok then [] else [ConsoleError]))%list.
Proof.
  intros Hx Hf Hp Hret.
  exists (events_since w (before_conversion settings env w)).
  eexists. rewrite events_of_run, Hret. f_equal.
  apply (events_convertAndCreate settings env _ x "" Hx).
  now apply childless_renders_nothing.
Qed.

Lemma childless_root_gives_empty_file_witness :
  exists before ok,
    events_since (mkWorld [] [])
      (processXBELFileData sample_settings
         (mkEnvironment 0 0 (Some VUndefined)
            (fun _ => true) (fun _ _ => true) (fun _ => true) (fun _ => true))
         (mkWorld [] []))
    = (before ++ Create "out/bookmarks.md" "" ok
       :: (if ok then [] else [ConsoleError]))%list.
Proof.
  apply (childless_root_gives_empty_file sample_settings
           (mkEnvironment 0 0 (Some VUndefined)
              (fun _ => true) (fun _ _ => true) (fun _ => true) (fun _ => true))
           (mkWorld [] []) VUndefined); reflexivity.
Defined.

(** X21.  The rotation throws in three cases and in no other: a folder
    is stored at the path of the output, a file is stored at the backup
    location, or the backup folder has two entries or more and a
    sub-folder among them.  The run then ends uncaught, outside the
    [try] block: nothing is written and nothing is reported on the
    console, while the requests sent before the exception, the move of
    the output among them, are carried out. *)
Theorem rotation_throws (settings : fbmPluginSettings) (env : environment)
  (w : world) :
  (thrown (rotation settings env (vault w)) = true <->
   (exists q, getAbstractFileByPath (vault w)
                (mdFolderPath settings ++ "/" ++ mdFileName settings)
              = Some (AFolder q))
   \/ (exists g, getAbstractFileByPath (vault w) (backupFolderPath settings)
                 = Some (AFile g))
   \/ (exists d, folder_at (vault w) (backupFolderPath settings) = Some d
                 /\ (2 <= length (children d))%nat
                 /\ forallb is_file (children d) = false))
  /\ (thrown (rotation settings env (vault w)) = true ->
      processXBELFileData settings env w
      = log Uncaught (before_conversion settings env w)
      /\ forall e, In e (events_since w (processXBELFileData settings env w)) ->
                   e <> ConsoleError /\ forall q data ok, e <> Create q data ok).
Proof.
  split.
  - unfold rotation. cbv zeta.
    pose proof (memory_before_prune settings env (vault w)) as Hm.
    set (v := vault w) in *.
    set (c1 := ensureFolder (mdFolderPath settings) (mkCalls v [] false)) in *.
    assert (thrown c1 = false) as Hc1.
    { unfold c1, ensureFolder. cbn [memory].
      now destruct (getAbstractFileByPath v (mdFolderPath settings)). }
    assert (forall c, thrown (ensureFolder (backupFolderPath settings) c)
                      = thrown c) as Hbak.
    { intros c. unfold ensureFolder.
      now destruct (getAbstractFileByPath (memory c) (backupFolderPath settings)). }
    destruct (getAbstractFileByPath v
                (mdFolderPath settings ++ "/" ++ mdFileName settings))
      as [[f|q]|] eqn:Hfile.
    2:{ unfold backupExistingFile, throw in *. cbn [thrown].
        split; [intros _; left; now exists q | reflexivity]. }
    all: match goal with
         | |- thrown (if thrown ?c then _ else _) = true <-> _ =>
             assert (thrown c = false) as Hc2
               by (unfold backupExistingFile, send; cbn [thrown];
                   now rewrite ?Hbak);
             rewrite Hc2;
             set (c2 := c) in *
         end.
    all: destruct (folder_at v (backupFolderPath settings)) as [d|] eqn:Hd.
    all: try (rewrite (deleteOldBackups_folder _ _ c2 d) by now rewrite Hm).
    all: try (rewrite (deleteOldBackups_no_folder _ _ c2) by now rewrite Hm).
    all: rewrite ?Hm.
    all: try (destruct (sort_by_mtime (children d)) as [s|] eqn:Hs;
              cbn [throw thrown]; rewrite ?Hc2).
    all: try (destruct (file_at v (backupFolderPath settings)) as [g|] eqn:Hg;
              cbn [throw thrown]; rewrite ?Hc2).
    all: split; try discriminate; try reflexivity.
    all: try (intros [(q & Hq) | [(g' & Hg') | (d' & Hd' & Hlen & Hall)]];
              try discriminate).
    all: try (apply getAbstractFileByPath_file in Hg' as [Hno Hg'];
              congruence).
    all: try (injection Hd' as <-;
              assert (sort_by_mtime (children d) = None) as Hnone
                by (apply sort_by_mtime_None; now split); congruence).
    all: try (intros _; right; right; exists d;
              apply sort_by_mtime_None in Hs; now split).
    all: try (intros _; right; left; exists g;
              apply getAbstractFileByPath_file; now split).
  - intros Hthrown. split.
    + unfold processXBELFileData. cbv zeta. now rewrite Hthrown.
    + intros e He. rewrite events_of_run, Hthrown in He.
      apply in_app_or in He as [He | [<- | []]].
      * pose proof (events_before_conversion settings env w) as Hall.
        induction Hall as [|r e' rs es Hre _ IH]; [contradiction|].
        destruct He as [-> | He]; [|exact (IH He)].
        apply answers_request in Hre as (H1 & _ & H3). now split.
      * split; [discriminate | intros q data ok; discriminate].
Qed.

Lemma rotation_throws_witness :
  processXBELFileData sample_settings (sample_env 1700000000000)
    folder_among_backups
  = log Uncaught
      (before_conversion sample_settings (sample_env 1700000000000)
         folder_among_backups).
Proof.
  apply (proj2 (rotation_throws sample_settings (sample_env 1700000000000)
                  folder_among_backups)).
  apply (proj1 (rotation_throws sample_settings (sample_env 1700000000000)
                  folder_among_backups)).
  right. right. eexists. split; [reflexivity|]. split; [|reflexivity].
  cbn [children length]. lia.
Defined.
(* ================================================================= *)
(** ** Settings *)

Section ObjectAssignFacts.

Context {V : Type}.

Lemma lookup_set_property (k k' : string) (v : V) (o : list (string * V)) :
  lookup k (set_property k' v o)
  = if String.eqb k' k then Some v else lookup k o.
Proof.
  induction o as [|[k0 v0] r IH]; cbn [set_property lookup].
  - reflexivity.
  - destruct (String.eqb k0 k') eqn:E0; cbn [lookup].
    + apply String.eqb_eq in E0. subst k0.
      now destruct (String.eqb k' k).
    + rewrite IH. destruct (String.eqb k0 k) eqn:E1; [|reflexivity].
      apply String.eqb_eq in E1. subst k0.
      now rewrite String.eqb_sym, E0.
Qed.

Lemma lookup_assign (k : string) (source target : list (string * V)) :
  NoDup (map fst source) ->
  lookup k (assign target source)
  = match lookup k source with
    | Some v => Some v
    | None => lookup k target
    end.
Proof.
  unfold assign. revert target.
  induction source as [|[k0 v0] r IH]; intros target Hnd; cbn [fold_left lookup].
  - reflexivity.
  - cbn [map fst] in Hnd. apply NoDup_cons_iff in Hnd as [Hnot Hnd].
    rewrite (IH _ Hnd). cbn [fst snd]. rewrite lookup_set_property.
    destruct (String.eqb k0 k) eqn:E0; [|reflexivity].
    apply String.eqb_eq in E0. subst k0.
    assert (lookup k r = None) as ->; [|reflexivity].
    clear -Hnot. induction r as [|[k1 v1] r IH]; [reflexivity|].
    cbn [lookup]. destruct (String.eqb k1 k) eqn:E1.
    + apply String.eqb_eq in E1. subst k1. exfalso. apply Hnot. now left.
    + apply IH. intros Hin. apply Hnot. now right.
Qed.

End ObjectAssignFacts.

(** X18 (main.ts, 60-62, [loadSettings]).  The loaded settings are the
    saved ones laid over the defaults: a key that the saved data has
    gets the saved value, whatever it is, and every other key keeps its
    default; when nothing was saved, or the saved object is empty, the
    defaults alone remain.  (Keys are distinct in an object, which is
    the hypothesis.) *)
Theorem loadSettings_saved_over_defaults {V : Type}
  (defaults : list (string * V)) (data : option (list (string * V)))
  (k : string) :
  NoDup (map fst defaults) ->
  NoDup (map fst (match data with Some o => o | None => [] end)) ->
  lookup k (loadSettings defaults data)
  = match match data with Some o => lookup k o | None => None end with
    | Some v => Some v
    | None => lookup k defaults
    end.
Proof.
  intros Hdefaults Hdata. unfold loadSettings.
  rewrite (lookup_assign k _ _ Hdata), (lookup_assign k _ _ Hdefaults).
  destruct data as [o|]; cbn [lookup]; [|now destruct (lookup k defaults)].
  destruct (lookup k o); [reflexivity|]. now destruct (lookup k defaults).
Qed.

Lemma loadSettings_saved_over_defaults_witness :
  lookup "keepCount"
    (loadSettings DEFAULT_SETTINGS_object
       (Some [("keepCount", Text "many"); ("other", Flag true)]))
  = Some (Text "many").
Proof.
  apply (loadSettings_saved_over_defaults DEFAULT_SETTINGS_object
           (Some [("keepCount", Text "many"); ("other", Flag true)])
           "keepCount").
  - cbn [map fst DEFAULT_SETTINGS_object].
    repeat (apply NoDup_cons; [cbn [In]; intros H; repeat destruct H as [H|H]; try discriminate H; exact H|]).
    apply NoDup_nil.
  - cbn [map fst].
    repeat (apply NoDup_cons; [cbn [In]; intros H; repeat destruct H as [H|H]; try discriminate H; exact H|]).
    apply NoDup_nil.
Defined.

Section KeepCountField.

Import Num.
Open Scope Z_scope.

Lemma digit_value_digit (n : Z) :
  0 <= n < 10 -> digit_value (Date.digit n) = n.
Proof.
  intros Hn. unfold digit_value, Date.digit.
  rewrite (Z.mod_small n 10 Hn).
  rewrite nat_ascii_embedding by lia. lia.
Qed.

Lemma digit_not_sign (n : Z) :
  (Ascii.eqb (Date.digit n) "-" || Ascii.eqb (Date.digit n) "+")%bool = false
  /\ Ascii.eqb (Date.digit n) "-" = false
  /\ is_white (Date.digit n) = false.
Proof.
  destruct (digit_cases n) as (k & Hk & ->).
  do 10 (destruct k as [|k]; [repeat split; reflexivity|]). lia.
Qed.

Lemma scan_digit (acc n : Z) (tail : string) :
  0 <= n < 10 ->
  scan acc (String (Date.digit n) tail) = scan (acc * 10 + n) tail.
Proof.
  intros Hn. cbn [scan].
  now rewrite (proj2 (digit_plain n)), (digit_value_digit n Hn).
Qed.

Lemma decimal_head (f : nat) (n : Z) (tail : string) :
  exists m r, decimal (S f) n tail = String (Date.digit m) r.
Proof.
  revert n tail. induction f as [|f IH]; intros n tail; cbn [decimal].
  - destruct (n <? 10); eauto.
  - destruct (n <? 10); [eauto|].
    apply (IH (n / 10) (String (Date.digit n) tail)).
Qed.

Lemma scan_decimal (f : nat) :
  forall (n : Z) (tail : string),
    0 <= n < 10 ^ Z.of_nat (S f) ->
    exists k, 0 < k /\
      forall acc, scan acc (decimal (S f) n tail) = scan (acc * 10 ^ k + n) tail.
Proof.
  induction f as [|f IH]; intros n tail Hn.
  - change (10 ^ Z.of_nat 1) with 10 in Hn.
    cbn [decimal]. destruct (Z.ltb_spec n 10) as [_|Hge]; [|lia].
    exists 1. split; [lia|]. intros acc.
    rewrite (scan_digit acc n tail Hn). now rewrite Z.pow_1_r.
  - cbn [decimal]. fold (decimal (S f)).
    destruct (Z.ltb_spec n 10) as [Hlt|Hge].
    + exists 1. split; [lia|]. intros acc.
      rewrite (scan_digit acc n tail) by lia. now rewrite Z.pow_1_r.
    + assert (0 <= n / 10 < 10 ^ Z.of_nat (S f)) as Hq.
      { split; [apply Z.div_pos; lia|].
        apply Z.div_lt_upper_bound; [lia|].
        replace (Z.of_nat (S (S f))) with (Z.succ (Z.of_nat (S f))) in Hn by lia.
        rewrite Z.pow_succ_r in Hn by lia. lia. }
      destruct (IH (n / 10) (String (Date.digit n) tail) Hq) as (k & Hk & Hscan).
      exists (k + 1). split; [lia|]. intros acc.
      change (if n <? 10 then String (Date.digit n) tail
              else decimal (S f) (n / 10) (String (Date.digit n) tail))
        with (decimal (S (S f)) n tail) in *.
      rewrite Hscan.
      assert (Date.digit n = Date.digit (n mod 10)) as ->.
      { unfold Date.digit. now rewrite Z.mod_mod by lia. }
      rewrite scan_digit by (apply Z.mod_pos_bound; lia).
      f_equal. rewrite Z.pow_add_r, Z.pow_1_r by lia.
      pose proof (Z.div_mod n 10 ltac:(lia)). lia.
Qed.

Lemma decimal_fuel (n : Z) :
  0 <= n -> 0 <= n < 10 ^ Z.of_nat (S (Z.to_nat (Z.log2 n))).
Proof.
  intros Hn. split; [exact Hn|].
  pose proof (Z.log2_nonneg n) as Hlog.
  replace (Z.of_nat (S (Z.to_nat (Z.log2 n)))) with (Z.succ (Z.log2 n)) by lia.
  destruct (Z.eq_dec n 0) as [->|Hpos].
  - reflexivity.
  - pose proof (Z.log2_spec n ltac:(lia)) as [_ Hup].
    eapply Z.lt_le_trans; [exact Hup|].
    apply Z.pow_le_mono_l. lia.
Qed.

Lemma parseInt_decimal (n : Z) :
  0 <= n <= 2 ^ 53 ->
  parseInt (decimal (S (Z.to_nat (Z.log2 n))) n "") = Integer n
  /\ parseInt (String "-" (decimal (S (Z.to_nat (Z.log2 n))) n ""))
     = Integer (- n).
Proof.
  intros Hn.
  destruct (scan_decimal _ n "" (decimal_fuel n (proj1 Hn))) as (k & Hk & Hscan).
  destruct (decimal_head (Z.to_nat (Z.log2 n)) n "") as (m & r & Hhead).
  specialize (Hscan 0). rewrite Z.mul_0_l, Z.add_0_l in Hscan.
  cbn [scan] in Hscan.
  destruct (digit_not_sign m) as (Hsign & Hminus & Hwhite).
  split.
  - unfold parseInt. rewrite Hhead. cbn [trimStart]. rewrite Hwhite.
    rewrite Hsign, Hminus. rewrite (proj2 (digit_plain m)).
    rewrite <- Hhead, Hscan.
    destruct (Z.leb_spec n (2 ^ 53)) as [_|Hgt]; [|lia].
    f_equal; lia.
  - unfold parseInt. cbn [trimStart].
    change (is_white "-") with false. cbv iota.
    change (Ascii.eqb "-" "-") with true. cbn [orb]. cbv iota.
    rewrite Hhead. rewrite (proj2 (digit_plain m)).
    rewrite <- Hhead, Hscan.
    destruct (Z.leb_spec n (2 ^ 53)) as [_|Hgt]; [|lia].
    f_equal; lia.
Qed.

Lemma parseInt_toText (z : Z) :
  - 2 ^ 53 <= z <= 2 ^ 53 -> parseInt (toText z) = Integer z.
Proof.
  intros Hz. unfold toText. destruct (Z.ltb_spec z 0) as [Hneg|Hpos].
  - destruct (parseInt_decimal (- z) ltac:(lia)) as [_ H].
    rewrite H. f_equal. lia.
  - now destruct (parseInt_decimal z ltac:(lia)) as [H _].
Qed.

Lemma trimStart_white (s : string) :
  (forall c, In c (list_ascii_of_string s) -> is_white c = true) ->
  trimStart s = "".
Proof.
  induction s as [|c r IH]; intros Hall; cbn [trimStart].
  - reflexivity.
  - rewrite (Hall c (or_introl eq_refl)). apply IH.
    intros c' Hin. apply Hall. now right.
Qed.

End KeepCountField.

(** X19 (main.ts, 278-291, the field "Number of Backups to Keep", and
    64-67, [saveSettings]).  The field shows [String(keepCount)] and reads
    it back with [parseInt]: for every integer that a JavaScript number
    holds exactly, negative ones included, the text shown for it is read
    back as that same integer, no bound being checked, and entering it
    stores it as the keep count and starts a run with the settings so
    changed. *)
Theorem keepCount_round_trip (z : Z) (settings : fbmPluginSettings)
  (env : environment) (w : world) :
  (- 2 ^ 53 <= z <= 2 ^ 53)%Z ->
  keepCount_onChange (Num.toText z) settings env w
  = Some (with_keepCount z settings,
          processXBELFileData (with_keepCount z settings) env w).
Proof.
  intros Hz. unfold keepCount_onChange.
  now rewrite (parseInt_toText z Hz).
Qed.

Lemma keepCount_round_trip_witness :
  keepCount_onChange (Num.toText (-3)) sample_settings (sample_env 0) sample_world
  = Some (with_keepCount (-3) sample_settings,
          processXBELFileData (with_keepCount (-3) sample_settings)
            (sample_env 0) sample_world).
Proof.
  apply (keepCount_round_trip (-3) sample_settings (sample_env 0) sample_world).
  split; [apply Z.leb_le | apply Z.leb_le]; reflexivity.
Defined.

(** X20 (main.ts, 284-290).  A text without any digit to read -- empty,
    blank, or a sign alone after the blanks -- is [NaN] for [parseInt]
    and is dropped without a word: the keep count stays, nothing is
    saved and no run is started. *)
Theorem keepCount_blank_ignored (value : string) (settings : fbmPluginSettings)
  (env : environment) (w : world) :
  (forall c, In c (list_ascii_of_string value) -> Num.is_white c = true) ->
  keepCount_onChange value settings env w = Some (settings, w)
  /\ keepCount_onChange (value ++ "-") settings env w = Some (settings, w)
  /\ keepCount_onChange (value ++ "+") settings env w = Some (settings, w).
Proof.
  intros Hall. unfold keepCount_onChange, Num.parseInt.
  assert (forall tail, Num.trimStart (value ++ tail) = Num.trimStart tail) as Htail.
  { intros tail. induction value as [|c r IH]; [reflexivity|].
    cbn [append Num.trimStart]. rewrite (Hall c (or_introl eq_refl)).
    apply IH. intros c' Hin. apply Hall. now right. }
  rewrite !Htail, (trimStart_white value Hall). repeat split.
Qed.

Lemma keepCount_blank_ignored_witness :
  keepCount_onChange "  " sample_settings (sample_env 0) sample_world
  = Some (sample_settings, sample_world).
Proof.
  apply (keepCount_blank_ignored "  " sample_settings (sample_env 0) sample_world).
  intros c [<-|[<-|[]]]; reflexivity.
Defined.
